(** * Streetlight predictive-maintenance pipeline: feature engineering,
      training, inference and history collection

    A shallow embedding of [ml_pipeline/feature_engineering.py],
    [ml_pipeline/inference.py], [ml_pipeline/model_training.py] and
    [ml_pipeline/data_collection.py], and of the two callers of the
    inference engine in the backend: [backend/services/ml_service.py] and
    the ML step of [create_sensor_data] in
    [backend/services/data_service.py].

    Conventions of the embedding.
    - A pandas [DataFrame] is a row count and an ordered list of named
      columns; a column is a list of cells.  The null cell stands for
      [None], [NaN] and [NaT] alike, as [isna] does.
    - A float is [NaN], a signed infinity or a finite rational; [+ - * /]
      are exact on finite values (rounding is not modelled), and the two
      transcendental library calls ([sqrt], [log1p]) are parameters.
    - Python exceptions are values: a computation returns [Ok v] or
      [Raise e]; [try/except Exception] is [try_except].
    - Logging, the clock and the file system are explicit state
      ([World]) threaded through the stateful entry points.  A write can
      be refused by the operating system; whether it is, and what it then
      leaves behind, is a parameter ([write_error]). *)

From Stdlib Require Import List String Ascii Bool Arith ZArith QArith Qreduction Qabs Qround Lia
  DecimalString Sorted Permutation.
Import ListNotations.

Open Scope string_scope.
Open Scope nat_scope.

(* ================================================================== *)
(** ** Exceptions and results *)
(* ================================================================== *)

(** An exception is its class name and its [str(e)] text. *)
Record exn : Type := mk_exn { exn_class : string; exn_msg : string }.

Definition KeyError (key : string) : exn := mk_exn "KeyError" ("'" ++ key ++ "'").
Definition ValueError (msg : string) : exn := mk_exn "ValueError" msg.
Definition TypeError (msg : string) : exn := mk_exn "TypeError" msg.
Definition AttributeError (msg : string) : exn := mk_exn "AttributeError" msg.
Definition JSONDecodeError (msg : string) : exn := mk_exn "JSONDecodeError" msg.

(** [str(e)] *)
Definition str (e : exn) : string := exn_msg e.

Inductive result (A : Type) : Type :=
| Ok (a : A)
| Raise (e : exn).
Arguments Ok {A} a.
Arguments Raise {A} e.

Definition bind {A B : Type} (r : result A) (k : A -> result B) : result B :=
  match r with
  | Ok a => k a
  | Raise e => Raise e
  end.

Declare Scope exc_scope.
Delimit Scope exc_scope with exc.
Notation "x <- c ;; k" := (bind c (fun x => k))
  (at level 61, c at next level, right associativity) : exc_scope.

Definition is_ok {A : Type} (r : result A) : bool :=
  match r with Ok _ => true | Raise _ => false end.

(* ================================================================== *)
(** ** Floats *)
(* ================================================================== *)

Inductive float : Type :=
| NaN
| Inf (negative : bool)
| Num (q : Q).

Definition Qltb (x y : Q) : bool := negb (Qle_bool y x).

(** [a <= b]; every comparison with NaN is false. *)
Definition fleb (a b : float) : bool :=
  match a, b with
  | NaN, _ => false
  | _, NaN => false
  | Inf true, _ => true
  | _, Inf false => true
  | Inf false, _ => false
  | _, Inf true => false
  | Num x, Num y => Qle_bool x y
  end.

Definition fltb (a b : float) : bool := fleb a b && negb (fleb b a).
Definition fgtb (a b : float) : bool := fltb b a.
Definition fgeb (a b : float) : bool := fleb b a.

Definition fneg (a : float) : float :=
  match a with
  | NaN => NaN
  | Inf s => Inf (negb s)
  | Num x => Num (Qred (- x))
  end.

Definition fadd (a b : float) : float :=
  match a, b with
  | NaN, _ => NaN
  | _, NaN => NaN
  | Inf s, Inf t => if Bool.eqb s t then Inf s else NaN
  | Inf s, Num _ => Inf s
  | Num _, Inf t => Inf t
  | Num x, Num y => Num (Qred (x + y))
  end.

Definition fsub (a b : float) : float := fadd a (fneg b).

Definition fsquare (a : float) : float :=
  match a with
  | NaN => NaN
  | Inf _ => Inf false
  | Num x => Num (Qred (x * x))
  end.

(** IEEE division; a finite zero is +0. *)
Definition fdiv (a b : float) : float :=
  match a, b with
  | NaN, _ => NaN
  | _, NaN => NaN
  | Inf _, Inf _ => NaN
  | Inf s, Num y => Inf (xorb s (Qltb y 0))
  | Num _, Inf _ => Num 0
  | Num x, Num y =>
      if Qeq_bool y 0 then
        if Qeq_bool x 0 then NaN else Inf (Qltb x 0)
      else Num (Qred (x / y))
  end.

Definition fabs (a : float) : float :=
  match a with
  | NaN => NaN
  | Inf _ => Inf false
  | Num x => Num (Qabs x)
  end.

Definition of_bool (b : bool) : float := if b then Num 1 else Num 0.
Definition of_Z (z : Z) : float := Num (inject_Z z).
Definition of_nat (n : nat) : float := of_Z (Z.of_nat n).

Definition is_nan (a : float) : bool :=
  match a with NaN => true | _ => false end.

(* ------------------------------------------------------------------ *)
(** Reductions over the finite observations of a window. *)

Definition Qsum (l : list Q) : Q := fold_right Qplus 0%Q l.
Definition Qlen (l : list Q) : Q := inject_Z (Z.of_nat (List.length l)).
Definition Qmean (l : list Q) : Q := Qred (Qsum l / Qlen l).

(** Sample variance, [ddof = 1]. *)
Definition Qvar (l : list Q) : Q :=
  let m := Qmean l in
  Qred (Qsum (map (fun x => (x - m) * (x - m))%Q l) / (Qlen l - 1)).

Definition Qmin2 (x y : Q) : Q := if Qle_bool x y then x else y.
Definition Qmax2 (x y : Q) : Q := if Qle_bool x y then y else x.

Definition fmin2 (a b : float) : float := if fleb a b then a else b.
Definition fmax2 (a b : float) : float := if fleb a b then b else a.

(** The library's numeric kernels that have no rational closed form. *)
Record Numpy : Type := mk_numpy {
  np_sqrt : Q -> Q;     (* on non-negative finite input *)
  np_log1p : Q -> Q     (* log(1 + x) on finite input above -1 *)
}.

(* ================================================================== *)
(** ** Cells, series and frames *)
(* ================================================================== *)

Inductive cell : Type :=
| Fl (x : float)
| Stamp (t : Z)          (* datetime, nanoseconds since the epoch *)
| Str (s : string).

Definition null : cell := Fl NaN.

(** [isna] *)
Definition isnull (c : cell) : bool :=
  match c with Fl NaN => true | _ => false end.

Definition series := list cell.

Record DataFrame : Type := mk_frame {
  index_len : nat;
  columns : list (string * series)
}.

(** [pd.DataFrame()] *)
Definition empty_frame : DataFrame := mk_frame 0 [].

(** [df.empty] *)
Definition empty (df : DataFrame) : bool :=
  (index_len df =? 0) || (match columns df with [] => true | _ => false end).

(** [len(df)] *)
Definition len (df : DataFrame) : nat := index_len df.

Definition column_names (df : DataFrame) : list string := map fst (columns df).

Fixpoint lookup (name : string) (cols : list (string * series)) : option series :=
  match cols with
  | [] => None
  | (n, s) :: rest => if String.eqb n name then Some s else lookup name rest
  end.

(** [name in df.columns] *)
Definition has_column (df : DataFrame) (name : string) : bool :=
  match lookup name (columns df) with Some _ => true | None => false end.

Definition get_column (df : DataFrame) (name : string) : option series :=
  lookup name (columns df).

(** [df[name]] *)
Definition getitem (df : DataFrame) (name : string) : result series :=
  match get_column df name with
  | Some s => Ok s
  | None => Raise (KeyError name)
  end.

Fixpoint assign (name : string) (s : series) (cols : list (string * series))
  : list (string * series) :=
  match cols with
  | [] => [(name, s)]
  | (n, old) :: rest =>
      if String.eqb n name then (n, s) :: rest else (n, old) :: assign name s rest
  end.

(** [df[name] = s]: an existing column is replaced in place, a new one is
    appended after the others. *)
Definition setitem (df : DataFrame) (name : string) (s : series) : DataFrame :=
  mk_frame (index_len df) (assign name s (columns df)).

Definition cell_at (s : series) (i : nat) : cell := nth i s null.

(** Positional row selection ([iloc] with a list of positions). *)
Definition take (idx : list nat) (df : DataFrame) : DataFrame :=
  mk_frame (List.length idx)
           (map (fun c => (fst c, map (cell_at (snd c)) idx)) (columns df)).

(** One row as the ordered association of column names to cells. *)
Definition row (df : DataFrame) (i : nat) : list (string * cell) :=
  map (fun c => (fst c, cell_at (snd c) i)) (columns df).

Definition row_complete (df : DataFrame) (i : nat) : bool :=
  forallb (fun c => negb (isnull (cell_at (snd c) i))) (columns df).

(** [df.dropna()]: a row is kept when none of its cells is null, whatever
    the column. *)
Definition dropna (df : DataFrame) : DataFrame :=
  take (filter (row_complete df) (seq 0 (index_len df))) df.

(** [df.fillna(0)] *)
Definition fill0 (c : cell) : cell := if isnull c then Fl (Num 0) else c.
Definition fillna0 (df : DataFrame) : DataFrame :=
  mk_frame (index_len df) (map (fun c => (fst c, map fill0 (snd c))) (columns df)).

(** [df.tail(n)] *)
Definition tail (n : nat) (df : DataFrame) : DataFrame :=
  take (seq (index_len df - n) (Nat.min n (index_len df))) df.

(** [df.iloc[-1:]] *)
Definition iloc_last (df : DataFrame) : DataFrame := tail 1 df.

(** [df.values]: the rows, each a list of cells in column order. *)
Definition values (df : DataFrame) : list (list cell) :=
  map (fun i => map snd (row df i)) (seq 0 (index_len df)).

(** Every column has one cell per row. *)
Definition well_formed (df : DataFrame) : bool :=
  forallb (fun c => List.length (snd c) =? index_len df) (columns df).

(* ------------------------------------------------------------------ *)
(** Series helpers *)

(** [s.shift(k)]: the value of row [i] is the value of row [i - k], the
    fill value [d] when that row does not exist. *)
Definition shift_by {A : Type} (d : A) (k : Z) (l : list A) : list A :=
  map (fun i =>
         let j := (Z.of_nat i - k)%Z in
         if ((0 <=? j)%Z && (j <? Z.of_nat (List.length l))%Z)%bool
         then nth (Z.to_nat j) l d else d)
      (seq 0 (List.length l)).

Definition shift (k : Z) (s : series) : series := shift_by null k s.
Definition fshift (k : Z) (xs : list float) : list float := shift_by NaN k xs.

(** Numeric view of a series; arithmetic on text or timestamps raises. *)
Fixpoint as_floats (s : series) : result (list float) :=
  match s with
  | [] => Ok []
  | Fl x :: rest => bind (as_floats rest) (fun xs => Ok (x :: xs))
  | _ :: _ => Raise (TypeError "unsupported operand type(s)")
  end.

Definition of_floats (xs : list float) : series := map Fl xs.

Fixpoint map2 {A B C : Type} (f : A -> B -> C) (l : list A) (m : list B) : list C :=
  match l, m with
  | a :: l', b :: m' => f a b :: map2 f l' m'
  | _, _ => []
  end.

(** [str(n)] for the integers that appear in column names and messages. *)
Definition string_of_nat (n : nat) : string := NilEmpty.string_of_uint (Nat.to_uint n).
Definition string_of_Z (z : Z) : string := NilEmpty.string_of_int (Z.to_int z).

(* ================================================================== *)
(** ** feature_engineering.py *)
(* ================================================================== *)

Section Pipeline.

(** The datetime parser applied to text cells ([None] when the text is not
    a date) and the numeric kernels. *)
Variable parse_datetime : string -> option Z.
Variable np : Numpy.

(* ------------------------------------------------------------------ *)
(** [df.sort_values('timestamp')] *)

Inductive kind : Type := KNum | KStamp | KStr.

Definition kind_eqb (a b : kind) : bool :=
  match a, b with
  | KNum, KNum | KStamp, KStamp | KStr, KStr => true
  | _, _ => false
  end.

Definition cell_kind (c : cell) : option kind :=
  match c with
  | Fl NaN => None
  | Fl _ => Some KNum
  | Stamp _ => Some KStamp
  | Str _ => Some KStr
  end.

(** Python orders two values only when they are of one kind. *)
Fixpoint comparable_with (k : option kind) (s : series) : bool :=
  match s with
  | [] => true
  | c :: rest =>
      match cell_kind c, k with
      | None, _ => comparable_with k rest
      | Some a, None => comparable_with (Some a) rest
      | Some a, Some b => kind_eqb a b && comparable_with k rest
      end
  end.

Definition comparable (s : series) : bool := comparable_with None s.

(** Ascending order with nulls last. *)
Definition cell_leb (a b : cell) : bool :=
  match a, b with
  | Fl NaN, Fl NaN => true
  | Fl NaN, _ => false
  | _, Fl NaN => true
  | Fl x, Fl y => fleb x y
  | Stamp s, Stamp t => (s <=? t)%Z
  | Str s, Str t => String.leb s t
  | _, _ => false
  end.

Fixpoint insert_by (key : nat -> cell) (i : nat) (sorted : list nat) : list nat :=
  match sorted with
  | [] => [i]
  | j :: rest =>
      if cell_leb (key j) (key i) then j :: insert_by key i rest
      else i :: j :: rest
  end.

(** The positions of [s] in ascending order of their cells.  Rows with
    equal keys keep their order here; pandas' default sort leaves that
    order unspecified. *)
Definition argsort (s : series) : list nat :=
  fold_left (fun acc i => insert_by (cell_at s) i acc) (seq 0 (List.length s)) [].

Definition sort_values (df : DataFrame) (by_ : string) : result DataFrame :=
  match get_column df by_ with
  | None => Raise (KeyError by_)
  | Some s =>
      if comparable s then Ok (take (argsort s) df)
      else Raise (TypeError "'<' not supported between instances")
  end.

(* ------------------------------------------------------------------ *)
(** [pd.to_datetime] and the [.dt] accessors *)

Fixpoint to_datetime (s : series) : result (list (option Z)) :=
  match s with
  | [] => Ok []
  | c :: rest =>
      match (match c with
             | Fl NaN => Ok None
             | Fl (Num q) => Ok (Some (Qfloor q))
             | Fl (Inf _) => Raise (ValueError "cannot convert input with unit 'ns'")
             | Stamp t => Ok (Some t)
             | Str txt =>
                 match parse_datetime txt with
                 | Some t => Ok (Some t)
                 | None => Raise (ValueError "Unknown datetime string format")
                 end
             end) with
      | Raise e => Raise e
      | Ok t => bind (to_datetime rest) (fun ts => Ok (t :: ts))
      end
  end.

Definition ns_per_hour : Z := 3600 * 1000000000.
Definition ns_per_day : Z := 24 * ns_per_hour.

(** [.dt.hour] *)
Definition dt_hour (t : option Z) : float :=
  match t with
  | Some t => of_Z ((t / ns_per_hour) mod 24)
  | None => NaN
  end.

(** [.dt.dayofweek], Monday = 0; the epoch was a Thursday. *)
Definition dt_dayofweek (t : option Z) : float :=
  match t with
  | Some t => of_Z ((t / ns_per_day + 3) mod 7)
  | None => NaN
  end.

Definition stamp_cell (t : option Z) : cell :=
  match t with Some t => Stamp t | None => null end.

(** [np.log1p] *)
Definition log1p (x : float) : float :=
  match x with
  | NaN => NaN
  | Inf false => Inf false
  | Inf true => NaN
  | Num q =>
      if Qltb q (-1) then NaN
      else if Qeq_bool q (-1) then Inf true
      else Num (np_log1p np q)
  end.

Definition _add_basic_features (df : DataFrame) : result DataFrame :=
  bind (if has_column df "timestamp" then
          bind (getitem df "timestamp") (fun ts =>
          bind (to_datetime ts) (fun dt =>
          let hour := map dt_hour dt in
          let day_of_week := map dt_dayofweek dt in
          let df := setitem df "hour" (of_floats hour) in
          let df := setitem df "day_of_week" (of_floats day_of_week) in
          let df := setitem df "is_weekend"
                      (of_floats (map (fun d => of_bool (fgeb d (Num 5))) day_of_week)) in
          let df := setitem df "is_night"
                      (of_floats (map (fun h => of_bool (fgeb h (Num 20) || fleb h (Num 6))) hour)) in
          Ok df))
        else Ok df) (fun df =>
  if has_column df "ambient_light" then
    bind (getitem df "ambient_light") (fun s =>
    bind (as_floats s) (fun xs =>
    let df := setitem df "ambient_light_squared" (of_floats (map fsquare xs)) in
    let df := setitem df "ambient_light_log" (of_floats (map log1p xs)) in
    Ok df))
  else Ok df).

Fixpoint Zmin_list (acc : option Z) (l : list (option Z)) : option Z :=
  match l with
  | [] => acc
  | None :: rest => Zmin_list acc rest
  | Some t :: rest =>
      Zmin_list (Some (match acc with Some m => Z.min m t | None => t end)) rest
  end.

Definition hours_since (start : option Z) (t : option Z) : float :=
  match t, start with
  | Some t, Some m => Num (Qred (inject_Z (t - m) / inject_Z ns_per_hour))
  | _, _ => NaN
  end.

Definition _add_temporal_features (df : DataFrame) : result DataFrame :=
  if negb (has_column df "timestamp") then Ok df
  else
    bind (getitem df "timestamp") (fun ts =>
    bind (to_datetime ts) (fun dt =>
    let df := setitem df "timestamp" (map stamp_cell dt) in
    let start := Zmin_list None dt in
    Ok (setitem df "time_since_start" (of_floats (map (hours_since start) dt))))).

(* ------------------------------------------------------------------ *)
(** Rolling windows: [s.rolling(window=W, min_periods=1)] *)

(** The rows of the window that ends at row [i]. *)
Definition window (W : nat) (xs : list float) (i : nat) : list float :=
  skipn (i + 1 - W) (firstn (i + 1) xs).

(** The observations a rolling kernel counts: finite values only (the
    kernels see infinities as NaN). *)
Fixpoint observations (xs : list float) : list Q :=
  match xs with
  | [] => []
  | Num q :: rest => q :: observations rest
  | _ :: rest => observations rest
  end.

Definition agg_mean (obs : list Q) : float :=
  match obs with [] => NaN | _ => Num (Qmean obs) end.

Definition agg_std (obs : list Q) : float :=
  match obs with
  | [] => NaN
  | [_] => NaN
  | _ => Num (np_sqrt np (Qvar obs))
  end.

Definition agg_min (obs : list Q) : float :=
  match obs with [] => NaN | q :: rest => Num (fold_left Qmin2 rest q) end.

Definition agg_max (obs : list Q) : float :=
  match obs with [] => NaN | q :: rest => Num (fold_left Qmax2 rest q) end.

Definition rolling (W : nat) (agg : list Q -> float) (xs : list float) : list float :=
  map (fun i => agg (observations (window W xs i))) (seq 0 (List.length xs)).

(** [s.diff()] *)
Definition diff (xs : list float) : list float := map2 fsub xs (fshift 1 xs).

(** [s.ffill()] *)
Fixpoint ffill_from (last : float) (xs : list float) : list float :=
  match xs with
  | [] => []
  | NaN :: rest => last :: ffill_from last rest
  | x :: rest => x :: ffill_from x rest
  end.
Definition ffill (xs : list float) : list float := ffill_from NaN xs.

(** [s.pct_change()]: gaps are padded forward first, then
    [x / x.shift(1) - 1]. *)
Definition pct_change (xs : list float) : list float :=
  let data := ffill xs in
  map2 (fun a b => fsub (fdiv a b) (Num 1)) data (fshift 1 data).

Definition numeric_cols : list string :=
  ["ambient_light"; "active_lights_count"; "faulty_lights_count"].

Definition add_rolling_for (W : nat) (df : DataFrame) (col : string) : result DataFrame :=
  if has_column df col then
    bind (getitem df col) (fun s =>
    if W <? 1 then Raise (ValueError "min_periods 1 must be <= window 0")
    else
      bind (as_floats s) (fun xs =>
      let df := setitem df (col ++ "_rolling_mean") (of_floats (rolling W agg_mean xs)) in
      let df := setitem df (col ++ "_rolling_std") (of_floats (rolling W agg_std xs)) in
      let df := setitem df (col ++ "_rolling_min") (of_floats (rolling W agg_min xs)) in
      let df := setitem df (col ++ "_rolling_max") (of_floats (rolling W agg_max xs)) in
      let df := setitem df (col ++ "_diff") (of_floats (diff xs)) in
      let df := setitem df (col ++ "_pct_change") (of_floats (pct_change xs)) in
      Ok df))
  else Ok df.

(** A [for] loop whose body may raise. *)
Fixpoint for_each {A S : Type} (body : S -> A -> result S) (l : list A) (s : S) : result S :=
  match l with
  | [] => Ok s
  | a :: rest => bind (body s a) (for_each body rest)
  end.

Definition _add_rolling_features (W : nat) (df : DataFrame) : result DataFrame :=
  for_each (add_rolling_for W) numeric_cols df.

(* ------------------------------------------------------------------ *)
(** Cross-light aggregation (row-wise reductions, nulls skipped) *)

Definition light_col (i : nat) (field : string) : string :=
  "light_" ++ string_of_nat (i + 1) ++ "_" ++ field.

Definition light_names (field : string) : list string :=
  map (fun i => light_col i field) (seq 0 4).

Definition not_nan (xs : list float) : list float :=
  filter (fun x => negb (is_nan x)) xs.

Definition has_inf (xs : list float) : bool :=
  existsb (fun x => match x with Inf _ => true | _ => false end) xs.

Definition fsum (xs : list float) : float := fold_left fadd xs (Num 0).

Definition row_sum (xs : list float) : float := fsum (not_nan xs).

Definition row_mean (xs : list float) : float :=
  match not_nan xs with
  | [] => NaN
  | vs => fdiv (fsum vs) (of_nat (List.length vs))
  end.

Definition row_std (xs : list float) : float :=
  match not_nan xs with
  | [] => NaN
  | [_] => NaN
  | vs => if has_inf vs then NaN else Num (np_sqrt np (Qvar (observations vs)))
  end.

Definition row_min (xs : list float) : float :=
  match not_nan xs with [] => NaN | v :: vs => fold_left fmin2 vs v end.

Definition row_max (xs : list float) : float :=
  match not_nan xs with [] => NaN | v :: vs => fold_left fmax2 vs v end.

Fixpoint float_columns (df : DataFrame) (names : list string) : result (list (list float)) :=
  match names with
  | [] => Ok []
  | n :: rest =>
      bind (getitem df n) (fun s =>
      bind (as_floats s) (fun xs =>
      bind (float_columns df rest) (fun more => Ok (xs :: more))))
  end.

(** [df[names].agg(axis=1)] *)
Definition across (df : DataFrame) (cols : list (list float)) (agg : list float -> float)
  : series :=
  of_floats (map (fun i => agg (map (fun xs => nth i xs NaN) cols)) (seq 0 (index_len df))).

Definition _add_light_features (df : DataFrame) : result DataFrame :=
  let light_cols := light_names "ldr" in
  let light_fault_cols := light_names "fault" in
  let light_state_cols := light_names "state" in
  let available_light_cols := filter (has_column df) light_cols in
  bind (match available_light_cols with
        | [] => Ok df
        | _ =>
            bind (float_columns df available_light_cols) (fun cols =>
            let df := setitem df "mean_light_ldr" (across df cols row_mean) in
            let df := setitem df "std_light_ldr" (across df cols row_std) in
            let df := setitem df "min_light_ldr" (across df cols row_min) in
            let df := setitem df "max_light_ldr" (across df cols row_max) in
            Ok df)
        end) (fun df =>
  let available_fault_cols := filter (has_column df) light_fault_cols in
  bind (match available_fault_cols with
        | [] => Ok df
        | _ =>
            bind (float_columns df available_fault_cols) (fun cols =>
            let total := across df cols row_sum in
            let df := setitem df "total_faults" total in
            bind (as_floats total) (fun tf =>
            Ok (setitem df "fault_rate"
                  (of_floats (map (fun t => fdiv t (of_nat (List.length available_fault_cols))) tf)))))
        end) (fun df =>
  let available_state_cols := filter (has_column df) light_state_cols in
  match available_state_cols with
  | [] => Ok df
  | _ =>
      bind (float_columns df available_state_cols) (fun cols =>
      let total := across df cols row_sum in
      let df := setitem df "total_active" total in
      bind (as_floats total) (fun ta =>
      Ok (setitem df "active_rate"
            (of_floats (map (fun t => fdiv t (of_nat (List.length available_state_cols))) ta)))))
  end)).

(* ------------------------------------------------------------------ *)
(** Lag features *)

Definition lag_cols : list string :=
  ["ambient_light"; "active_lights_count"; "faulty_lights_count"].

Definition lag_name (col : string) (lag : Z) : string :=
  col ++ "_lag_" ++ string_of_Z lag.

Definition add_lags_for (lags : list Z) (df : DataFrame) (col : string) : result DataFrame :=
  if has_column df col then
    for_each (fun df lag =>
                bind (getitem df col) (fun s => Ok (setitem df (lag_name col lag) (shift lag s))))
             lags df
  else Ok df.

Definition _add_lag_features (lags : list Z) (df : DataFrame) : result DataFrame :=
  for_each (add_lags_for lags) lag_cols df.

(* ------------------------------------------------------------------ *)
(** Labels *)

(** [s.mean()] and [s.std()] of a whole column, nulls skipped. *)
Definition series_mean (xs : list float) : float := row_mean xs.
Definition series_std (xs : list float) : float := row_std xs.

Definition fdouble (x : float) : float := fadd x x.

Definition _create_target (df : DataFrame) (target_type : string) : result DataFrame :=
  if String.eqb target_type "failure" then
    if has_column df "faulty_lights_count" then
      bind (getitem df "faulty_lights_count") (fun s =>
      bind (as_floats s) (fun xs =>
      let target :=
        map2 (fun a b => of_bool (fgtb a (Num 0) || fgtb b (Num 0)))
             (fshift (-6) xs) (fshift (-3) xs) in
      let df := setitem df "target_failure" (of_floats target) in
      bind (getitem df "target_failure") (fun t =>
      Ok (setitem df "target_failure" (map fill0 t)))))
    else Ok df
  else if String.eqb target_type "anomaly" then
    if has_column df "ambient_light" then
      bind (getitem df "ambient_light") (fun s =>
      bind (as_floats s) (fun xs =>
      let mean := series_mean xs in
      let std := series_std xs in
      Ok (setitem df "target_anomaly"
            (of_floats (map (fun x => of_bool (fgtb (fabs (fsub x mean)) (fdouble std))) xs)))))
    else Ok df
  else Ok df.

(* ------------------------------------------------------------------ *)
(** [get_feature_columns] *)

Definition exclude_cols : list string :=
  ["id"; "device_id"; "timestamp"; "created_at"; "gps_latitude";
   "gps_longitude"; "gps_valid"; "lights_data"; "target_failure";
   "target_anomaly"; "time_string"; "received_at"].

Definition mem (x : string) (l : list string) : bool := existsb (String.eqb x) l.

Definition get_feature_columns (df : DataFrame) (exclude_targets : bool) : list string :=
  let feature_cols := filter (fun col => negb (mem col exclude_cols)) (column_names df) in
  if exclude_targets
  then filter (fun col => negb (String.prefix "target_" col)) feature_cols
  else feature_cols.

(* ------------------------------------------------------------------ *)
(** The frame [create_features] holds just before [dropna]. *)

(** [if target_col:] *)
Definition truthy (s : option string) : bool :=
  match s with
  | None => false
  | Some txt => negb (String.eqb txt "")
  end.

Definition engineered (W : nat) (lags : list Z) (df : DataFrame) (target_col : option string)
  : result DataFrame :=
  bind (sort_values df "timestamp") (fun df =>
  bind (_add_basic_features df) (fun df =>
  bind (_add_temporal_features df) (fun df =>
  bind (_add_rolling_features W df) (fun df =>
  bind (_add_light_features df) (fun df =>
  bind (_add_lag_features lags df) (fun df =>
  match target_col with
  | Some t => if truthy target_col then _create_target df t else Ok df
  | None => Ok df
  end)))))).

(* ================================================================== *)
(** ** The world: log, clock, model directory *)
(* ================================================================== *)

(** A fitted classifier, as the inference code uses it. *)
Record Classifier : Type := mk_classifier {
  clf_predict : list (list cell) -> result (list Z);
  clf_predict_proba : list (list cell) -> result (list (list Q))
}.

(** A fitted outlier detector. *)
Record Detector : Type := mk_detector {
  det_predict : list (list cell) -> result (list Z);
  det_score_samples : list (list cell) -> result (list Q)
}.

Inductive blob : Type :=
| TextFile (content : string)
| ClassifierPickle (m : Classifier)
| DetectorPickle (m : Detector)
| FeaturesPickle (names : list string)
| Directory.

Inductive level : Type := INFO | WARNING | ERROR.

Record World : Type := mk_world {
  log : list (level * string);       (* records emitted so far, oldest first *)
  default_lags : list Z;             (* the default-argument list of _add_lag_features *)
  clock : nat -> Z;                  (* successive readings of the UTC clock *)
  ticks : nat;                       (* clock readings taken so far *)
  files : list (string * blob)       (* the file system *)
}.

(** A stateful computation that may raise; effects made before an
    exception stay made. *)
Definition M (A : Type) : Type := World -> result A * World.

Definition ret {A : Type} (a : A) : M A := fun w => (Ok a, w).
Definition raise {A : Type} (e : exn) : M A := fun w => (Raise e, w).
Definition lift {A : Type} (r : result A) : M A := fun w => (r, w).

Definition mbind {A B : Type} (c : M A) (k : A -> M B) : M B :=
  fun w =>
    match c w with
    | (Ok a, w') => k a w'
    | (Raise e, w') => (Raise e, w')
    end.

Declare Scope m_scope.
Delimit Scope m_scope with M.
Notation "x <- c ;; k" := (mbind c (fun x => k))
  (at level 61, c at next level, right associativity) : m_scope.
Notation "c ;;; k" := (mbind c (fun _ => k))
  (at level 61, right associativity) : m_scope.

(** [try: body except Exception as e: handler e] *)
Definition try_except {A : Type} (body : M A) (handler : exn -> M A) : M A :=
  fun w =>
    match body w with
    | (Ok a, w') => (Ok a, w')
    | (Raise e, w') => handler e w'
    end.

Definition logger (lv : level) (msg : string) : M unit :=
  fun w => (Ok tt, mk_world (log w ++ [(lv, msg)]) (default_lags w) (clock w) (ticks w) (files w)).

(** [datetime.utcnow()] *)
Definition utcnow : M Z :=
  fun w => (Ok (clock w (ticks w)),
            mk_world (log w) (default_lags w) (clock w) (S (ticks w)) (files w)).

(** The content of [path] replaced, or [path] added. *)
Fixpoint write_file (path : string) (b : blob) (fs : list (string * blob))
  : list (string * blob) :=
  match fs with
  | [] => [(path, b)]
  | (p, old) :: rest =>
      if String.eqb p path then (p, b) :: rest else (p, old) :: write_file path b rest
  end.

(** Whether the operating system refuses a write: [Some (e, fs')] when
    writing [b] at [path] on the file system [fs] raises [e] and leaves
    the file system [fs'] (a refused write can leave a partial file). *)
Variable write_error :
  list (string * blob) -> string -> blob -> option (exn * list (string * blob)).

(** [joblib.dump(obj, path)], and [df.to_csv(path)] for a text blob *)
Definition dump (b : blob) (path : string) : M unit :=
  fun w =>
    match write_error (files w) path b with
    | Some (e, fs') =>
        (Raise e, mk_world (log w) (default_lags w) (clock w) (ticks w) fs')
    | None =>
        (Ok tt, mk_world (log w) (default_lags w) (clock w) (ticks w)
                         (write_file path b (files w)))
    end.

Fixpoint read_file (path : string) (fs : list (string * blob)) : option blob :=
  match fs with
  | [] => None
  | (p, b) :: rest => if String.eqb p path then Some b else read_file path rest
  end.

(** [os.path.join(dir, name)] for a relative [name]. *)
Definition path_join (dir name : string) : string := dir ++ "/" ++ name.

(* ------------------------------------------------------------------ *)
(** [FeatureEngineer] *)

Record FeatureEngineer : Type := mk_engineer { window_size : nat }.

(** [FeatureEngineer()] *)
Definition new_engineer : FeatureEngineer := mk_engineer 10.

Definition create_features (self : FeatureEngineer) (df : DataFrame)
           (target_col : option string) : M DataFrame :=
  fun w =>
    if empty df then (Ok df, w)
    else
      match engineered (window_size self) (default_lags w) df target_col with
      | Raise e => (Raise e, w)
      | Ok df =>
          let initial_len := len df in
          let df := dropna df in
          mbind (logger INFO ("Removed " ++ string_of_nat (initial_len - len df)
                                ++ " rows with NaN values"))
                (fun _ => ret df) w
      end.

(* ================================================================== *)
(** ** inference.py *)
(* ================================================================== *)

(** [df[names]] with a list of labels: every label must be a column.  The
    message of the [KeyError] holds single quotes, so [str(e)], which is the
    [repr] of the message, wraps it in double quotes. *)
Definition dq : string := String "034"%char EmptyString.

Definition join_names (names : list string) : string :=
  "[" ++ String.concat ", " (map (fun n => "'" ++ n ++ "'") names) ++ "]".

Definition select_columns (df : DataFrame) (names : list string) : result DataFrame :=
  match filter (fun n => negb (has_column df n)) names with
  | [] =>
      Ok (mk_frame (index_len df)
            (map (fun n => (n, match get_column df n with Some s => s | None => [] end)) names))
  | missing => Raise (mk_exn "KeyError" (dq ++ join_names missing ++ " not in index" ++ dq))
  end.

(** [df[features]] where [features] may be [None] (schema file absent). *)
Definition getitem_list (df : DataFrame) (features : option (list string)) : result DataFrame :=
  match features with
  | Some names => select_columns df names
  | None => Raise (mk_exn "KeyError" "None")
  end.

(** [pd.DataFrame([sensor_data])]: one row, one column per key. *)
Definition frame_of_dict (sensor_data : list (string * cell)) : DataFrame :=
  mk_frame 1 (map (fun kv => (fst kv, [snd kv])) sensor_data).

(** [pd.concat([a, b], ignore_index=True)] *)
Definition part (df : DataFrame) (name : string) : series :=
  match get_column df name with
  | Some s => s
  | None => repeat null (index_len df)
  end.

Definition concat (a b : DataFrame) : DataFrame :=
  let names :=
    (column_names a ++ filter (fun n => negb (has_column a n)) (column_names b))%list in
  mk_frame (index_len a + index_len b) (map (fun n => (n, (part a n ++ part b n)%list)) names).

Record MLInference : Type := mk_inference {
  model_dir : string;
  feature_engineer : FeatureEngineer;
  failure_model : option Classifier;
  anomaly_model : option Detector;
  failure_features : option (list string);
  anomaly_features : option (list string)
}.

(** [_load_models]: an artifact is loaded when its file exists; its schema
    only when the schema file exists too. *)
Definition load_classifier (dir : string) (fs : list (string * blob)) : option Classifier :=
  match read_file (path_join dir "failure_predictor.pkl") fs with
  | Some (ClassifierPickle m) => Some m
  | _ => None
  end.

Definition load_detector (dir : string) (fs : list (string * blob)) : option Detector :=
  match read_file (path_join dir "anomaly_detector.pkl") fs with
  | Some (DetectorPickle m) => Some m
  | _ => None
  end.

Definition load_features (path : string) (fs : list (string * blob)) : option (list string) :=
  match read_file path fs with
  | Some (FeaturesPickle names) => Some names
  | _ => None
  end.

Definition new_inference (dir : string) : M MLInference :=
  fun w =>
    let fs := files w in
    let fm := load_classifier dir fs in
    let ff := match fm with
              | Some _ => load_features (path_join dir "failure_predictor_features.pkl") fs
              | None => None
              end in
    let am := load_detector dir fs in
    let af := match am with
              | Some _ => load_features (path_join dir "anomaly_detector_features.pkl") fs
              | None => None
              end in
    mbind (logger (match fm with Some _ => INFO | None => WARNING end)
                  (match fm with
                   | Some _ => "Failure prediction model loaded"
                   | None => "Failure prediction model not found"
                   end)) (fun _ =>
    mbind (logger (match am with Some _ => INFO | None => WARNING end)
                  (match am with
                   | Some _ => "Anomaly detection model loaded"
                   | None => "Anomaly detection model not found"
                   end)) (fun _ =>
    ret (mk_inference dir new_engineer fm am ff af))) w.

(** One entry of the prediction record: a result or [{'error': msg}]. *)
Inductive entry (A : Type) : Type :=
| Result (a : A)
| Error (msg : string).
#[global] Arguments Result {A} a.
#[global] Arguments Error {A} msg.

Record FailureResult : Type := mk_failure_result {
  prediction : Z;
  probability : Q;
  failure_probability : Q;
  failure_timestamp : Z
}.

Record AnomalyResult : Type := mk_anomaly_result {
  is_anomaly : bool;
  anomaly_score : Q;
  anomaly_timestamp : Z
}.

Record Predictions : Type := mk_predictions {
  failure : entry FailureResult;
  anomaly : entry AnomalyResult
}.

(** [a[0]] *)
Definition first {A : Type} (l : list A) : result A :=
  match l with
  | x :: _ => Ok x
  | [] => Raise (mk_exn "IndexError" "index 0 is out of bounds for axis 0 with size 0")
  end.

(** [max(a)] *)
Definition Qmax_list (l : list Q) : result Q :=
  match l with
  | x :: rest => Ok (fold_left Qmax2 rest x)
  | [] => Raise (ValueError "max() arg is an empty sequence")
  end.

(** The frame both predictors engineer: the reading, preceded by the last
    ten rows of history when there is any. *)
Definition context_frame (sensor_data : list (string * cell))
           (historical_data : option DataFrame) : DataFrame :=
  let df := frame_of_dict sensor_data in
  match historical_data with
  | Some h => if negb (empty h) then concat (tail 10 h) df else df
  | None => df
  end.

(** [df[features].fillna(0).iloc[-1:].values] *)
Definition model_input (df : DataFrame) (features : option (list string))
  : result (list (list cell)) :=
  bind (getitem_list df features) (fun sel => Ok (values (iloc_last (fillna0 sel)))).

(** The statements inside [try:] of [predict_failure]. *)
Definition failure_body (self : MLInference) (model : Classifier)
           (sensor_data : list (string * cell)) (historical_data : option DataFrame)
  : M (entry FailureResult) :=
  (let df := context_frame sensor_data historical_data in
   df <- create_features (feature_engineer self) df None ;;
   X <- lift (model_input df (failure_features self)) ;;
   prediction <- lift (bind (clf_predict model X) first) ;;
   probability <- lift (bind (clf_predict_proba model X) first) ;;
   best <- lift (Qmax_list probability) ;;
   let failure_probability :=
     if 1 <? List.length probability then nth 1 probability 0%Q else 0%Q in
   now <- utcnow ;;
   ret (Result (mk_failure_result prediction best failure_probability now)))%M.

(** A loaded artifact is a fitted ensemble of 100 estimators, hence true
    in a boolean context; only [None] takes the first branch. *)
Definition predict_failure (self : MLInference) (sensor_data : list (string * cell))
           (historical_data : option DataFrame) : M (entry FailureResult) :=
  match failure_model self with
  | None => ret (Error "Model not loaded")
  | Some model =>
      try_except
        (failure_body self model sensor_data historical_data)
        (fun e =>
           logger ERROR ("Error in failure prediction: " ++ str e) ;;;
           ret (Error (str e)))%M
  end.

(** The statements inside [try:] of [detect_anomaly]. *)
Definition anomaly_body (self : MLInference) (model : Detector)
           (sensor_data : list (string * cell)) (historical_data : option DataFrame)
  : M (entry AnomalyResult) :=
  (let df := context_frame sensor_data historical_data in
   df <- create_features (feature_engineer self) df None ;;
   X <- lift (model_input df (anomaly_features self)) ;;
   prediction <- lift (bind (det_predict model X) first) ;;
   score <- lift (bind (det_score_samples model X) first) ;;
   now <- utcnow ;;
   ret (Result (mk_anomaly_result (prediction =? -1)%Z score now)))%M.

Definition detect_anomaly (self : MLInference) (sensor_data : list (string * cell))
           (historical_data : option DataFrame) : M (entry AnomalyResult) :=
  match anomaly_model self with
  | None => ret (Error "Model not loaded")
  | Some model =>
      try_except
        (anomaly_body self model sensor_data historical_data)
        (fun e =>
           logger ERROR ("Error in anomaly detection: " ++ str e) ;;;
           ret (Error (str e)))%M
  end.

Definition predict (self : MLInference) (sensor_data : list (string * cell))
           (historical_data : option DataFrame) : M Predictions :=
  (f <- predict_failure self sensor_data historical_data ;;
   a <- detect_anomaly self sensor_data historical_data ;;
   ret (mk_predictions f a))%M.

(* ================================================================== *)
(** ** model_training.py *)
(* ================================================================== *)

(** The scikit-learn calls of the trainer; each may raise. *)
Record Sklearn : Type := mk_sklearn {
  train_test_split :
    list (list cell) -> series ->
    result (list (list cell) * list (list cell) * series * series);
  fit_random_forest : list (list cell) -> series -> result Classifier;
  accuracy_score : series -> list Z -> result Q;
  classification_report : series -> list Z -> result string;
  fit_isolation_forest : list (list cell) -> result Detector
}.

Variable sk : Sklearn.

(** The CSV reader applied to the text of a file. *)
Variable parse_csv : string -> result DataFrame.

(** [pd.read_csv(path)] *)
Definition read_csv (path : string) : M DataFrame :=
  fun w =>
    match read_file path (files w) with
    | Some (TextFile content) => (parse_csv content, w)
    | Some Directory =>
        (Raise (mk_exn "IsADirectoryError" ("[Errno 21] Is a directory: '" ++ path ++ "'")), w)
    | Some _ => (Raise (mk_exn "UnicodeDecodeError" "invalid start byte"), w)
    | None => (Raise (mk_exn "FileNotFoundError" ("No such file or directory: '" ++ path ++ "'")), w)
    end.

Record ModelTrainer : Type := mk_trainer {
  trainer_model_dir : string;
  trainer_feature_engineer : FeatureEngineer
}.

Definition new_trainer (dir : string) : ModelTrainer := mk_trainer dir new_engineer.

Record FailureReport : Type := mk_failure_report {
  fr_model_path : string;
  fr_feature_path : string;
  fr_accuracy : Q;
  fr_feature_count : nat;
  fr_training_samples : nat;
  fr_test_samples : nat
}.

Record AnomalyReport : Type := mk_anomaly_report {
  ar_model_path : string;
  ar_feature_path : string;
  ar_feature_count : nat;
  ar_training_samples : nat
}.

(** [(df['faulty_lights_count'] > 0).astype(int)] *)
Definition synthetic_target (df : DataFrame) : result series :=
  bind (getitem df "faulty_lights_count") (fun s =>
  bind (as_floats s) (fun xs =>
  Ok (of_floats (map (fun x => of_bool (fgtb x (Num 0))) xs)))).

Definition train_failure_prediction_model (self : ModelTrainer) (data_path : string)
           (model_name : string) : M FailureReport :=
  (logger INFO ("Loading data from " ++ data_path) ;;;
   df <- read_csv data_path ;;
   if empty df then raise (ValueError "Empty dataset provided")
   else
     logger INFO "Engineering features..." ;;;
     df <- create_features (trainer_feature_engineer self) df (Some "failure") ;;
     let feature_cols := get_feature_columns df true in
     df <- (if negb (has_column df "target_failure") then
              logger WARNING "No target_failure column found, creating synthetic target" ;;;
              t <- lift (synthetic_target df) ;;
              ret (setitem df "target_failure" t)
            else ret df) ;;
     sel <- lift (select_columns df feature_cols) ;;
     let X := values (fillna0 sel) in
     y <- lift (getitem df "target_failure") ;;
     split <- lift (train_test_split sk X y) ;;
     let '(X_train, X_test, y_train, y_test) := split in
     logger INFO "Training Random Forest model..." ;;;
     model <- lift (fit_random_forest sk X_train y_train) ;;
     y_pred <- lift (clf_predict model X_test) ;;
     accuracy <- lift (accuracy_score sk y_test y_pred) ;;
     logger INFO "Model accuracy" ;;;
     logger INFO "Classification Report:" ;;;
     report <- lift (classification_report sk y_test y_pred) ;;
     logger INFO report ;;;
     let model_path := path_join (trainer_model_dir self) (model_name ++ ".pkl") in
     dump (ClassifierPickle model) model_path ;;;
     let feature_path := path_join (trainer_model_dir self) (model_name ++ "_features.pkl") in
     dump (FeaturesPickle feature_cols) feature_path ;;;
     logger INFO ("Model saved to " ++ model_path) ;;;
     ret (mk_failure_report model_path feature_path accuracy
            (List.length feature_cols) (List.length X_train) (List.length X_test)))%M.

Definition train_anomaly_detection_model (self : ModelTrainer) (data_path : string)
           (model_name : string) : M AnomalyReport :=
  (logger INFO ("Loading data from " ++ data_path) ;;;
   df <- read_csv data_path ;;
   if empty df then raise (ValueError "Empty dataset provided")
   else
     logger INFO "Engineering features..." ;;;
     df <- create_features (trainer_feature_engineer self) df None ;;
     let feature_cols := get_feature_columns df true in
     sel <- lift (select_columns df feature_cols) ;;
     let X := values (fillna0 sel) in
     logger INFO "Training Isolation Forest model..." ;;;
     model <- lift (fit_isolation_forest sk X) ;;
     let model_path := path_join (trainer_model_dir self) (model_name ++ ".pkl") in
     dump (DetectorPickle model) model_path ;;;
     let feature_path := path_join (trainer_model_dir self) (model_name ++ "_features.pkl") in
     dump (FeaturesPickle feature_cols) feature_path ;;;
     logger INFO ("Model saved to " ++ model_path) ;;;
     ret (mk_anomaly_report model_path feature_path (List.length feature_cols) (List.length X)))%M.

(* ================================================================== *)
(** ** data_collection.py *)
(* ================================================================== *)

(** Parsed JSON, with Python's split of numbers into [int] and [float]. *)
#[local] Unset Elimination Schemes.
Inductive json : Type :=
| JNull
| JBool (b : bool)
| JInt (z : Z)
| JFloat (q : Q)
| JStr (s : string)
| JArr (items : list json)
| JObj (fields : list (string * json)).
#[local] Set Elimination Schemes.

(** [json.loads] *)
Variable json_loads : string -> result json.

(** The persistence layer: the rows the query returns for a device and a
    time range, ordered by timestamp. *)
Variable read_sql : string -> Z -> Z -> result DataFrame.

Fixpoint field (key : string) (fields : list (string * json)) : option json :=
  match fields with
  | [] => None
  | (k, v) :: rest => if String.eqb k key then Some v else field key rest
  end.

(** [light.get(key)] *)
Definition get (light : json) (key : string) : result json :=
  match light with
  | JObj fields => Ok (match field key fields with Some v => v | None => JNull end)
  | _ => Raise (AttributeError "object has no attribute 'get'")
  end.

(** Truth value of a JSON value. *)
Definition json_truthy (v : json) : bool :=
  match v with
  | JNull => false
  | JBool b => b
  | JInt z => negb (z =? 0)%Z
  | JFloat q => negb (Qeq_bool q 0)
  | JStr s => negb (String.eqb s "")
  | JArr items => match items with [] => false | _ => true end
  | JObj fields => match fields with [] => false | _ => true end
  end.

(** The cell a scalar JSON value is stored as. *)
Definition cell_of_json (v : json) : result cell :=
  match v with
  | JNull => Ok null
  | JBool b => Ok (Fl (of_bool b))
  | JInt z => Ok (Fl (of_Z z))
  | JFloat q => Ok (Fl (Num q))
  | JStr s => Ok (Str s)
  | JArr _ | JObj _ => Raise (ValueError "setting an array element with a sequence")
  end.

Fixpoint set_nth (i : nat) (c : cell) (s : series) : series :=
  match s, i with
  | [], _ => []
  | _ :: rest, 0 => c :: rest
  | x :: rest, S i' => x :: set_nth i' c rest
  end.

(** [df.at[idx, name] = c] on an existing column. *)
Definition set_at (df : DataFrame) (idx : nat) (name : string) (c : cell) : DataFrame :=
  match get_column df name with
  | Some s => setitem df name (set_nth idx c s)
  | None => df
  end.

Definition light_fields : list string := ["ldr"; "ldr_raw"; "ir"; "state"; "fault"].

(** The five assignments made for one light of one row.  Light ids are
    JSON integers; an id of another JSON type is outside this model and
    is reported as the [TypeError] of the range test. *)
Definition store_light (idx : nat) (df : DataFrame) (light : json) : result DataFrame :=
  bind (match light with
        | JObj fields => Ok (match field "id" fields with Some v => v | None => JInt 0 end)
        | _ => Raise (AttributeError "object has no attribute 'get'")
        end) (fun light_id =>
  match light_id with
  | JInt z =>
      if ((1 <=? z)%Z && (z <=? 4)%Z)%bool then
        let name f := "light_" ++ string_of_Z z ++ "_" ++ f in
        bind (get light "ldr_value") (fun v =>
        bind (cell_of_json v) (fun c =>
        let df := set_at df idx (name "ldr") c in
        bind (get light "ldr_raw") (fun v =>
        bind (cell_of_json v) (fun c =>
        let df := set_at df idx (name "ldr_raw") c in
        bind (get light "ir_sensor") (fun v =>
        let df := set_at df idx (name "ir") (Fl (of_bool (json_truthy v))) in
        bind (get light "light_state") (fun v =>
        let df := set_at df idx (name "state") (Fl (of_bool (json_truthy v))) in
        bind (get light "fault_detected") (fun v =>
        Ok (set_at df idx (name "fault") (Fl (of_bool (json_truthy v)))))))))))
      else Ok df
  | _ => Raise (TypeError "'<=' not supported between instances")
  end).

(** [for light in lights] *)
Definition iterate (lights : json) : result (list json) :=
  match lights with
  | JArr items => Ok items
  | JObj fields => Ok (map (fun kv => JStr (fst kv)) fields)
  | JStr s => Ok (map (fun a => JStr (String a EmptyString)) (list_ascii_of_string s))
  | _ => Raise (TypeError "object is not iterable")
  end.

(** A [for] loop whose body has effects. *)
Fixpoint mfor_each {A S : Type} (body : S -> A -> M S) (l : list A) (s : S) : M S :=
  match l with
  | [] => ret s
  | a :: rest => mbind (body s a) (mfor_each body rest)
  end.

(** The body of the row loop; only a decoding error (or a [KeyError]) is
    caught, with a warning, and the row keeps what was stored before it. *)
Definition parse_row (df : DataFrame) (idx : nat) : M DataFrame :=
  match cell_at (part df "lights_data") idx with
  | Fl NaN => ret df
  | Fl _ | Stamp _ => raise (TypeError "the JSON object must be str, bytes or bytearray")
  | Str text =>
      match json_loads text with
      | Raise e =>
          (logger WARNING ("Failed to parse lights_data at index "
                             ++ string_of_nat idx ++ ": " ++ str e) ;;;
           ret df)%M
      | Ok lights =>
          lift (bind (iterate lights) (fun items => for_each (store_light idx) items df))
      end
  end.

Definition _parse_lights_data (df : DataFrame) : M DataFrame :=
  let blank := repeat null (index_len df) in
  let df :=
    fold_left (fun df i =>
                 fold_left (fun df f => setitem df (light_col i f) blank) light_fields df)
              (seq 0 4) df in
  mfor_each parse_row (seq 0 (index_len df)) df.

Definition days (n : Z) : Z := n * ns_per_day.

(** [df['lights_data'].isna().all()] *)
Definition all_null (s : series) : bool := forallb isnull s.

(** The query range: the last thirty days up to now unless given. *)
Definition date_range (start_date end_date : option Z) : M (Z * Z) :=
  (start_date <- match start_date with
                 | Some t => ret t
                 | None => now <- utcnow ;; ret (now - days 30)%Z
                 end ;;
   end_date <- match end_date with
               | Some t => ret t
               | None => utcnow
               end ;;
   ret (start_date, end_date))%M.

Definition collect_device_data (device_id : string) (start_date end_date : option Z)
           (min_readings : Z) : M DataFrame :=
  (range <- date_range start_date end_date ;;
   df <- lift (read_sql device_id (fst range) (snd range)) ;;
   if (Z.of_nat (len df) <? min_readings)%Z then
     logger WARNING ("Only " ++ string_of_nat (len df) ++ " readings found for device "
                       ++ device_id ++ ", minimum " ++ string_of_Z min_readings ++ " required") ;;;
     ret empty_frame
   else
     df <- (if has_column df "lights_data" && negb (all_null (part df "lights_data"))
            then _parse_lights_data df else ret df) ;;
     logger INFO ("Collected " ++ string_of_nat (len df) ++ " readings for device " ++ device_id) ;;;
     ret df)%M.

(* ------------------------------------------------------------------ *)
(** The dataset builders of [data_collection.py] *)

(** The [SELECT DISTINCT device_id] query, already turned into a list. *)
Variable read_device_ids : result (list string).

(** The CSV text [df.to_csv(index=False)] writes. *)
Variable to_csv : DataFrame -> string.

(** [all_data[key] = df] on a dict of frames. *)
Fixpoint dict_set (key : string) (df : DataFrame) (d : list (string * DataFrame))
  : list (string * DataFrame) :=
  match d with
  | [] => [(key, df)]
  | (k, old) :: rest =>
      if String.eqb k key then (k, df) :: rest else (k, old) :: dict_set key df rest
  end.

Definition collect_all_devices_data (start_date end_date : option Z)
  : M (list (string * DataFrame)) :=
  (device_ids <- lift read_device_ids ;;
   all_data <- mfor_each (fun all_data device_id =>
                            df <- collect_device_data device_id start_date end_date 100 ;;
                            if negb (empty df) then ret (dict_set device_id df all_data)
                            else ret all_data)
                         device_ids [] ;;
   logger INFO ("Collected data for " ++ string_of_nat (List.length all_data) ++ " devices") ;;;
   ret all_data)%M.

(** [pd.concat(frames, ignore_index=True)] on a non-empty list. *)
Definition concat_all (frames : list DataFrame) : result DataFrame :=
  match frames with
  | [] => Raise (ValueError "No objects to concatenate")
  | f :: rest => Ok (fold_left concat rest f)
  end.

(** [os.path.dirname]: what precedes the last slash, without trailing
    slashes unless it consists of slashes only. *)
Fixpoint drop_until_slash (r : list ascii) : list ascii :=
  match r with
  | [] => []
  | c :: rest => if Ascii.eqb c "/" then r else drop_until_slash rest
  end.

Fixpoint drop_slashes (r : list ascii) : list ascii :=
  match r with
  | [] => []
  | c :: rest => if Ascii.eqb c "/" then drop_slashes rest else r
  end.

Definition dirname (path : string) : string :=
  let head := drop_until_slash (rev (list_ascii_of_string path)) in
  match drop_slashes head with
  | [] => string_of_list_ascii (rev head)
  | stripped => string_of_list_ascii (rev stripped)
  end.

(** [os.makedirs(path, exist_ok=True)]: an existing directory is left
    alone, a missing one is created and recorded under its name.  The file
    system here is flat (a path is a name), so the intermediate directories
    the call also creates are not recorded separately. *)
Definition makedirs (path : string) : M unit :=
  fun w =>
    if String.eqb path "" then
      (Raise (mk_exn "FileNotFoundError" "[Errno 2] No such file or directory: ''"), w)
    else
      match read_file path (files w) with
      | Some Directory => (Ok tt, w)
      | Some _ =>
          (Raise (mk_exn "FileExistsError" ("[Errno 17] File exists: '" ++ path ++ "'")), w)
      | None =>
          match write_error (files w) path Directory with
          | Some (e, fs') =>
              (Raise e, mk_world (log w) (default_lags w) (clock w) (ticks w) fs')
          | None =>
              (Ok tt, mk_world (log w) (default_lags w) (clock w) (ticks w)
                               (write_file path Directory (files w)))
          end
      end.

(** The statements of [create_training_dataset] after the frame is
    collected. *)
Definition save_dataset (df : DataFrame) (output_path : string) : M DataFrame :=
  if empty df then
    (logger ERROR "No data available for training dataset" ;;;
     ret empty_frame)%M
  else
    (makedirs (dirname output_path) ;;;
     dump (TextFile (to_csv df)) output_path ;;;
     logger INFO ("Training dataset saved to " ++ output_path) ;;;
     logger INFO "Dataset shape" ;;;
     ret df)%M.

Definition create_training_dataset (device_id : option string) (output_path : string)
           (start_date end_date : option Z) : M DataFrame :=
  match device_id with
  | Some id =>
      if truthy device_id then
        (df <- collect_device_data id start_date end_date 100 ;;
         save_dataset df output_path)%M
      else
        (all_data <- collect_all_devices_data start_date end_date ;;
         match all_data with
         | [] => logger ERROR "No data collected" ;;; ret empty_frame
         | _ => df <- lift (concat_all (map snd all_data)) ;; save_dataset df output_path
         end)%M
  | None =>
      (all_data <- collect_all_devices_data start_date end_date ;;
       match all_data with
       | [] => logger ERROR "No data collected" ;;; ret empty_frame
       | _ => df <- lift (concat_all (map snd all_data)) ;; save_dataset df output_path
       end)%M
  end.

(* ------------------------------------------------------------------ *)
(** [main] of [model_training.py], after argument parsing *)

(** [ModelTrainer(model_dir)], with the [os.makedirs] of its constructor. *)
Definition make_trainer (dir : string) : M ModelTrainer :=
  (makedirs dir ;;; ret (new_trainer dir))%M.

Definition train_main (data model_type dir : string) : M unit :=
  (trainer <- make_trainer dir ;;
   (if mem model_type ["failure"; "both"] then
      logger INFO "Training failure prediction model..." ;;;
      train_failure_prediction_model trainer data "failure_predictor" ;;;
      ret tt
    else ret tt) ;;;
   (if mem model_type ["anomaly"; "both"] then
      logger INFO "Training anomaly detection model..." ;;;
      train_anomaly_detection_model trainer data "anomaly_detector" ;;;
      ret tt
    else ret tt))%M.

(* ================================================================== *)
(** ** backend/services/ml_service.py and its caller in data_service.py *)
(* ================================================================== *)

(** A row of the [sensor_data] table, with the columns the service reads. *)
Record SensorData : Type := mk_sensor_data {
  sd_device_id : string;
  sd_timestamp : Z;
  sd_ambient_light : option Q;
  sd_ambient_light_raw : option Z;
  sd_active_lights_count : option Z;
  sd_faulty_lights_count : option Z;
  sd_is_dark : option bool
}.

(** A row of the [ml_predictions] table, with the columns the service
    sets. *)
Record MLPrediction : Type := mk_ml_prediction {
  mp_device_id : string;
  mp_prediction_type : string;
  mp_timestamp : Z;
  mp_prediction_value : Q;
  mp_prediction_label : string;
  mp_confidence : Q;
  mp_model_name : string;
  mp_model_version : string
}.

(** A database session: the two tables and the rows added since the last
    commit. *)
Record Session : Type := mk_session {
  sensor_table : list SensorData;
  prediction_table : list MLPrediction;
  pending : list MLPrediction
}.

(** Whether the database refuses a query or a commit is up to the
    database. *)
Variable query_error : Session -> option exn.
Variable commit_error : Session -> option exn.

Fixpoint insert_reading (r : SensorData) (sorted : list SensorData) : list SensorData :=
  match sorted with
  | [] => [r]
  | x :: rest =>
      if (sd_timestamp x <=? sd_timestamp r)%Z then x :: insert_reading r rest
      else r :: x :: rest
  end.

(** [ORDER BY timestamp ASC] *)
Definition order_by_timestamp (rows : list SensorData) : list SensorData :=
  fold_left (fun acc r => insert_reading r acc) rows [].

(** [db.query(SensorData).filter(device_id == d, timestamp >= start)
    .order_by(timestamp.asc()).all()] *)
Definition query_recent (db : Session) (device_id : string) (start_time : Z)
  : result (list SensorData) :=
  match query_error db with
  | Some e => Raise e
  | None =>
      Ok (order_by_timestamp
            (filter (fun r => String.eqb (sd_device_id r) device_id
                              && (start_time <=? sd_timestamp r)%Z)
                    (sensor_table db)))
  end.

Definition cell_of_Q (x : option Q) : cell :=
  match x with Some q => Fl (Num q) | None => null end.
Definition cell_of_Z (x : option Z) : cell :=
  match x with Some z => Fl (of_Z z) | None => null end.
Definition cell_of_bool (x : option bool) : cell :=
  match x with Some b => Fl (of_bool b) | None => null end.

(** [pd.DataFrame(data)] for the list of dicts built from the rows. *)
Definition history_frame (rows : list SensorData) : DataFrame :=
  mk_frame (List.length rows)
    [("timestamp", map (fun r => Stamp (sd_timestamp r)) rows);
     ("ambient_light", map (fun r => cell_of_Q (sd_ambient_light r)) rows);
     ("ambient_light_raw", map (fun r => cell_of_Z (sd_ambient_light_raw r)) rows);
     ("active_lights_count", map (fun r => cell_of_Z (sd_active_lights_count r)) rows);
     ("faulty_lights_count", map (fun r => cell_of_Z (sd_faulty_lights_count r)) rows);
     ("is_dark", map (fun r => cell_of_bool (sd_is_dark r)) rows)].

Definition _get_historical_data (db : Session) (device_id : string) (hours : Z)
  : M (option DataFrame) :=
  try_except
    (now <- utcnow ;;
     let start_time := (now - hours * ns_per_hour)%Z in
     query <- lift (query_recent db device_id start_time) ;;
     match query with
     | [] => ret None
     | _ => ret (Some (history_frame query))
     end)%M
    (fun e =>
       logger ERROR ("Error getting historical data: " ++ str e) ;;;
       ret None)%M.

(** [db.add], [db.commit], [db.rollback] *)
Definition add (db : Session) (p : MLPrediction) : Session :=
  mk_session (sensor_table db) (prediction_table db) (pending db ++ [p]).

Definition commit (db : Session) : result Session :=
  match commit_error db with
  | Some e => Raise e
  | None => Ok (mk_session (sensor_table db) (prediction_table db ++ pending db) [])
  end.

Definition rollback (db : Session) : Session :=
  mk_session (sensor_table db) (prediction_table db) [].

Definition failure_record (device_id : string) (r : FailureResult) (now : Z) : MLPrediction :=
  mk_ml_prediction device_id "failure" now (failure_probability r)
    (if (prediction r =? 1)%Z then "failure" else "normal")
    (probability r) "failure_predictor" "1.0".

Definition anomaly_record (device_id : string) (r : AnomalyResult) (now : Z) : MLPrediction :=
  mk_ml_prediction device_id "anomaly" now (anomaly_score r)
    (if is_anomaly r then "anomaly" else "normal")
    (Qabs (anomaly_score r)) "anomaly_detector" "1.0".

Definition _store_predictions (db : Session) (device_id : string) (p : Predictions)
  : M Session :=
  try_except
    (db1 <- match failure p with
            | Result r => now <- utcnow ;; ret (add db (failure_record device_id r now))
            | Error _ => ret db
            end ;;
     db2 <- match anomaly p with
            | Result r => now <- utcnow ;; ret (add db1 (anomaly_record device_id r now))
            | Error _ => ret db1
            end ;;
     lift (commit db2))%M
    (fun e =>
       logger ERROR ("Error storing predictions: " ++ str e) ;;;
       ret (rollback db))%M.

(** [MLService.generate_predictions]; [self.inference] is the engine. *)
Definition generate_predictions (inference : MLInference) (db : Session)
           (device_id : string) (sensor_data : list (string * cell))
  : M (entry Predictions * Session) :=
  try_except
    (historical_data <- _get_historical_data db device_id 1 ;;
     predictions <- predict inference sensor_data historical_data ;;
     db' <- _store_predictions db device_id predictions ;;
     ret (Result predictions, db'))%M
    (fun e =>
       logger ERROR ("Error generating predictions: " ++ str e) ;;;
       ret (Error (str e), db))%M.

(** The fields of an incoming reading that [create_sensor_data] hands to
    the ML service. *)
Record Reading : Type := mk_reading {
  rd_ambient_light : Q;
  rd_ambient_light_raw : Z;
  rd_active_lights : Z;
  rd_faulty_lights : Z;
  rd_is_dark : bool
}.

Definition sensor_dict (data : Reading) : list (string * cell) :=
  [("ambient_light", Fl (Num (rd_ambient_light data)));
   ("ambient_light_raw", Fl (of_Z (rd_ambient_light_raw data)));
   ("active_lights_count", Fl (of_Z (rd_active_lights data)));
   ("faulty_lights_count", Fl (of_Z (rd_faulty_lights data)));
   ("is_dark", Fl (of_bool (rd_is_dark data)))].

(** The ML step of [DataService.create_sensor_data]: a fresh [MLService()]
    (engine over the directory 'models') scores the reading; a failure is
    logged and swallowed. *)
Definition predict_on_ingest (db : Session) (device_id : string) (data : Reading)
  : M Session :=
  try_except
    (ml_service <- new_inference "models" ;;
     r <- generate_predictions ml_service db device_id (sensor_dict data) ;;
     ret (snd r))%M
    (fun e =>
       logger WARNING ("ML prediction failed: " ++ str e) ;;;
       ret db)%M.

(** [df'] is rectangular and has as many rows as [df]. *)
Definition same_shape (df df' : DataFrame) : Prop :=
  well_formed df' = true /\ index_len df' = index_len df.


(** A series in ascending order with the nulls last, as [sort_values]
    would leave it. *)
Definition ascending (s : series) : Prop :=
  forall i j, i < j -> j < List.length s -> cell_leb (cell_at s i) (cell_at s j) = true.

(** The same with no two equal keys: every correct sort agrees on such a
    series. *)
Definition strictly_ascending (s : series) : Prop :=
  forall i j, i < j -> j < List.length s ->
              cell_leb (cell_at s i) (cell_at s j) = true
              /\ (isnull (cell_at s j) = false -> cell_leb (cell_at s j) (cell_at s i) = false).

(** Number of rows of the history handed to a predictor. *)
Definition history_rows (historical_data : option DataFrame) : nat :=
  match historical_data with
  | Some h => index_len h
  | None => 0
  end.

(** The save at the end of a training run was refused: writing the model
    blob at [mpath] raised [e] and left [fs'], or that write went through
    and writing the schema at [fpath] raised [e] and left [fs']. *)
Definition save_refused (is_model : blob -> Prop) (mpath fpath : string)
           (fs : list (string * blob)) (e : exn) (fs' : list (string * blob)) : Prop :=
  exists mb cols,
    is_model mb
    /\ (write_error fs mpath mb = Some (e, fs')
        \/ (write_error fs mpath mb = None
            /\ write_error (write_file mpath mb fs) fpath (FeaturesPickle cols)
               = Some (e, fs'))).

(** A computation that, whenever it raises, leaves the file system as it
    found it or in a state that [R] relates to it and to the exception. *)
Definition quiet_unless {A : Type}
           (R : list (string * blob) -> exn -> list (string * blob) -> Prop) (c : M A) : Prop :=
  forall w e, fst (c w) = Raise e ->
              files (snd (c w)) = files w \/ R (files w) e (files (snd (c w))).

(** What holds of the value and the world whenever a computation
    completes. *)
Definition ensures {A : Type} (c : M A) (P : A -> World -> Prop) : Prop :=
  forall w a w', c w = (Ok a, w') -> P a w'.

(** A schema as the trainers store it: no identifier, raw-payload or label
    column. *)
Definition feature_names_only (cols : list string) : Prop :=
  forall n, In n cols -> mem n exclude_cols = false /\ String.prefix "target_" n = false.

(* ------------------------------------------------------------------ *)
(** [get_failure_events] *)

(** [s.replace(old, new)]: every occurrence, left to right, without
    overlap; an empty [old] matches before every character and at the
    end. *)
Fixpoint intersperse (new s : string) : string :=
  match s with
  | EmptyString => new
  | String c rest => new ++ String c (intersperse new rest)
  end.

Fixpoint replace_from (fuel : nat) (old new s : string) : string :=
  match fuel with
  | 0 => s
  | S fuel' =>
      if String.prefix old s then
        new ++ replace_from fuel' old new
                 (String.substring (String.length old) (String.length s - String.length old) s)
      else
        match s with
        | EmptyString => EmptyString
        | String c rest => String c (replace_from fuel' old new rest)
        end
  end.

Definition replace (old new s : string) : string :=
  if String.eqb old "" then intersperse new s
  else replace_from (String.length s) old new s.

Definition nl : string := String "010"%char EmptyString.

(** The text of the query, as the triple-quoted literal has it. *)
Definition failure_events_sql : string :=
  String.concat nl
    [""; 
     "            SELECT ";
     "                a.id,";
     "                a.device_id,";
     "                a.alert_type,";
     "                a.severity,";
     "                a.light_id,";
     "                a.created_at as failure_time,";
     "                a.latitude,";
     "                a.longitude";
     "            FROM alerts a";
     "            WHERE a.alert_type = 'fault'";
     "            AND a.status = 'resolved'";
     "        "].

(** The text handed to the database for a given [device_id] argument. *)
Definition failure_events_query (device_id : option string) : string :=
  match device_id with
  | Some id =>
      if truthy device_id then
        replace "FROM alerts a" ("FROM alerts a WHERE a.device_id = '" ++ id ++ "' AND")
                failure_events_sql
      else failure_events_sql
  | None => failure_events_sql
  end.

(** [pd.read_sql] on a query text without parameters. *)
Variable read_sql_text : string -> result DataFrame.

Definition get_failure_events (device_id : option string) : M DataFrame :=
  (df <- lift (read_sql_text (failure_events_query device_id)) ;;
   logger INFO ("Found " ++ string_of_nat (len df) ++ " failure events") ;;;
   ret df)%M.

(** What a completed run of a trainer on [data_path], started in the world
    [w], has fitted: the schema is the feature list of the frame
    [create_features] returns for the dataset, the model is what the
    learner returns for that frame restricted to the schema. *)
Definition fitted_by_failure_trainer (self : ModelTrainer) (data_path : string) (w : World)
           (cols : list string) (m : Classifier) : Prop :=
  exists df out sel y X_train X_test y_train y_test,
    fst (read_csv data_path w) = Ok df
    /\ fst (create_features (trainer_feature_engineer self) df (Some "failure") w) = Ok out
    /\ cols = get_feature_columns out true
    /\ select_columns out cols = Ok sel
    /\ getitem out "target_failure" = Ok y
    /\ train_test_split sk (values (fillna0 sel)) y = Ok (X_train, X_test, y_train, y_test)
    /\ fit_random_forest sk X_train y_train = Ok m.

Definition fitted_by_anomaly_trainer (self : ModelTrainer) (data_path : string) (w : World)
           (cols : list string) (m : Detector) : Prop :=
  exists df out sel,
    fst (read_csv data_path w) = Ok df
    /\ fst (create_features (trainer_feature_engineer self) df None w) = Ok out
    /\ cols = get_feature_columns out true
    /\ select_columns out cols = Ok sel
    /\ fit_isolation_forest sk (values (fillna0 sel)) = Ok m.

(* ------------------------------------------------------------------ *)
(** Vocabulary of the statements below *)

(** Reindexing as the specification words it: for each schema column in
    order, the row's value when the row has that column, zero when it has
    not (or holds a null); columns outside the schema are dropped. *)
Fixpoint row_get (name : string) (r : list (string * cell)) : option cell :=
  match r with
  | [] => None
  | (n, c) :: rest => if String.eqb n name then Some c else row_get name rest
  end.

Definition reindex_to_schema (r : list (string * cell)) (schema : list string) : list cell :=
  map (fun n => match row_get n r with Some c => fill0 c | None => Fl (Num 0) end) schema.

(** The label rule: a fault 6 rows ahead or 3 rows ahead; a row that does
    not exist counts as no fault. *)
Definition fault_ahead (xs : list float) (j : nat) : bool :=
  match nth_error xs j with
  | Some x => fgtb x (Num 0)
  | None => false
  end.

Definition failure_label (xs : list float) (i : nat) : cell :=
  Fl (of_bool (fault_ahead xs (i + 6) || fault_ahead xs (i + 3))).

(** The rows [dropna] keeps: those without a null in any column. *)
Definition kept_rows (e : DataFrame) : list nat :=
  filter (row_complete e) (seq 0 (index_len e)).

(** The columns the specification names for pruning: the lag columns and
    the row-to-row difference columns. *)
Definition ends_with (sfx s : string) : bool :=
  let n := String.length s in
  let m := String.length sfx in
  (m <=? n) && String.eqb (String.substring (n - m) m s) sfx.

Definition contains (sub s : string) : bool :=
  match String.index 0 sub s with Some _ => true | None => false end.

Definition is_lag_or_diff (name : string) : bool :=
  contains "_lag_" name || ends_with "_diff" name.

(** The rows pruning would keep if it looked at lag and diff columns only. *)
Definition rows_without_null_lag_or_diff (e : DataFrame) : list nat :=
  filter (fun i =>
            forallb (fun c => negb (is_lag_or_diff (fst c)) || negb (isnull (cell_at (snd c) i)))
                    (columns e))
         (seq 0 (index_len e)).

(** The frame a successful step returned. *)
Definition unwrap (r : result DataFrame) : DataFrame :=
  match r with
  | Ok df => df
  | Raise _ => empty_frame
  end.

(** The world left by a history of earlier [create_features] calls. *)
Fixpoint after_calls (history : list (FeatureEngineer * DataFrame * option string))
         (w : World) : World :=
  match history with
  | [] => w
  | (fe, df, target) :: rest => after_calls rest (snd (create_features fe df target w))
  end.

(** The parts of the world a computation is not allowed to touch without
    saying so. *)
Definition keeps_lags {A : Type} (c : M A) : Prop :=
  forall w, default_lags (snd (c w)) = default_lags w.

Definition keeps_files {A : Type} (c : M A) : Prop :=
  forall w, files (snd (c w)) = files w.

(** What an anomaly entry says, its clock reading left out. *)
Definition anomaly_outcome (e : entry AnomalyResult) : entry (bool * Q) :=
  match e with
  | Result r => Result (is_anomaly r, anomaly_score r)
  | Error msg => Error msg
  end.

(** [df'] has the rows of [df] and at least its columns. *)
Definition grows (df df' : DataFrame) : Prop :=
  forall n, has_column df n = true -> has_column df' n = true.

(** A step leaves alone every column whose name it does not write. *)
Definition keeps (n : string) (df df' : DataFrame) : Prop :=
  get_column df' n = get_column df n.

Definition untouched (written : list string) (n : string) : bool :=
  forallb (fun m => negb (String.eqb m n)) written.

Definition written_by_basic : list string :=
  ["hour"; "day_of_week"; "is_weekend"; "is_night";
   "ambient_light_squared"; "ambient_light_log"].

Definition written_by_temporal : list string := ["timestamp"; "time_since_start"].

Definition rolling_suffixes : list string :=
  ["_rolling_mean"; "_rolling_std"; "_rolling_min"; "_rolling_max"; "_diff"; "_pct_change"].

Definition written_by_rolling : list string :=
  flat_map (fun col => map (String.append col) rolling_suffixes) numeric_cols.

Definition written_by_light : list string :=
  ["mean_light_ldr"; "std_light_ldr"; "min_light_ldr"; "max_light_ldr";
   "total_faults"; "fault_rate"; "total_active"; "active_rate"].

Definition written_by_target : list string := ["target_failure"; "target_anomaly"].

(** No lag column, whatever the lag, is called [n]. *)
Definition no_lag_name (n : string) : Prop :=
  forall col sfx, In col lag_cols -> String.eqb (col ++ "_lag_" ++ sfx) n = false.

(** [df'] has the rows of [df] and at least its columns. *)
Definition extends (df df' : DataFrame) : Prop :=
  index_len df' = index_len df /\ grows df df'.

(** The twenty columns [_parse_lights_data] adds. *)
Definition light_columns : list string :=
  flat_map (fun i => map (light_col i) light_fields) (seq 0 4).

(** The rows [_store_predictions] adds for a prediction record: one per
    entry that is not an error entry, stamped [t1] and [t2]. *)
Definition stored_records (device_id : string) (p : Predictions) (t1 t2 : Z)
  : list MLPrediction :=
  ((match failure p with
    | Result r => [failure_record device_id r t1]
    | Error _ => []
    end)
   ++ (match anomaly p with
       | Result r => [anomaly_record device_id r t2]
       | Error _ => []
       end))%list.

(** The message of the error entry of a model on a reading for which
    feature engineering raised [e]. *)
Definition error_entry_message {A : Type} (model : option A) (e : exn) : string :=
  match model with
  | Some _ => str e
  | None => "Model not loaded"
  end.

(** The part of the failure-events query before its FROM clause, and the
    two conditions after it. *)
Definition failure_events_select : string :=
  String.concat nl
    [EmptyString;
     "            SELECT ";
     "                a.id,";
     "                a.device_id,";
     "                a.alert_type,";
     "                a.severity,";
     "                a.light_id,";
     "                a.created_at as failure_time,";
     "                a.latitude,";
     "                a.longitude";
     "            "].

Definition failure_events_conditions : string :=
  String.concat nl
    [EmptyString;
     "            WHERE a.alert_type = 'fault'";
     "            AND a.status = 'resolved'";
     "        "].

(* ================================================================== *)
(** ** Concrete instances used to run the code on examples *)
(* ================================================================== *)

(** Stand-ins for the numeric kernels: a square root rounded down to an
    integer and the first-order term of [log1p].  No property below depends
    on the values they return. *)
Definition coarse_numpy : Numpy :=
  mk_numpy (fun q => inject_Z (Z.sqrt (Qfloor q))) (fun q => q).

(** A parser that knows no date format: text timestamps are rejected. *)
Definition no_dates (txt : string) : option Z := None.

(** A world with an empty log and file system, whose clock reads
    0, 1, 2, ... and whose lag list is the source's default [1, 3, 6]. *)
Definition fresh_world : World :=
  mk_world [] [1; 3; 6]%Z (fun n => Z.of_nat n) 0 [].

Definition hourly (n : Z) : cell := Stamp (n * ns_per_hour).
Definition numbers (l : list Z) : series := map (fun z => Fl (of_Z z)) l.

(** A classifier that answers class 0 with probabilities (0.75, 0.25) and a
    detector that answers inlier with score -0.5, for one input row. *)
Definition constant_classifier : Classifier :=
  mk_classifier (fun X => Ok (map (fun _ => 0%Z) X))
                (fun X => Ok (map (fun _ => [3 # 4; 1 # 4]%Q) X)).

Definition constant_detector : Detector :=
  mk_detector (fun X => Ok (map (fun _ => 1%Z) X))
              (fun X => Ok (map (fun _ => (-1 # 2)%Q) X)).

(** A learner that splits nothing off and always fits the constant models. *)
Definition toy_sklearn : Sklearn :=
  mk_sklearn (fun X y => Ok (X, X, y, y))
             (fun _ _ => Ok constant_classifier)
             (fun _ _ => Ok 1%Q)
             (fun _ _ => Ok "report")
             (fun _ => Ok constant_detector).

(** A CSV file that has a header line and no data rows. *)
Definition header_only : DataFrame :=
  mk_frame 0 [("timestamp", []); ("faulty_lights_count", [])].

Definition world_with_csv : World :=
  mk_world [] [1; 3; 6]%Z (fun n => Z.of_nat n) 0
           [("data/training_data.csv", TextFile "timestamp,faulty_lights_count")].

(** The same world, with a CSV file of timestamps and ambient light. *)
Definition world_with_light_csv : World :=
  mk_world [] [1; 3; 6]%Z (fun n => Z.of_nat n) 0
           [("data/training_data.csv", TextFile "timestamp,ambient_light")].

(** Fifty hourly readings of one device. *)
Definition fifty_rows : DataFrame :=
  mk_frame 50 [("timestamp", map (fun i => hourly (Z.of_nat i)) (seq 0 50));
               ("ambient_light", map (fun i => Fl (of_nat i)) (seq 0 50))].

(** A reading with columns a, c and d, and a schema over a, b and c. *)
Definition reading_acd : list (string * cell) :=
  [("timestamp", Stamp 0); ("a", Fl (of_Z 1)); ("c", Fl (of_Z 3)); ("d", Fl (of_Z 4))].

Definition schema_abc : list string := ["a"; "b"; "c"].
Definition schema_ac : list string := ["a"; "c"].

Definition engine_with (schema : list string) : MLInference :=
  mk_inference "models" new_engineer (Some constant_classifier) (Some constant_detector)
               (Some schema) (Some schema).

(** An engine whose failure artifact is absent. *)
Definition engine_without_failure_model : MLInference :=
  mk_inference "models" new_engineer None (Some constant_detector) None (Some schema_ac).

(** Eight hourly readings; the GPS latitude of the last one is missing. *)
Definition late_gap : DataFrame :=
  mk_frame 8 [("timestamp", map hourly [0; 1; 2; 3; 4; 5; 6; 7]%Z);
              ("ambient_light", numbers [11; 12; 13; 14; 15; 16; 17; 18]%Z);
              ("gps_latitude",
               (numbers [50; 50; 50; 50; 50; 50; 50]%Z ++ [null])%list)].


(** Eight hourly readings with nothing missing. *)
Definition eight_rows : DataFrame :=
  mk_frame 8 [("timestamp", map hourly [0; 1; 2; 3; 4; 5; 6; 7]%Z);
              ("ambient_light", numbers [11; 12; 13; 14; 15; 16; 17; 18]%Z)].

(** Four readings of ambient light. *)
Definition four_rows : DataFrame :=
  mk_frame 4 [("timestamp", map hourly [0; 1; 2; 3]%Z);
              ("ambient_light", numbers [10; 20; 30; 40]%Z)].

(** Seven hourly readings of the faulty-light count, one fault at index 3. *)
Definition seven_counts : DataFrame :=
  mk_frame 7 [("timestamp", map hourly [0; 1; 2; 3; 4; 5; 6]%Z);
              ("faulty_lights_count", numbers [0; 0; 0; 1; 0; 0; 0]%Z)].

(** One hundred hourly readings of one device. *)
Definition hundred_rows : DataFrame :=
  mk_frame 100 [("timestamp", map (fun i => hourly (Z.of_nat i)) (seq 0 100));
                ("ambient_light", map (fun i => Fl (of_nat i)) (seq 0 100))].

(** A reading with a timestamp and an ambient-light value. *)
Definition reading_light : list (string * cell) :=
  [("timestamp", hourly 9); ("ambient_light", Fl (of_Z 5))].

(** A model directory that holds the failure model and nothing else. *)
Definition world_with_model_only : World :=
  mk_world [] [1; 3; 6]%Z (fun n => Z.of_nat n) 0
           [("models/failure_predictor.pkl", ClassifierPickle constant_classifier)].

(** One stored row whose per-light payload is the JSON number 5, and a
    decoder that reads it. *)
Definition payload_frame : DataFrame :=
  mk_frame 1 [("timestamp", [hourly 0]); ("lights_data", [Str "5"])].

Definition json_five (txt : string) : result json := Ok (JInt 5).

(** A CSV writer that writes the row count. *)
Definition count_csv (df : DataFrame) : string := string_of_nat (index_len df).

(** A database that refuses nothing, a session with one stored reading of
    device SL-001 at time 0, and an incoming reading. *)
Definition no_db_error (db : Session) : option exn := None.


Definition empty_session : Session := mk_session [] [] [].

Definition dark_reading : Reading := mk_reading 12%Q 480 4 0 true.

(** What a run returned, with a default for a run that raised. *)
Definition fst_engine (r : result MLInference * World) : MLInference :=
  match fst r with
  | Ok self => self
  | Raise _ => mk_inference EmptyString new_engineer None None None None
  end.

Definition trained_report (r : result FailureReport) : FailureReport :=
  match r with
  | Ok rep => rep
  | Raise _ => mk_failure_report EmptyString EmptyString 0 0 0 0
  end.

Definition anomaly_report (r : result AnomalyReport) : AnomalyReport :=
  match r with
  | Ok rep => rep
  | Raise _ => mk_anomaly_report EmptyString EmptyString 0 0
  end.

(** A file system that accepts every write, and one with room for the
    model file only: writing a schema file fails and leaves it absent. *)
Definition no_write_error (fs : list (string * blob)) (path : string) (b : blob)
  : option (exn * list (string * blob)) := None.

Definition disk_full_after_model (fs : list (string * blob)) (path : string) (b : blob)
  : option (exn * list (string * blob)) :=
  match b with
  | FeaturesPickle _ => Some (mk_exn "OSError" "[Errno 28] No space left on device", fs)
  | _ => None
  end.

(** Thirty hourly readings of a device with one or two faulty lights. *)
Definition faulty_device : DataFrame :=
  mk_frame 30 [("timestamp", map (fun i => hourly (Z.of_nat i)) (seq 0 30));
               ("faulty_lights_count", map (fun i => Fl (of_nat (1 + i mod 2))) (seq 0 30))].

(** Eight stored readings of device SL-001, one a minute, and the reading
    whose stored copy is the last of them. *)
Definition stored_at (i : Z) : SensorData :=
  mk_sensor_data "SL-001" (i * 60000000000) (Some (inject_Z (10 + i))) (Some (400 + i)%Z)
                 (Some 4%Z) (Some (1 + i mod 2)%Z) (Some true).

Definition recent_readings : list SensorData := map stored_at [0; 1; 2; 3; 4; 5; 6; 7]%Z.

Definition latest_reading : Reading := mk_reading 17%Q 407 4 2 true.

Definition no_json (txt : string) : result json := Raise (JSONDecodeError "Expecting value").

(* ================================================================== *)
(** ** Frames: basic facts *)
(* ================================================================== *)

Lemma lookup_assign_same (n : string) (s : series) (cols : list (string * series)) :
  lookup n (assign n s cols) = Some s.
Proof.
  induction cols as [|[m old] rest IH]; simpl.
  - now rewrite String.eqb_refl.
  - destruct (String.eqb m n) eqn:E; simpl; rewrite E; auto.
Qed.

Lemma lookup_assign_other (n m : string) (s : series) (cols : list (string * series)) :
  String.eqb n m = false -> lookup m (assign n s cols) = lookup m cols.
Proof.
  intros Hne. induction cols as [|[k old] rest IH]; simpl.
  - now rewrite Hne.
  - destruct (String.eqb k n) eqn:E; simpl.
    + apply String.eqb_eq in E. subst k. now rewrite Hne.
    + now rewrite IH.
Qed.

Lemma get_setitem_same (df : DataFrame) (n : string) (s : series) :
  get_column (setitem df n s) n = Some s.
Proof. apply lookup_assign_same. Qed.

Lemma get_setitem_other (df : DataFrame) (n m : string) (s : series) :
  String.eqb n m = false -> get_column (setitem df n s) m = get_column df m.
Proof. apply lookup_assign_other. Qed.

Lemma has_setitem (df : DataFrame) (n m : string) (s : series) :
  has_column (setitem df n s) m = String.eqb n m || has_column df m.
Proof.
  unfold has_column. fold (get_column (setitem df n s) m). fold (get_column df m).
  destruct (String.eqb n m) eqn:E.
  - apply String.eqb_eq in E. subst m. now rewrite get_setitem_same.
  - now rewrite get_setitem_other.
Qed.

Lemma index_len_setitem (df : DataFrame) (n : string) (s : series) :
  index_len (setitem df n s) = index_len df.
Proof. reflexivity. Qed.

Lemma lookup_map_cols (f : series -> series) (n : string) (cols : list (string * series)) :
  lookup n (map (fun c => (fst c, f (snd c))) cols) = option_map f (lookup n cols).
Proof.
  induction cols as [|[m s] rest IH]; simpl; auto.
  destruct (String.eqb m n); auto.
Qed.

Lemma get_take (idx : list nat) (df : DataFrame) (n : string) :
  get_column (take idx df) n =
  option_map (fun s => map (cell_at s) idx) (get_column df n).
Proof. unfold get_column, take; simpl. apply (lookup_map_cols (fun s => map (cell_at s) idx)). Qed.

Lemma has_take (idx : list nat) (df : DataFrame) (n : string) :
  has_column (take idx df) n = has_column df n.
Proof.
  unfold has_column. fold (get_column (take idx df) n). rewrite get_take.
  fold (get_column df n). now destruct (get_column df n).
Qed.

Lemma has_column_get (df : DataFrame) (n : string) :
  has_column df n = true -> exists s, get_column df n = Some s.
Proof.
  unfold has_column, get_column. destruct (lookup n (columns df)); eauto; discriminate.
Qed.

Lemma get_has_column (df : DataFrame) (n : string) (s : series) :
  get_column df n = Some s -> has_column df n = true.
Proof. unfold has_column, get_column. now intros ->. Qed.

Lemma has_column_false_get (df : DataFrame) (n : string) :
  has_column df n = false -> get_column df n = None.
Proof.
  unfold has_column, get_column. destruct (lookup n (columns df)); auto; discriminate.
Qed.

(* ================================================================== *)
(** ** The monad: how a computation leaves the world *)
(* ================================================================== *)

Lemma keeps_lags_ret {A : Type} (a : A) : keeps_lags (ret a).
Proof. now intros w. Qed.

Lemma keeps_lags_raise {A : Type} (e : exn) : keeps_lags (@raise A e).
Proof. now intros w. Qed.

Lemma keeps_lags_lift {A : Type} (r : result A) : keeps_lags (lift r).
Proof. now intros w. Qed.

Lemma keeps_lags_logger (lv : level) (msg : string) : keeps_lags (logger lv msg).
Proof. now intros w. Qed.

Lemma keeps_lags_utcnow : keeps_lags utcnow.
Proof. now intros w. Qed.

Lemma keeps_lags_mbind {A B : Type} (c : M A) (k : A -> M B) :
  keeps_lags c -> (forall a, keeps_lags (k a)) -> keeps_lags (mbind c k).
Proof.
  intros Hc Hk w. unfold mbind. specialize (Hc w).
  destruct (c w) as [[a|e] w1]; simpl in *; [rewrite Hk|]; exact Hc.
Qed.

Lemma keeps_lags_try {A : Type} (c : M A) (h : exn -> M A) :
  keeps_lags c -> (forall e, keeps_lags (h e)) -> keeps_lags (try_except c h).
Proof.
  intros Hc Hh w. unfold try_except. specialize (Hc w).
  destruct (c w) as [[a|e] w1]; simpl in *; [|rewrite Hh]; exact Hc.
Qed.

Lemma keeps_files_ret {A : Type} (a : A) : keeps_files (ret a).
Proof. now intros w. Qed.

Lemma keeps_files_raise {A : Type} (e : exn) : keeps_files (@raise A e).
Proof. now intros w. Qed.

Lemma keeps_files_logger (lv : level) (msg : string) : keeps_files (logger lv msg).
Proof. now intros w. Qed.

Lemma keeps_files_mbind {A B : Type} (c : M A) (k : A -> M B) :
  keeps_files c -> (forall a, keeps_files (k a)) -> keeps_files (mbind c k).
Proof.
  intros Hc Hk w. unfold mbind. specialize (Hc w).
  destruct (c w) as [[a|e] w1]; simpl in *; [rewrite Hk|]; exact Hc.
Qed.

Create HintDb world.

#[local] Hint Resolve keeps_lags_ret keeps_lags_raise keeps_lags_lift keeps_lags_logger
  keeps_lags_utcnow keeps_lags_mbind keeps_lags_try : world.
#[local] Hint Resolve keeps_files_ret keeps_files_raise keeps_files_logger
  keeps_files_mbind : world.

(* ------------------------------------------------------------------ *)
(** *** [create_features] and the world *)

Lemma create_features_result (self : FeatureEngineer) (df : DataFrame)
      (target : option string) (w : World) :
  fst (create_features self df target w) =
  if empty df then Ok df
  else bind (engineered (window_size self) (default_lags w) df target)
            (fun e => Ok (dropna e)).
Proof.
  unfold create_features. destruct (empty df); [reflexivity|].
  destruct (engineered _ _ _ _); reflexivity.
Qed.

Lemma create_features_keeps_lags (self : FeatureEngineer) (df : DataFrame)
      (target : option string) : keeps_lags (create_features self df target).
Proof.
  intros w. unfold create_features. destruct (empty df); [reflexivity|].
  destruct (engineered _ _ _ _); reflexivity.
Qed.

Lemma create_features_keeps_files (self : FeatureEngineer) (df : DataFrame)
      (target : option string) : keeps_files (create_features self df target).
Proof.
  intros w. unfold create_features. destruct (empty df); [reflexivity|].
  destruct (engineered _ _ _ _); reflexivity.
Qed.

Lemma create_features_same_lags (self : FeatureEngineer) (df : DataFrame)
      (target : option string) (w1 w2 : World) :
  default_lags w1 = default_lags w2 ->
  fst (create_features self df target w1) = fst (create_features self df target w2).
Proof. intros H. now rewrite !create_features_result, H. Qed.

Lemma after_calls_keeps_lags (history : list (FeatureEngineer * DataFrame * option string))
      (w : World) :
  default_lags (after_calls history w) = default_lags w.
Proof.
  revert w. induction history as [|[[fe df] t] rest IH]; intros w; simpl; [reflexivity|].
  rewrite IH. apply create_features_keeps_lags.
Qed.

(** C10.  [create_features] applied to an empty frame (no rows, or no
    columns) returns that very frame, raises nothing, and leaves the world
    (log included) as it was. *)
Theorem create_features_empty_input (self : FeatureEngineer) (df : DataFrame)
        (target : option string) (w : World) :
  empty df = true -> create_features self df target w = (Ok df, w).
Proof. intros H. unfold create_features. now rewrite H. Qed.

(** C6.  The frame [create_features] returns is a function of the input
    rows, the window size and the lag list alone: two calls on the same
    rows agree whatever the worlds they start from (logs, clock, files) and
    whatever calls were made before. *)
Theorem create_features_deterministic (self : FeatureEngineer) (df : DataFrame)
        (target : option string)
        (history : list (FeatureEngineer * DataFrame * option string))
        (w1 w2 : World) :
  default_lags w1 = default_lags w2 ->
  fst (create_features self df target (after_calls history w1)) =
  fst (create_features self df target w2).
Proof.
  intros H. apply create_features_same_lags.
  now rewrite after_calls_keeps_lags.
Qed.

(* ------------------------------------------------------------------ *)
(** *** History collection *)

(** C9.  When the persistence layer answers the device query with fewer
    than [min_readings] rows, [collect_device_data] returns the empty frame
    [pd.DataFrame()], not the short frame. *)
Theorem collect_device_data_floor (device_id : string) (start_date end_date : option Z)
        (min_readings : Z) (w : World) (range : Z * Z) (df : DataFrame) :
  fst (date_range start_date end_date w) = Ok range ->
  read_sql device_id (fst range) (snd range) = Ok df ->
  (Z.of_nat (len df) < min_readings)%Z ->
  fst (collect_device_data device_id start_date end_date min_readings w) = Ok empty_frame.
Proof.
  intros Hrange Hsql Hlt.
  unfold collect_device_data, mbind at 1.
  destruct (date_range start_date end_date w) as [[r|e] w1]; simpl in Hrange; [|discriminate].
  injection Hrange as ->.
  unfold mbind at 1, lift. rewrite Hsql.
  apply Z.ltb_lt in Hlt. rewrite Hlt. reflexivity.
Qed.

(* ------------------------------------------------------------------ *)
(** *** Training on an empty dataset *)

Lemma read_csv_text (path content : string) (w : World) :
  read_file path (files w) = Some (TextFile content) ->
  read_csv path w = (parse_csv content, w).
Proof. intros H. unfold read_csv. now rewrite H. Qed.

(** C7 (as the code has it).  Training either model on an empty dataset
    raises the built-in [ValueError] with the text 'Empty dataset provided'
    and leaves the file system untouched: no model artifact and no
    feature-schema file is written. *)
Theorem training_rejects_empty_dataset (self : ModelTrainer) (data_path model_name : string)
        (w : World) (content : string) (df : DataFrame) :
  read_file data_path (files w) = Some (TextFile content) ->
  parse_csv content = Ok df ->
  empty df = true ->
  (fst (train_failure_prediction_model self data_path model_name w)
     = Raise (ValueError "Empty dataset provided")
   /\ files (snd (train_failure_prediction_model self data_path model_name w)) = files w)
  /\
  (fst (train_anomaly_detection_model self data_path model_name w)
     = Raise (ValueError "Empty dataset provided")
   /\ files (snd (train_anomaly_detection_model self data_path model_name w)) = files w).
Proof.
  intros Hfile Hcsv Hempty.
  unfold train_failure_prediction_model, train_anomaly_detection_model.
  unfold mbind, logger. simpl.
  unfold read_csv. simpl. rewrite Hfile, Hcsv, Hempty. simpl. auto.
Qed.

(* ------------------------------------------------------------------ *)
(** *** Fail-soft inference *)

Lemma predict_failure_total (self : MLInference) (sensor_data : list (string * cell))
      (historical_data : option DataFrame) (w : World) :
  exists f, fst (predict_failure self sensor_data historical_data w) = Ok f.
Proof.
  unfold predict_failure. destruct (failure_model self) as [m|].
  - unfold try_except. destruct (failure_body self m sensor_data historical_data w) as [[f|e] w1].
    + now exists f.
    + now exists (Error (str e)).
  - now exists (Error "Model not loaded").
Qed.

Lemma detect_anomaly_total (self : MLInference) (sensor_data : list (string * cell))
      (historical_data : option DataFrame) (w : World) :
  exists a, fst (detect_anomaly self sensor_data historical_data w) = Ok a.
Proof.
  unfold detect_anomaly. destruct (anomaly_model self) as [m|].
  - unfold try_except. destruct (anomaly_body self m sensor_data historical_data w) as [[a|e] w1].
    + now exists a.
    + now exists (Error (str e)).
  - now exists (Error "Model not loaded").
Qed.

Lemma predict_failure_keeps_lags (self : MLInference) (sensor_data : list (string * cell))
      (historical_data : option DataFrame) :
  keeps_lags (predict_failure self sensor_data historical_data).
Proof.
  unfold predict_failure. destruct (failure_model self) as [m|]; auto with world.
  apply keeps_lags_try.
  - unfold failure_body.
    repeat (apply keeps_lags_mbind; [auto using create_features_keeps_lags with world | intros ?]).
    auto with world.
  - intros e. auto with world.
Qed.

(** The outcome of [detect_anomaly] is a function of the anomaly artifact,
    its schema, the engineer and the inputs; the world contributes the lag
    list and nothing else. *)
Lemma detect_anomaly_outcome (self1 self2 : MLInference)
      (sensor_data : list (string * cell)) (historical_data : option DataFrame)
      (w1 w2 : World) :
  anomaly_model self1 = anomaly_model self2 ->
  anomaly_features self1 = anomaly_features self2 ->
  feature_engineer self1 = feature_engineer self2 ->
  default_lags w1 = default_lags w2 ->
  option_map anomaly_outcome
    (match fst (detect_anomaly self1 sensor_data historical_data w1) with
     | Ok a => Some a | Raise _ => None end) =
  option_map anomaly_outcome
    (match fst (detect_anomaly self2 sensor_data historical_data w2) with
     | Ok a => Some a | Raise _ => None end).
Proof.
  intros Hm Hf He Hl.
  unfold detect_anomaly. rewrite <- Hm.
  destruct (anomaly_model self1) as [m|]; [|reflexivity].
  unfold try_except, anomaly_body. rewrite <- Hf, <- He.
  unfold mbind, lift, utcnow, ret, logger.
  pose proof (create_features_same_lags (feature_engineer self1)
                (context_frame sensor_data historical_data) None w1 w2 Hl) as Hcf.
  destruct (create_features _ _ _ w1) as [[d1|e1] v1];
    destruct (create_features _ _ _ w2) as [[d2|e2] v2];
    simpl in Hcf; try discriminate.
  - injection Hcf as <-.
    destruct (model_input d1 (anomaly_features self1)) as [X|e]; simpl; [|reflexivity].
    destruct (bind (det_predict m X) first) as [p|e]; simpl; [|reflexivity].
    destruct (bind (det_score_samples m X) first) as [s|e]; simpl; reflexivity.
  - injection Hcf as <-. reflexivity.
Qed.

Lemma predict_failure_ext (self1 self2 : MLInference) (sensor_data : list (string * cell))
      (historical_data : option DataFrame) (w : World) :
  failure_model self1 = failure_model self2 ->
  failure_features self1 = failure_features self2 ->
  feature_engineer self1 = feature_engineer self2 ->
  predict_failure self1 sensor_data historical_data w =
  predict_failure self2 sensor_data historical_data w.
Proof.
  intros Hm Hf He. unfold predict_failure, failure_body.
  now rewrite Hm, Hf, He.
Qed.

(** [predict] runs the two predictors one after the other and pairs what
    they return. *)
Lemma predict_run (self : MLInference) (sensor_data : list (string * cell))
      (historical_data : option DataFrame) (w : World) :
  let w1 := snd (predict_failure self sensor_data historical_data w) in
  exists f a,
    fst (predict_failure self sensor_data historical_data w) = Ok f /\
    fst (detect_anomaly self sensor_data historical_data w1) = Ok a /\
    predict self sensor_data historical_data w =
    (Ok (mk_predictions f a), snd (detect_anomaly self sensor_data historical_data w1)).
Proof.
  intros w1.
  destruct (predict_failure_total self sensor_data historical_data w) as [f Hf].
  destruct (detect_anomaly_total self sensor_data historical_data w1) as [a Ha].
  exists f, a. repeat split; auto.
  unfold predict, mbind, ret. subst w1.
  destruct (predict_failure self sensor_data historical_data w) as [rf v1].
  simpl in Hf. subst rf. simpl in *.
  destruct (detect_anomaly self sensor_data historical_data v1) as [ra v2].
  simpl in Ha. now subst ra.
Qed.

(** C3.  [predict] always returns a record with a [failure] and an
    [anomaly] entry and never raises.  An artifact that is not loaded gives
    the entry [{'error': 'Model not loaded'}]; an exception raised anywhere
    inside a predictor's [try] block gives the entry [{'error': str(e)}];
    and each entry is computed independently of the other kind: the failure
    entry does not depend on the anomaly artifact, and what the anomaly
    entry says (flag and score, or error text) does not depend on the
    failure artifact, its schema, or the world the call starts from. *)
Theorem predict_is_fail_soft (self : MLInference) (sensor_data : list (string * cell))
        (historical_data : option DataFrame) (w : World) :
  exists p w',
    predict self sensor_data historical_data w = (Ok p, w')
    /\ (failure_model self = None -> failure p = Error "Model not loaded")
    /\ (anomaly_model self = None -> anomaly p = Error "Model not loaded")
    /\ (forall m e,
           failure_model self = Some m ->
           fst (failure_body self m sensor_data historical_data w) = Raise e ->
           failure p = Error (str e))
    /\ (forall m e,
           anomaly_model self = Some m ->
           fst (anomaly_body self m sensor_data historical_data
                  (snd (predict_failure self sensor_data historical_data w))) = Raise e ->
           anomaly p = Error (str e))
    /\ (forall self2 p2 w2',
           failure_model self2 = failure_model self ->
           failure_features self2 = failure_features self ->
           feature_engineer self2 = feature_engineer self ->
           predict self2 sensor_data historical_data w = (Ok p2, w2') ->
           failure p2 = failure p)
    /\ (forall self2 w2 p2 w2',
           anomaly_model self2 = anomaly_model self ->
           anomaly_features self2 = anomaly_features self ->
           feature_engineer self2 = feature_engineer self ->
           default_lags w2 = default_lags w ->
           predict self2 sensor_data historical_data w2 = (Ok p2, w2') ->
           anomaly_outcome (anomaly p2) = anomaly_outcome (anomaly p)).
Proof.
  destruct (predict_run self sensor_data historical_data w) as (f & a & Hf & Ha & Hp).
  cbv zeta in *.
  exists (mk_predictions f a). eexists. split; [exact Hp|]. simpl.
  repeat split.
  - intros Hnone. unfold predict_failure in Hf. rewrite Hnone in Hf.
    now injection Hf as <-.
  - intros Hnone. unfold detect_anomaly in Ha. rewrite Hnone in Ha.
    now injection Ha as <-.
  - intros m e Hm Hraise. unfold predict_failure in Hf. rewrite Hm in Hf.
    unfold try_except in Hf.
    destruct (failure_body self m sensor_data historical_data w) as [[r|e'] v]; simpl in *.
    + discriminate.
    + injection Hraise as ->. now injection Hf as <-.
  - intros m e Hm Hraise. unfold detect_anomaly in Ha. rewrite Hm in Ha.
    unfold try_except in Ha.
    destruct (anomaly_body self m sensor_data historical_data _) as [[r|e'] v]; simpl in *.
    + discriminate.
    + injection Hraise as ->. now injection Ha as <-.
  - intros self2 p2 w2' Hm Hfe He Hp2.
    destruct (predict_run self2 sensor_data historical_data w) as (f2 & a2 & Hf2 & _ & Hp2').
    rewrite Hp2 in Hp2'. injection Hp2' as -> _. simpl.
    rewrite (predict_failure_ext self2 self) in Hf2 by assumption.
    rewrite Hf in Hf2. now injection Hf2 as <-.
  - intros self2 w2 p2 w2' Hm Hfe He Hl Hp2.
    destruct (predict_run self2 sensor_data historical_data w2) as (f2 & a2 & _ & Ha2 & Hp2').
    rewrite Hp2 in Hp2'. injection Hp2' as -> _. simpl.
    pose proof (detect_anomaly_outcome self2 self sensor_data historical_data
                  (snd (predict_failure self2 sensor_data historical_data w2))
                  (snd (predict_failure self sensor_data historical_data w))
                  Hm Hfe He) as H.
    rewrite Ha2, Ha in H. simpl in H.
    assert (Hlags : default_lags (snd (predict_failure self2 sensor_data historical_data w2)) =
                    default_lags (snd (predict_failure self sensor_data historical_data w))).
    { now rewrite !predict_failure_keeps_lags. }
    specialize (H Hlags). now injection H.
Qed.

(* ------------------------------------------------------------------ *)
(** *** Schema selection at inference time *)

Lemma well_formed_column (df : DataFrame) (n : string) (s : series) :
  well_formed df = true -> get_column df n = Some s -> List.length s = index_len df.
Proof.
  unfold well_formed, get_column. intros Hwf.
  induction (columns df) as [|[m t] rest IH]; simpl in *; [discriminate|].
  apply andb_prop in Hwf as [Hlen Hrest].
  destruct (String.eqb m n).
  - intros [= <-]. now apply Nat.eqb_eq.
  - now apply IH.
Qed.

Lemma take_well_formed (idx : list nat) (df : DataFrame) : well_formed (take idx df) = true.
Proof.
  unfold well_formed, take; simpl. apply forallb_forall. intros [n s] Hin.
  apply in_map_iff in Hin as ([m t] & [= <- <-] & _). simpl.
  rewrite length_map. apply Nat.eqb_refl.
Qed.

Lemma row_get_row (df : DataFrame) (i : nat) (n : string) :
  row_get n (row df i) = option_map (fun s => cell_at s i) (get_column df n).
Proof.
  unfold row, get_column. induction (columns df) as [|[m s] rest IH]; simpl; auto.
  destruct (String.eqb m n); auto.
Qed.

Lemma cell_at_fill0 (s : series) (i : nat) :
  i < List.length s -> cell_at (map fill0 s) i = fill0 (cell_at s i).
Proof.
  intros H. unfold cell_at.
  rewrite (nth_indep (map fill0 s) null (fill0 null)) by now rewrite length_map.
  apply map_nth.
Qed.

Lemma select_all_present (df : DataFrame) (names : list string) :
  forallb (has_column df) names = true ->
  select_columns df names =
  Ok (mk_frame (index_len df)
        (map (fun n => (n, match get_column df n with Some s => s | None => [] end)) names)).
Proof.
  intros H. unfold select_columns.
  replace (filter (fun n => negb (has_column df n)) names) with (@nil string); auto.
  symmetry. induction names as [|n rest IH]; simpl in *; auto.
  apply andb_prop in H as [Hn Hrest]. rewrite Hn. simpl. auto.
Qed.

Lemma select_some_missing (df : DataFrame) (names : list string) :
  forallb (has_column df) names = false ->
  exists e, select_columns df names = Raise e /\ exn_class e = "KeyError".
Proof.
  intros H. unfold select_columns.
  destruct (filter (fun n => negb (has_column df n)) names) as [|m rest] eqn:E.
  - exfalso. assert (forallb (has_column df) names = true); [|congruence].
    apply forallb_forall. intros n Hin.
    destruct (has_column df n) eqn:Hn; auto.
    assert (In n (filter (fun n => negb (has_column df n)) names)) as Hf
        by (apply filter_In; now rewrite Hn).
    rewrite E in Hf. destruct Hf.
  - eexists. split; reflexivity.
Qed.

(** The one row handed to the model, when the engineered frame has rows. *)
Lemma values_last_row (df : DataFrame) (k : nat) :
  index_len df = S k ->
  values (iloc_last df) = [map (fun c => cell_at (snd c) k) (columns df)].
Proof.
  intros H. unfold values, iloc_last, tail, take, row. rewrite H. simpl.
  rewrite Nat.sub_0_r. simpl. rewrite !map_map. simpl. reflexivity.
Qed.

Lemma values_no_row (df : DataFrame) : index_len df = 0 -> values (iloc_last df) = [].
Proof. intros H. unfold values, iloc_last, tail, take. rewrite H. reflexivity. Qed.

(** The code's input vector and the specification's reindexing agree on a
    frame that has every schema column. *)
Lemma model_input_present (df : DataFrame) (schema : list string) (k : nat) :
  well_formed df = true ->
  index_len df = S k ->
  forallb (has_column df) schema = true ->
  model_input df (Some schema) = Ok [reindex_to_schema (row df k) schema].
Proof.
  intros Hwf Hlen Hall. unfold model_input, getitem_list.
  rewrite (select_all_present _ _ Hall). simpl.
  rewrite (values_last_row _ k) by exact Hlen. simpl.
  rewrite !map_map. simpl. unfold reindex_to_schema.
  do 2 f_equal. apply map_ext_in. intros n Hin.
  rewrite row_get_row.
  assert (has_column df n = true) as Hn by (eapply forallb_forall in Hall; eauto).
  destruct (has_column_get _ _ Hn) as [s Hs]. rewrite Hs. simpl.
  apply cell_at_fill0. rewrite (well_formed_column df n s Hwf Hs). lia.
Qed.

Lemma failure_entry_of_input_error (self : MLInference) (m : Classifier)
      (sensor_data : list (string * cell)) (historical_data : option DataFrame)
      (w w1 : World) (out : DataFrame) (e : exn) :
  failure_model self = Some m ->
  create_features (feature_engineer self) (context_frame sensor_data historical_data) None w
    = (Ok out, w1) ->
  model_input out (failure_features self) = Raise e ->
  fst (predict_failure self sensor_data historical_data w) = Ok (Error (str e)).
Proof.
  intros Hm Hcf Hin. unfold predict_failure. rewrite Hm.
  unfold try_except, failure_body, mbind. rewrite Hcf. unfold lift. rewrite Hin. reflexivity.
Qed.

Lemma anomaly_entry_of_input_error (self : MLInference) (m : Detector)
      (sensor_data : list (string * cell)) (historical_data : option DataFrame)
      (w w1 : World) (out : DataFrame) (e : exn) :
  anomaly_model self = Some m ->
  create_features (feature_engineer self) (context_frame sensor_data historical_data) None w
    = (Ok out, w1) ->
  model_input out (anomaly_features self) = Raise e ->
  fst (detect_anomaly self sensor_data historical_data w) = Ok (Error (str e)).
Proof.
  intros Hm Hcf Hin. unfold detect_anomaly. rewrite Hm.
  unfold try_except, anomaly_body, mbind. rewrite Hcf. unfold lift. rewrite Hin. reflexivity.
Qed.

Lemma part_length (df : DataFrame) (n : string) :
  well_formed df = true -> List.length (part df n) = index_len df.
Proof.
  intros Hwf. unfold part. destruct (get_column df n) as [s|] eqn:E.
  - now apply (well_formed_column df n).
  - apply repeat_length.
Qed.

Lemma concat_well_formed (a b : DataFrame) :
  well_formed a = true -> well_formed b = true -> well_formed (concat a b) = true.
Proof.
  intros Ha Hb. unfold well_formed, concat; simpl. apply forallb_forall.
  intros [n s] Hin. apply in_map_iff in Hin as (m & [= <- <-] & _). simpl.
  rewrite length_app, !part_length by assumption. apply Nat.eqb_refl.
Qed.

Lemma frame_of_dict_well_formed (d : list (string * cell)) :
  well_formed (frame_of_dict d) = true.
Proof.
  unfold well_formed, frame_of_dict; simpl. apply forallb_forall.
  intros [n s] Hin. apply in_map_iff in Hin as (kv & [= <- <-] & _). reflexivity.
Qed.

Lemma context_frame_well_formed (sensor_data : list (string * cell))
      (historical_data : option DataFrame) :
  well_formed (context_frame sensor_data historical_data) = true.
Proof.
  unfold context_frame. destruct historical_data as [h|].
  - destruct (negb (empty h)).
    + apply concat_well_formed; [apply take_well_formed | apply frame_of_dict_well_formed].
    + apply frame_of_dict_well_formed.
  - apply frame_of_dict_well_formed.
Qed.

Lemma create_features_well_formed (self : FeatureEngineer) (df out : DataFrame)
      (target : option string) (w w1 : World) :
  well_formed df = true ->
  create_features self df target w = (Ok out, w1) ->
  well_formed out = true.
Proof.
  intros Hwf. unfold create_features. destruct (empty df).
  - now intros [= <- _].
  - destruct (engineered _ _ _ _); [|discriminate].
    intros [= <- _]. apply take_well_formed.
Qed.

(** C1 (as the code has it).  The model input is [df[schema].fillna(0)]
    restricted to the last engineered row: a strict column selection, not a
    reindex.  When the engineered frame has every schema column, the input
    is the row in schema order with nulls replaced by zero and the other
    columns dropped; when a schema column is absent from the engineered
    frame, the selection raises [KeyError] and the entry of that kind is
    [{'error': ...}].  (When pruning has left no row, the input has no row
    either.) *)
Theorem model_input_selects_schema (self : MLInference)
        (sensor_data : list (string * cell)) (historical_data : option DataFrame)
        (w w1 : World) (out : DataFrame) (schema : list string) :
  create_features (feature_engineer self) (context_frame sensor_data historical_data) None w
    = (Ok out, w1) ->
  (forallb (has_column out) schema = true ->
   (forall k, index_len out = S k ->
      model_input out (Some schema) = Ok [reindex_to_schema (row out k) schema])
   /\ (index_len out = 0 -> model_input out (Some schema) = Ok []))
  /\
  (forallb (has_column out) schema = false ->
   (exists e, model_input out (Some schema) = Raise e /\ exn_class e = "KeyError")
   /\ (forall m, failure_model self = Some m -> failure_features self = Some schema ->
         exists msg, fst (predict_failure self sensor_data historical_data w) = Ok (Error msg))
   /\ (forall m, anomaly_model self = Some m -> anomaly_features self = Some schema ->
         exists msg, fst (detect_anomaly self sensor_data historical_data w) = Ok (Error msg))).
Proof.
  intros Hcf.
  pose proof (create_features_well_formed _ _ _ _ _ _
                (context_frame_well_formed sensor_data historical_data) Hcf) as Hwf.
  split.
  - intros Hall. split.
    + intros k Hk. now apply model_input_present.
    + intros H0. unfold model_input, getitem_list.
      rewrite (select_all_present _ _ Hall). simpl.
      now rewrite values_no_row.
  - intros Hmiss.
    destruct (select_some_missing out schema Hmiss) as (e & He & Hclass).
    assert (Hin : model_input out (Some schema) = Raise e)
      by (unfold model_input, getitem_list; now rewrite He).
    repeat split.
    + now exists e.
    + intros m Hm Hf. exists (str e).
      eapply failure_entry_of_input_error; eauto. now rewrite Hf.
    + intros m Hm Hf. exists (str e).
      eapply anomaly_entry_of_input_error; eauto. now rewrite Hf.
Qed.

(* ------------------------------------------------------------------ *)
(** *** How the engineering steps treat the columns they do not write *)

(** Case analysis on a chain of fallible steps that is known to succeed. *)
Ltac ok_steps :=
  repeat match goal with
         | H : Ok _ = Ok _ |- _ => injection H as H; try subst
         | H : Raise _ = Ok _ |- _ => discriminate H
         | H : bind ?x _ = Ok _ |- _ =>
             let E := fresh "E" in destruct x eqn:E; cbn [bind] in H; [|discriminate H]
         | H : (if ?c then _ else _) = Ok _ |- _ =>
             let E := fresh "E" in destruct c eqn:E
         | H : match ?x with [] => _ | _ :: _ => _ end = Ok _ |- _ =>
             let E := fresh "E" in destruct x eqn:E
         end.

Lemma grows_refl (df : DataFrame) : grows df df.
Proof. now intros n. Qed.

Lemma grows_trans (a b c : DataFrame) : grows a b -> grows b c -> grows a c.
Proof. intros H1 H2 n Hn. auto. Qed.

Lemma grows_setitem (df : DataFrame) (n : string) (s : series) : grows df (setitem df n s).
Proof. intros m Hm. rewrite has_setitem, Hm. apply orb_true_r. Qed.

Lemma grows_take (idx : list nat) (df : DataFrame) : grows df (take idx df).
Proof. intros m Hm. now rewrite has_take. Qed.

#[local] Hint Resolve grows_refl grows_setitem grows_take : world.

Ltac grows_chain :=
  repeat (first [ apply grows_refl
                | eapply grows_trans; [|apply grows_setitem] ]).

Lemma for_each_grows {A : Type} (body : DataFrame -> A -> result DataFrame) (l : list A) :
  (forall df a df', body df a = Ok df' -> grows df df') ->
  forall df df', for_each body l df = Ok df' -> grows df df'.
Proof.
  intros Hbody. induction l as [|a rest IH]; intros df df' H; simpl in H.
  - injection H as <-. apply grows_refl.
  - destruct (body df a) as [d|e] eqn:E; simpl in H; [|discriminate].
    eapply grows_trans; eauto.
Qed.

Lemma sort_values_grows (df df' : DataFrame) (by_ : string) :
  sort_values df by_ = Ok df' -> grows df df'.
Proof.
  unfold sort_values. destruct (get_column df by_); [|discriminate].
  destruct (comparable s); [|discriminate]. intros [= <-]. apply grows_take.
Qed.

Lemma basic_features_grows (df df' : DataFrame) :
  _add_basic_features df = Ok df' -> grows df df'.
Proof. unfold _add_basic_features. intros H. ok_steps; grows_chain. Qed.

Lemma temporal_features_grows (df df' : DataFrame) :
  _add_temporal_features df = Ok df' -> grows df df'.
Proof. unfold _add_temporal_features. intros H. ok_steps; grows_chain. Qed.

Lemma rolling_features_grows (W : nat) (df df' : DataFrame) :
  _add_rolling_features W df = Ok df' -> grows df df'.
Proof.
  apply for_each_grows. intros d col d' H. unfold add_rolling_for in H.
  ok_steps; grows_chain.
Qed.

Lemma light_features_grows (df df' : DataFrame) :
  _add_light_features df = Ok df' -> grows df df'.
Proof. unfold _add_light_features. intros H. ok_steps; grows_chain. Qed.

Lemma lag_features_grows (lags : list Z) (df df' : DataFrame) :
  _add_lag_features lags df = Ok df' -> grows df df'.
Proof.
  apply for_each_grows. intros d col d' H. unfold add_lags_for in H.
  destruct (has_column d col); [|injection H as <-; apply grows_refl].
  revert H. apply for_each_grows. intros d1 lag d1' H1.
  ok_steps. apply grows_setitem.
Qed.

Lemma create_target_grows (df df' : DataFrame) (target_type : string) :
  _create_target df target_type = Ok df' -> grows df df'.
Proof. unfold _create_target. intros H. ok_steps; grows_chain. Qed.

(** The steps of [engineered], named. *)
Lemma engineered_steps (W : nat) (lags : list Z) (df e : DataFrame) (target : option string) :
  engineered W lags df target = Ok e ->
  exists d0 d1 d2 d3 d4 d5,
    sort_values df "timestamp" = Ok d0 /\
    _add_basic_features d0 = Ok d1 /\
    _add_temporal_features d1 = Ok d2 /\
    _add_rolling_features W d2 = Ok d3 /\
    _add_light_features d3 = Ok d4 /\
    _add_lag_features lags d4 = Ok d5 /\
    (match target with
     | Some t => if truthy target then _create_target d5 t else Ok d5
     | None => Ok d5
     end) = Ok e.
Proof.
  unfold engineered. intros H.
  destruct (sort_values df "timestamp") as [d0|] eqn:E0; simpl in H; [|discriminate].
  destruct (_add_basic_features d0) as [d1|] eqn:E1; simpl in H; [|discriminate].
  destruct (_add_temporal_features d1) as [d2|] eqn:E2; simpl in H; [|discriminate].
  destruct (_add_rolling_features W d2) as [d3|] eqn:E3; simpl in H; [|discriminate].
  destruct (_add_light_features d3) as [d4|] eqn:E4; simpl in H; [|discriminate].
  destruct (_add_lag_features lags d4) as [d5|] eqn:E5; simpl in H; [|discriminate].
  exists d0, d1, d2, d3, d4, d5. auto 10.
Qed.

Lemma engineered_grows_to_lags (W : nat) (lags : list Z) (df d0 d1 d2 d3 d4 d5 : DataFrame) :
  sort_values df "timestamp" = Ok d0 ->
  _add_basic_features d0 = Ok d1 ->
  _add_temporal_features d1 = Ok d2 ->
  _add_rolling_features W d2 = Ok d3 ->
  _add_light_features d3 = Ok d4 ->
  _add_lag_features lags d4 = Ok d5 ->
  grows df d4 /\ grows df d5.
Proof.
  intros H0 H1 H2 H3 H4 H5.
  apply sort_values_grows in H0. apply basic_features_grows in H1.
  apply temporal_features_grows in H2. apply rolling_features_grows in H3.
  apply light_features_grows in H4. apply lag_features_grows in H5.
  split; eauto 10 using grows_trans.
Qed.

(* ------------------------------------------------------------------ *)
(** *** The failure label *)

Lemma map2_map_seq {A B C : Type} (f : A -> B -> C) (g : nat -> A) (h : nat -> B)
      (l : list nat) :
  map2 f (map g l) (map h l) = map (fun i => f (g i) (h i)) l.
Proof. induction l as [|i rest IH]; simpl; [reflexivity|now rewrite IH]. Qed.

(** A look ahead by [k] rows: the value [k] rows later, NaN past the end. *)
Lemma fshift_ahead (k : nat) (xs : list float) (i : nat) :
  (let j := (Z.of_nat i - - Z.of_nat k)%Z in
   if ((0 <=? j)%Z && (j <? Z.of_nat (List.length xs))%Z)%bool
   then nth (Z.to_nat j) xs NaN else NaN)
  = match nth_error xs (i + k) with Some x => x | None => NaN end.
Proof.
  cbv zeta.
  replace (Z.of_nat i - - Z.of_nat k)%Z with (Z.of_nat (i + k)) by lia.
  rewrite Nat2Z.id.
  destruct (0 <=? Z.of_nat (i + k))%Z eqn:E0; [|apply Z.leb_gt in E0; lia].
  simpl. destruct (Z.of_nat (i + k) <? Z.of_nat (List.length xs))%Z eqn:E1.
  - apply Z.ltb_lt in E1.
    destruct (nth_error xs (i + k)) as [x|] eqn:E.
    + now apply nth_error_nth.
    + apply nth_error_None in E. lia.
  - apply Z.ltb_ge in E1.
    destruct (nth_error xs (i + k)) as [x|] eqn:E; auto.
    assert (i + k < List.length xs) by (apply nth_error_Some; congruence). lia.
Qed.

Lemma failure_target_column (xs : list float) :
  map fill0
      (of_floats (map2 (fun a b => of_bool (fgtb a (Num 0) || fgtb b (Num 0)))
                       (fshift (-6) xs) (fshift (-3) xs)))
  = map (failure_label xs) (seq 0 (List.length xs)).
Proof.
  unfold fshift, shift_by, of_floats. rewrite map2_map_seq, !map_map.
  apply map_ext. intros i.
  pose proof (fshift_ahead 6 xs i) as H6. pose proof (fshift_ahead 3 xs i) as H3.
  cbv zeta in H6, H3. simpl Z.of_nat in H6, H3. simpl Z.opp in H6, H3.
  rewrite H6, H3. unfold failure_label, fault_ahead.
  destruct (nth_error xs (i + 6)) as [a|], (nth_error xs (i + 3)) as [b|];
    change (fgtb NaN (Num 0)) with false;
    repeat match goal with
           | |- context [fgtb ?x (Num 0)] => is_var x; destruct (fgtb x (Num 0))
           end;
    reflexivity.
Qed.

Lemma create_target_failure (df : DataFrame) (s : series) (xs : list float) :
  get_column df "faulty_lights_count" = Some s ->
  as_floats s = Ok xs ->
  _create_target df "failure"
  = Ok (setitem df "target_failure" (map (failure_label xs) (seq 0 (List.length xs)))).
Proof.
  intros Hs Hxs. unfold _create_target. simpl String.eqb. cbv iota.
  rewrite (get_has_column _ _ _ Hs). unfold getitem. rewrite Hs. cbn [bind].
  rewrite Hxs. cbn [bind]. cbv zeta. rewrite get_setitem_same. cbn [bind].
  rewrite failure_target_column.
  unfold setitem. simpl. f_equal. f_equal.
  generalize (map (failure_label xs) (seq 0 (List.length xs))) as t.
  generalize (of_floats (map2 (fun a b => of_bool (fgtb a (Num 0) || fgtb b (Num 0)))
                              (fshift (-6) xs) (fshift (-3) xs))) as u.
  intros u t. induction (columns df) as [|[n old] rest IH]; simpl.
  - reflexivity.
  - destruct (String.eqb n "target_failure") eqn:E; simpl; rewrite E; [reflexivity|].
    now rewrite IH.
Qed.

Ltac split_untouched H :=
  unfold untouched in H; simpl in H;
  repeat (let H1 := fresh "Hne" in
          apply andb_prop in H as [H1 H]; apply negb_true_iff in H1);
  clear H.

Ltac keeps_chain := unfold keeps; rewrite ?get_setitem_other by assumption; reflexivity.

Lemma keeps_trans (n : string) (a b c : DataFrame) : keeps n a b -> keeps n b c -> keeps n a c.
Proof. unfold keeps. congruence. Qed.

Lemma basic_features_keeps (n : string) (df df' : DataFrame) :
  untouched written_by_basic n = true ->
  _add_basic_features df = Ok df' -> keeps n df df'.
Proof.
  intros Hn H. split_untouched Hn. unfold _add_basic_features in H. ok_steps; keeps_chain.
Qed.

Lemma temporal_features_keeps (n : string) (df df' : DataFrame) :
  untouched written_by_temporal n = true ->
  _add_temporal_features df = Ok df' -> keeps n df df'.
Proof.
  intros Hn H. split_untouched Hn. unfold _add_temporal_features in H. ok_steps; keeps_chain.
Qed.

Lemma rolling_features_keeps (n : string) (W : nat) (df df' : DataFrame) :
  untouched written_by_rolling n = true ->
  _add_rolling_features W df = Ok df' -> keeps n df df'.
Proof.
  intros Hn H. split_untouched Hn.
  unfold _add_rolling_features, numeric_cols in H. cbn [for_each] in H.
  destruct (add_rolling_for W df "ambient_light") as [d1|] eqn:E1; cbn [bind] in H; [|discriminate].
  destruct (add_rolling_for W d1 "active_lights_count") as [d2|] eqn:E2;
    cbn [bind] in H; [|discriminate].
  destruct (add_rolling_for W d2 "faulty_lights_count") as [d3|] eqn:E3;
    cbn [bind] in H; [|discriminate].
  injection H as <-.
  apply keeps_trans with d2; [apply keeps_trans with d1|].
  - clear E2 E3. unfold add_rolling_for in E1. ok_steps; keeps_chain.
  - clear E1 E3. unfold add_rolling_for in E2. ok_steps; keeps_chain.
  - clear E1 E2. unfold add_rolling_for in E3. ok_steps; keeps_chain.
Qed.

Lemma light_features_keeps (n : string) (df df' : DataFrame) :
  untouched written_by_light n = true ->
  _add_light_features df = Ok df' -> keeps n df df'.
Proof.
  intros Hn H. split_untouched Hn. unfold _add_light_features in H. ok_steps; keeps_chain.
Qed.

Lemma for_each_keeps {A : Type} (n : string) (body : DataFrame -> A -> result DataFrame)
      (l : list A) :
  (forall df a df', body df a = Ok df' -> keeps n df df') ->
  forall df df', for_each body l df = Ok df' -> keeps n df df'.
Proof.
  intros Hbody. induction l as [|a rest IH]; intros df df' H; simpl in H.
  - injection H as <-. reflexivity.
  - destruct (body df a) as [d|e] eqn:E; simpl in H; [|discriminate].
    unfold keeps in *. rewrite (IH _ _ H). eauto.
Qed.

Lemma lag_features_keeps (n : string) (lags : list Z) (df df' : DataFrame) :
  no_lag_name n ->
  _add_lag_features lags df = Ok df' -> keeps n df df'.
Proof.
  intros Hn. unfold _add_lag_features.
  assert (Hcol : forall col, In col lag_cols ->
                 forall d d', add_lags_for lags d col = Ok d' -> keeps n d d').
  { intros col Hin d d' Hd. unfold add_lags_for in Hd.
    destruct (has_column d col); [|injection Hd as <-; reflexivity].
    revert Hd. apply for_each_keeps. intros d1 lag d1' H1.
    destruct (getitem d1 col); cbn [bind] in H1; [|discriminate].
    injection H1 as <-. unfold keeps. apply get_setitem_other. now apply Hn. }
  revert df df'. induction lag_cols as [|col rest IH]; intros df df' H; simpl in H.
  - injection H as <-. reflexivity.
  - destruct (add_lags_for lags df col) as [d|] eqn:E; cbn [bind] in H; [|discriminate].
    apply keeps_trans with d.
    + apply (Hcol col); [now left|exact E].
    + apply IH; [|exact H]. intros c Hc. apply Hcol. now right.
Qed.

Lemma create_target_keeps (n : string) (df df' : DataFrame) (target_type : string) :
  untouched written_by_target n = true ->
  _create_target df target_type = Ok df' -> keeps n df df'.
Proof.
  intros Hn H. split_untouched Hn. unfold _create_target in H. ok_steps; keeps_chain.
Qed.

(** The source columns of the rolling and lag steps are written by no step. *)
Lemma source_column_no_lag_name (col : string) : In col numeric_cols -> no_lag_name col.
Proof.
  intros Hc c sfx Hin. simpl in Hc, Hin.
  destruct Hc as [<-|[<-|[<-|[]]]]; destruct Hin as [<-|[<-|[<-|[]]]]; reflexivity.
Qed.

Lemma sorted_frame (df d0 : DataFrame) :
  sort_values df "timestamp" = Ok d0 ->
  exists ts, get_column df "timestamp" = Some ts /\ d0 = take (argsort ts) df.
Proof.
  unfold sort_values. destruct (get_column df "timestamp") as [ts|]; [|discriminate].
  destruct (comparable ts); [|discriminate]. intros [= <-]. now exists ts.
Qed.

(** C5.  With the failure label kind on a frame that has the faulty-light
    count, the label column of the engineered frame holds, at each row, 1
    exactly when the count 6 rows ahead or 3 rows ahead (in timestamp
    order) is greater than zero; an offset that runs past the end of the
    frame contributes no fault.  The counts are those of the input, sorted;
    the frame returned keeps, for each surviving row, the label computed at
    its position. *)
Theorem failure_label_rule (self : FeatureEngineer) (df e : DataFrame) (w : World) :
  empty df = false ->
  has_column df "faulty_lights_count" = true ->
  engineered (window_size self) (default_lags w) df (Some "failure") = Ok e ->
  exists ts s xs,
    get_column df "timestamp" = Some ts /\
    get_column (take (argsort ts) df) "faulty_lights_count" = Some s /\
    as_floats s = Ok xs /\
    get_column e "faulty_lights_count" = Some s /\
    get_column e "target_failure" = Some (map (failure_label xs) (seq 0 (List.length xs))) /\
    fst (create_features self df (Some "failure") w) = Ok (dropna e) /\
    get_column (dropna e) "target_failure"
    = Some (map (cell_at (map (failure_label xs) (seq 0 (List.length xs))))
                (filter (row_complete e) (seq 0 (index_len e)))).
Proof.
  intros Hne Hhas He.
  assert (Hout : fst (create_features self df (Some "failure") w) = Ok (dropna e))
    by (rewrite create_features_result, Hne, He; reflexivity).
  destruct (engineered_steps _ _ _ _ _ He) as (d0 & d1 & d2 & d3 & d4 & d5 &
                                               H0 & H1 & H2 & H3 & H4 & H5 & H6).
  destruct (engineered_grows_to_lags _ _ _ _ _ _ _ _ _ H0 H1 H2 H3 H4 H5) as [_ Hg].
  destruct (sorted_frame _ _ H0) as (ts & Hts & ->).
  apply (basic_features_keeps "faulty_lights_count") in H1; [|reflexivity].
  apply (temporal_features_keeps "faulty_lights_count") in H2; [|reflexivity].
  apply (rolling_features_keeps "faulty_lights_count") in H3; [|reflexivity].
  apply (light_features_keeps "faulty_lights_count") in H4; [|reflexivity].
  apply (lag_features_keeps "faulty_lights_count") in H5;
    [|apply source_column_no_lag_name; simpl; auto].
  unfold keeps in *.
  destruct (has_column_get _ _ (Hg _ Hhas)) as [s Hs].
  assert (Hs0 : get_column (take (argsort ts) df) "faulty_lights_count" = Some s)
    by congruence.
  simpl in H6. unfold _create_target in H6. simpl String.eqb in H6. cbv iota in H6.
  rewrite (get_has_column _ _ _ Hs) in H6. unfold getitem at 1 in H6.
  rewrite Hs in H6. cbn [bind] in H6.
  destruct (as_floats s) as [xs|] eqn:Hxs; cbn [bind] in H6; [|discriminate].
  pose proof (create_target_failure d5 s xs Hs Hxs) as Ht.
  unfold _create_target in Ht. simpl String.eqb in Ht. cbv iota in Ht.
  rewrite (get_has_column _ _ _ Hs) in Ht. unfold getitem at 1 in Ht.
  rewrite Hs in Ht. cbn [bind] in Ht. rewrite Hxs in Ht. cbn [bind] in Ht.
  rewrite Ht in H6. injection H6 as <-.
  exists ts, s, xs. repeat split; auto.
  - rewrite get_setitem_other by reflexivity. exact Hs.
  - apply get_setitem_same.
  - unfold dropna. rewrite get_take, get_setitem_same. reflexivity.
Qed.

(* ------------------------------------------------------------------ *)
(** *** Rolling windows *)

Lemma firstn_snoc {A : Type} (l : list A) (i : nat) (x : A) :
  nth_error l i = Some x -> firstn (S i) l = (firstn i l ++ [x])%list.
Proof.
  revert i. induction l as [|a rest IH]; intros [|i] H; simpl in *; try discriminate.
  - now injection H as ->.
  - f_equal. now apply IH.
Qed.

(** The window that ends at an existing row ends with that row's value. *)
Lemma window_last (W : nat) (xs : list float) (i : nat) (x : float) :
  1 <= W -> nth_error xs i = Some x ->
  exists pre, window W xs i = (pre ++ [x])%list.
Proof.
  intros HW Hx. unfold window. replace (i + 1) with (S i) by lia.
  rewrite (firstn_snoc xs i x Hx), skipn_app.
  assert (Hlen : List.length (firstn i xs) = i).
  { apply firstn_length_le. apply Nat.lt_le_incl. apply nth_error_Some. congruence. }
  rewrite Hlen. replace (S i - W - i) with 0 by lia. simpl. eauto.
Qed.

Lemma window_last_two (W : nat) (xs : list float) (i : nat) (x y : float) :
  2 <= W -> nth_error xs i = Some x -> nth_error xs (S i) = Some y ->
  exists pre, window W xs (S i) = (pre ++ [x; y])%list.
Proof.
  intros HW Hx Hy. unfold window. replace (S i + 1) with (S (S i)) by lia.
  rewrite (firstn_snoc xs (S i) y Hy), (firstn_snoc xs i x Hx), <- app_assoc, skipn_app.
  assert (Hlen : List.length (firstn i xs) = i).
  { apply firstn_length_le. apply Nat.lt_le_incl. apply nth_error_Some. congruence. }
  rewrite Hlen. replace (S (S i) - W - i) with 0 by lia. simpl. eauto.
Qed.

Lemma observations_app (xs ys : list float) :
  observations (xs ++ ys) = (observations xs ++ observations ys)%list.
Proof.
  induction xs as [|[| |q] rest IH]; simpl; auto. now rewrite IH.
Qed.

Lemma nth_rolling (W : nat) (agg : list Q -> float) (xs : list float) (i : nat) :
  i < List.length xs ->
  nth i (rolling W agg xs) NaN = agg (observations (window W xs i)).
Proof.
  intros H. unfold rolling.
  rewrite (nth_indep _ NaN (agg (observations (window W xs 0))))
    by now rewrite length_map, length_seq.
  rewrite (map_nth (fun i => agg (observations (window W xs i)))).
  now rewrite seq_nth.
Qed.

(** Mean, minimum and maximum are defined as soon as the window holds one
    finite sample; the standard deviation needs two. *)
Lemma agg_one_sample (obs : list Q) (q : Q) :
  is_nan (agg_mean (obs ++ [q])) = false /\
  is_nan (agg_min (obs ++ [q])) = false /\
  is_nan (agg_max (obs ++ [q])) = false.
Proof. destruct obs; simpl; auto. Qed.

Lemma agg_std_two_samples (obs : list Q) (q r : Q) :
  is_nan (agg_std (obs ++ [q; r])) = false.
Proof. destruct obs as [|a [|b rest]]; reflexivity. Qed.

Lemma rolling_defined (W : nat) (xs : list float) (i : nat) (q : Q) :
  1 <= W -> nth_error xs i = Some (Num q) ->
  is_nan (nth i (rolling W agg_mean xs) NaN) = false /\
  is_nan (nth i (rolling W agg_min xs) NaN) = false /\
  is_nan (nth i (rolling W agg_max xs) NaN) = false.
Proof.
  intros HW Hx.
  assert (Hi : i < List.length xs) by (apply nth_error_Some; congruence).
  destruct (window_last W xs i _ HW Hx) as [pre Hpre].
  rewrite !nth_rolling, Hpre, observations_app by exact Hi. simpl.
  apply agg_one_sample.
Qed.

Lemma rolling_std_defined (W : nat) (xs : list float) (i : nat) (q r : Q) :
  2 <= W -> nth_error xs i = Some (Num q) -> nth_error xs (S i) = Some (Num r) ->
  is_nan (nth (S i) (rolling W agg_std xs) NaN) = false.
Proof.
  intros HW Hx Hy.
  assert (Hi : S i < List.length xs) by (apply nth_error_Some; congruence).
  destruct (window_last_two W xs i _ _ HW Hx Hy) as [pre Hpre].
  rewrite nth_rolling, Hpre, observations_app by exact Hi. simpl.
  apply agg_std_two_samples.
Qed.

(** The first row has one sample at most: its standard deviation is null. *)
Lemma rolling_std_first_row (W : nat) (xs : list float) :
  is_nan (nth 0 (rolling W agg_std xs) NaN) = true.
Proof.
  destruct xs as [|x rest]; [reflexivity|].
  rewrite nth_rolling by (simpl; lia).
  unfold window. simpl firstn. destruct (0 + 1 - W) as [|k]; simpl.
  - destruct x; reflexivity.
  - destruct k; reflexivity.
Qed.

Lemma add_rolling_for_keeps (W : nat) (d d' : DataFrame) (col n : string) :
  add_rolling_for W d col = Ok d' ->
  String.eqb (col ++ "_rolling_mean") n = false ->
  String.eqb (col ++ "_rolling_std") n = false ->
  String.eqb (col ++ "_rolling_min") n = false ->
  String.eqb (col ++ "_rolling_max") n = false ->
  String.eqb (col ++ "_diff") n = false ->
  String.eqb (col ++ "_pct_change") n = false ->
  keeps n d d'.
Proof.
  unfold add_rolling_for. intros H ? ? ? ? ? ?.
  ok_steps; unfold keeps; rewrite ?get_setitem_other by assumption; reflexivity.
Qed.

Lemma add_rolling_for_sets (W : nat) (d d' : DataFrame) (col : string) (s : series) :
  In col numeric_cols ->
  get_column d col = Some s ->
  add_rolling_for W d col = Ok d' ->
  exists xs,
    as_floats s = Ok xs /\
    1 <= W /\
    get_column d' (col ++ "_rolling_mean") = Some (of_floats (rolling W agg_mean xs)) /\
    get_column d' (col ++ "_rolling_std") = Some (of_floats (rolling W agg_std xs)) /\
    get_column d' (col ++ "_rolling_min") = Some (of_floats (rolling W agg_min xs)) /\
    get_column d' (col ++ "_rolling_max") = Some (of_floats (rolling W agg_max xs)).
Proof.
  intros Hin Hs. unfold add_rolling_for.
  rewrite (get_has_column _ _ _ Hs). unfold getitem. rewrite Hs. cbn [bind].
  destruct (W <? 1) eqn:HW; [discriminate|]. apply Nat.ltb_ge in HW.
  destruct (as_floats s) as [xs|]; cbn [bind]; [|discriminate].
  intros [= <-]. exists xs. split; [reflexivity|]. split; [exact HW|].
  simpl in Hin. destruct Hin as [<-|[<-|[<-|[]]]];
    repeat split;
    rewrite ?get_setitem_other by reflexivity; apply get_setitem_same.
Qed.

(** What the rolling step leaves in the frame for one source column. *)
Lemma rolling_features_sets (W : nat) (df df' : DataFrame) (col : string) (s : series) :
  In col numeric_cols ->
  get_column df col = Some s ->
  _add_rolling_features W df = Ok df' ->
  exists xs,
    as_floats s = Ok xs /\
    1 <= W /\
    get_column df' (col ++ "_rolling_mean") = Some (of_floats (rolling W agg_mean xs)) /\
    get_column df' (col ++ "_rolling_std") = Some (of_floats (rolling W agg_std xs)) /\
    get_column df' (col ++ "_rolling_min") = Some (of_floats (rolling W agg_min xs)) /\
    get_column df' (col ++ "_rolling_max") = Some (of_floats (rolling W agg_max xs)).
Proof.
  intros Hin Hs H.
  unfold _add_rolling_features, numeric_cols in H. cbn [for_each] in H.
  destruct (add_rolling_for W df "ambient_light") as [d1|] eqn:E1; cbn [bind] in H; [|discriminate].
  destruct (add_rolling_for W d1 "active_lights_count") as [d2|] eqn:E2;
    cbn [bind] in H; [|discriminate].
  destruct (add_rolling_for W d2 "faulty_lights_count") as [d3|] eqn:E3;
    cbn [bind] in H; [|discriminate].
  injection H as <-.
  pose proof (fun n => add_rolling_for_keeps W df d1 "ambient_light" n E1) as K1.
  pose proof (fun n => add_rolling_for_keeps W d1 d2 "active_lights_count" n E2) as K2.
  pose proof (fun n => add_rolling_for_keeps W d2 d3 "faulty_lights_count" n E3) as K3.
  unfold keeps in K1, K2, K3.
  simpl in Hin. destruct Hin as [<-|[<-|[<-|[]]]].
  - destruct (add_rolling_for_sets W df d1 "ambient_light" s) as (xs & Hxs & HW & F);
      simpl; auto.
    exists xs. split; [exact Hxs|]. split; [exact HW|].
    rewrite !K3, !K2 by reflexivity. exact F.
  - assert (Hs1 : get_column d1 "active_lights_count" = Some s)
      by (rewrite K1 by reflexivity; exact Hs).
    destruct (add_rolling_for_sets W d1 d2 "active_lights_count" s) as (xs & Hxs & HW & F);
      simpl; auto.
    exists xs. split; [exact Hxs|]. split; [exact HW|].
    rewrite !K3 by reflexivity. exact F.
  - assert (Hs2 : get_column d2 "faulty_lights_count" = Some s)
      by (rewrite K2, K1 by reflexivity; exact Hs).
    destruct (add_rolling_for_sets W d2 d3 "faulty_lights_count" s) as (xs & Hxs & HW & F);
      simpl; auto.
    exists xs. split; [exact Hxs|]. split; [exact HW|]. exact F.
Qed.

Lemma target_step_keeps (n : string) (d e : DataFrame) (target : option string) :
  untouched written_by_target n = true ->
  (match target with
   | Some t => if truthy target then _create_target d t else Ok d
   | None => Ok d
   end) = Ok e ->
  keeps n d e.
Proof.
  intros Hn H. destruct target as [t|].
  - destruct (truthy (Some t)).
    + eapply create_target_keeps; eauto.
    + injection H as <-. reflexivity.
  - injection H as <-. reflexivity.
Qed.

(** The four rolling statistics of a source column are written once, by the
    rolling step, and by no later step. *)
Lemma rolling_name_kept (col sfx : string) :
  In col numeric_cols ->
  In sfx ["_rolling_mean"; "_rolling_std"; "_rolling_min"; "_rolling_max"] ->
  untouched written_by_light (col ++ sfx) = true /\
  no_lag_name (col ++ sfx) /\
  untouched written_by_target (col ++ sfx) = true.
Proof.
  intros Hc Hs. simpl in Hc, Hs.
  destruct Hc as [<-|[<-|[<-|[]]]]; destruct Hs as [<-|[<-|[<-|[<-|[]]]]];
    (split; [reflexivity|split; [|reflexivity]]);
    intros c x Hin; simpl in Hin; destruct Hin as [<-|[<-|[<-|[]]]]; reflexivity.
Qed.

Lemma source_column_kept (col : string) :
  In col numeric_cols ->
  untouched written_by_basic col = true /\
  untouched written_by_temporal col = true /\
  untouched written_by_rolling col = true /\
  untouched written_by_light col = true /\
  untouched written_by_target col = true.
Proof.
  intros Hc. simpl in Hc. destruct Hc as [<-|[<-|[<-|[]]]]; repeat split; reflexivity.
Qed.

(** C4 (as the code has it).  For each source column present in the input,
    the engineered frame holds its rolling mean, std, min and max over the
    window of the last [W] rows in timestamp order, each computed on the
    finite samples the window has.  Mean, min and max are non-null at every
    row whose own sample is present; the rolling std is null on the first
    row (one sample, [ddof = 1]) and non-null on a later row whose sample
    and predecessor are present (for [W >= 2]).  For the sequence
    [10, 20, 30, 40] and window 3 the rolling mean is [10, 15, 20, 30]. *)
Theorem rolling_statistics (W : nat) (lags : list Z) (df e : DataFrame)
        (target : option string) (col : string) :
  engineered W lags df target = Ok e ->
  In col numeric_cols ->
  has_column df col = true ->
  exists ts s xs,
    get_column df "timestamp" = Some ts /\
    get_column (take (argsort ts) df) col = Some s /\
    as_floats s = Ok xs /\
    (get_column e (col ++ "_rolling_mean") = Some (of_floats (rolling W agg_mean xs)) /\
     get_column e (col ++ "_rolling_std") = Some (of_floats (rolling W agg_std xs)) /\
     get_column e (col ++ "_rolling_min") = Some (of_floats (rolling W agg_min xs)) /\
     get_column e (col ++ "_rolling_max") = Some (of_floats (rolling W agg_max xs))) /\
    (forall i q, nth_error xs i = Some (Num q) ->
       is_nan (nth i (rolling W agg_mean xs) NaN) = false /\
       is_nan (nth i (rolling W agg_min xs) NaN) = false /\
       is_nan (nth i (rolling W agg_max xs) NaN) = false) /\
    is_nan (nth 0 (rolling W agg_std xs) NaN) = true /\
    (forall i q r, 2 <= W ->
       nth_error xs i = Some (Num q) -> nth_error xs (S i) = Some (Num r) ->
       is_nan (nth (S i) (rolling W agg_std xs) NaN) = false) /\
    rolling 3 agg_mean (map of_Z [10; 20; 30; 40]%Z) = map of_Z [10; 15; 20; 30]%Z.
Proof.
  intros He Hcol Hhas.
  destruct (engineered_steps _ _ _ _ _ He) as (d0 & d1 & d2 & d3 & d4 & d5 &
                                               H0 & H1 & H2 & H3 & H4 & H5 & H6).
  destruct (sorted_frame _ _ H0) as (ts & Hts & ->).
  destruct (source_column_kept col Hcol) as (Ub & Ut & _ & _ & _).
  apply (basic_features_keeps col) in H1; [|exact Ub].
  apply (temporal_features_keeps col) in H2; [|exact Ut].
  unfold keeps in H1, H2.
  assert (Hhas0 : has_column (take (argsort ts) df) col = true) by now rewrite has_take.
  destruct (has_column_get _ _ Hhas0) as [s Hs].
  assert (Hs2 : get_column d2 col = Some s) by congruence.
  destruct (rolling_features_sets W d2 d3 col s Hcol Hs2 H3)
    as (xs & Hxs & HW & Fmean & Fstd & Fmin & Fmax).
  assert (Hkept : forall sfx,
             In sfx ["_rolling_mean"; "_rolling_std"; "_rolling_min"; "_rolling_max"] ->
             get_column e (col ++ sfx) = get_column d3 (col ++ sfx)).
  { intros sfx Hsfx. destruct (rolling_name_kept col sfx Hcol Hsfx) as (Ul & Ug & Ug').
    pose proof (light_features_keeps _ _ _ Ul H4) as K4.
    pose proof (lag_features_keeps _ _ _ _ Ug H5) as K5.
    pose proof (target_step_keeps _ _ _ _ Ug' H6) as K6.
    unfold keeps in *. congruence. }
  exists ts, s, xs. split; [exact Hts|]. split; [exact Hs|]. split; [exact Hxs|].
  split; [|split; [|split; [|split]]].
  - rewrite !Hkept by (simpl; auto). auto.
  - intros i q Hi. now apply rolling_defined with q.
  - apply rolling_std_first_row.
  - intros i q r HW2 Hi Hj. now apply rolling_std_defined with q r.
  - reflexivity.
Qed.

(* ------------------------------------------------------------------ *)
(** *** The synthetic-label fallback of the failure trainer *)

Lemma create_target_failure_columns (d e : DataFrame) :
  _create_target d "failure" = Ok e ->
  has_column e "target_failure" = false ->
  has_column e "faulty_lights_count" = false.
Proof.
  unfold _create_target. simpl String.eqb. cbv iota. intros H Hno.
  destruct (has_column d "faulty_lights_count") eqn:Hf.
  - ok_steps. rewrite !has_setitem in Hno. discriminate.
  - now injection H as <-.
Qed.

Lemma create_features_output (self : FeatureEngineer) (df out : DataFrame)
      (target : option string) (w : World) :
  empty df = false ->
  fst (create_features self df target w) = Ok out ->
  exists e, engineered (window_size self) (default_lags w) df target = Ok e /\ out = dropna e.
Proof.
  intros Hne. rewrite create_features_result, Hne.
  destruct (engineered _ _ _ _) as [e|]; simpl; [|discriminate].
  intros [= <-]. now exists e.
Qed.

(** After feature engineering with the failure label kind, a frame without
    the label column has no faulty-light count either. *)
Lemma no_label_no_count (self : FeatureEngineer) (df out : DataFrame) (w : World) :
  empty df = false ->
  fst (create_features self df (Some "failure") w) = Ok out ->
  has_column out "target_failure" = false ->
  has_column out "faulty_lights_count" = false.
Proof.
  intros Hne Hcf Hno.
  destruct (create_features_output _ _ _ _ _ Hne Hcf) as (e & He & ->).
  unfold dropna in *. rewrite has_take in *.
  destruct (engineered_steps _ _ _ _ _ He) as (d0 & d1 & d2 & d3 & d4 & d5 &
                                               _ & _ & _ & _ & _ & _ & H6).
  simpl in H6. eapply create_target_failure_columns; eauto.
Qed.

Lemma run_create_features (self : FeatureEngineer) (df out : DataFrame)
      (target : option string) (w w' : World) :
  fst (create_features self df target w) = Ok out ->
  default_lags w' = default_lags w ->
  exists w1, create_features self df target w' = (Ok out, w1) /\ files w1 = files w'.
Proof.
  intros Hcf Hl.
  pose proof (create_features_same_lags self df target w' w Hl) as Hsame.
  pose proof (create_features_keeps_files self df target w') as Hfiles.
  destruct (create_features self df target w') as [r w1]. simpl in *.
  exists w1. split; [|exact Hfiles]. congruence.
Qed.

(** C8 (what the code does).  When the engineered frame has no
    [target_failure] column, it has no [faulty_lights_count] column either,
    so the fallback [df['faulty_lights_count'] > 0] raises [KeyError]: the
    run aborts, and nothing is written to the model directory. *)
Theorem synthetic_label_fallback_raises (self : ModelTrainer) (data_path model_name : string)
        (w : World) (content : string) (df out : DataFrame) :
  read_file data_path (files w) = Some (TextFile content) ->
  parse_csv content = Ok df ->
  empty df = false ->
  fst (create_features (trainer_feature_engineer self) df (Some "failure") w) = Ok out ->
  has_column out "target_failure" = false ->
  has_column out "faulty_lights_count" = false /\
  fst (train_failure_prediction_model self data_path model_name w)
    = Raise (KeyError "faulty_lights_count") /\
  files (snd (train_failure_prediction_model self data_path model_name w)) = files w.
Proof.
  intros Hfile Hcsv Hne Hcf Hno.
  pose proof (no_label_no_count _ _ _ _ Hne Hcf Hno) as Hcount.
  split; [exact Hcount|].
  assert (Hall : exists w2,
             train_failure_prediction_model self data_path model_name w
             = (Raise (KeyError "faulty_lights_count"), w2) /\ files w2 = files w).
  { unfold train_failure_prediction_model.
    unfold mbind at 1. unfold logger at 1. cbv iota beta.
    unfold mbind at 1. unfold read_csv. cbn [files]. rewrite Hfile, Hcsv. cbv iota beta.
    rewrite Hne.
    unfold mbind at 1. unfold logger at 1. cbv iota beta.
    match goal with
    | |- context [mbind (create_features ?fe ?d ?t) ?k ?w'] =>
        destruct (run_create_features fe d out t w w' Hcf eq_refl) as (w1 & Hrun & Hfiles);
        unfold mbind at 1; rewrite Hrun; cbv iota beta
    end.
    rewrite Hno. cbn [negb].
    unfold mbind at 1. unfold mbind at 1. unfold logger at 1. cbv iota beta.
    unfold mbind at 1. unfold lift, synthetic_target, getitem.
    rewrite (has_column_false_get _ _ Hcount). cbn [bind]. cbv iota beta.
    eexists. split; [reflexivity|]. simpl. exact Hfiles. }
  destruct Hall as (w2 & -> & Hfiles). auto.
Qed.

(* ------------------------------------------------------------------ *)
(** *** Row pruning *)

Lemma lookup_In (n : string) (s : series) (cols : list (string * series)) :
  lookup n cols = Some s -> exists m, In (m, s) cols.
Proof.
  induction cols as [|[m t] rest IH]; simpl; [discriminate|].
  destruct (String.eqb m n).
  - intros [= <-]. eauto.
  - intros H. destruct (IH H) as [k Hk]. eauto.
Qed.

(** A lag of six rows is null on the first six rows. *)
Lemma shift_six_null (s : series) (i : nat) : i < 6 -> cell_at (shift 6 s) i = null.
Proof.
  intros Hi. unfold cell_at, shift, shift_by.
  destruct (Nat.lt_ge_cases i (List.length s)) as [Hlt|Hge].
  - set (f := fun i : nat =>
                let j := (Z.of_nat i - 6)%Z in
                if ((0 <=? j)%Z && (j <? Z.of_nat (List.length s))%Z)%bool
                then nth (Z.to_nat j) s null else null).
    rewrite (nth_indep _ null (f 0)) by now rewrite length_map, length_seq.
    rewrite (map_nth f), seq_nth by exact Hlt.
    unfold f. cbv zeta. simpl Nat.add.
    destruct (0 <=? Z.of_nat i - 6)%Z eqn:E; [apply Z.leb_le in E; lia|reflexivity].
  - apply nth_overflow. now rewrite length_map, length_seq.
Qed.

Lemma add_lags_for_keeps (n : string) (lags : list Z) (d d' : DataFrame) (col : string) :
  (forall sfx, String.eqb (col ++ "_lag_" ++ sfx) n = false) ->
  add_lags_for lags d col = Ok d' -> keeps n d d'.
Proof.
  intros Hne Hd. unfold add_lags_for in Hd.
  destruct (has_column d col); [|injection Hd as <-; reflexivity].
  revert Hd. apply for_each_keeps. intros d1 lag d1' H1.
  destruct (getitem d1 col); cbn [bind] in H1; [|discriminate].
  injection H1 as <-. unfold keeps. apply get_setitem_other. apply Hne.
Qed.

Lemma add_lags_for_sets (d d' : DataFrame) (col : string) (s : series) :
  In col lag_cols ->
  get_column d col = Some s ->
  add_lags_for [1; 3; 6]%Z d col = Ok d' ->
  get_column d' (col ++ "_lag_6") = Some (shift 6 s).
Proof.
  intros Hin Hs. unfold add_lags_for. rewrite (get_has_column _ _ _ Hs).
  cbn [for_each]. unfold getitem at 1. rewrite Hs. cbn [bind].
  simpl in Hin. destruct Hin as [<-|[<-|[<-|[]]]];
    unfold getitem; rewrite ?get_setitem_other by reflexivity; rewrite Hs; cbn [bind];
    rewrite ?get_setitem_other by reflexivity; rewrite Hs; cbn [bind];
    intros [= <-]; apply get_setitem_same.
Qed.

Lemma lag_features_sets (df df' : DataFrame) (col : string) :
  In col lag_cols ->
  has_column df col = true ->
  _add_lag_features [1; 3; 6]%Z df = Ok df' ->
  exists s, get_column df' (col ++ "_lag_6") = Some (shift 6 s).
Proof.
  intros Hin Hhas H. destruct (has_column_get _ _ Hhas) as [s Hs]. exists s.
  unfold _add_lag_features, lag_cols in H. cbn [for_each] in H.
  destruct (add_lags_for _ df "ambient_light") as [d1|] eqn:E1; cbn [bind] in H; [|discriminate].
  destruct (add_lags_for _ d1 "active_lights_count") as [d2|] eqn:E2;
    cbn [bind] in H; [|discriminate].
  destruct (add_lags_for _ d2 "faulty_lights_count") as [d3|] eqn:E3;
    cbn [bind] in H; [|discriminate].
  injection H as <-.
  pose proof (fun n Hn => add_lags_for_keeps n _ _ _ _ Hn E1) as K1.
  pose proof (fun n Hn => add_lags_for_keeps n _ _ _ _ Hn E2) as K2.
  pose proof (fun n Hn => add_lags_for_keeps n _ _ _ _ Hn E3) as K3.
  unfold keeps in K1, K2, K3.
  simpl in Hin. destruct Hin as [<-|[<-|[<-|[]]]].
  - rewrite K3, K2 by (intros sfx; reflexivity).
    apply (add_lags_for_sets df d1 "ambient_light" s); simpl; auto.
  - rewrite K3 by (intros sfx; reflexivity).
    apply (add_lags_for_sets d1 d2 "active_lights_count" s); simpl; auto.
    rewrite K1 by (intros sfx; reflexivity). exact Hs.
  - apply (add_lags_for_sets d2 d3 "faulty_lights_count" s); simpl; auto.
    rewrite K2, K1 by (intros sfx; reflexivity). exact Hs.
Qed.

Lemma lag_six_untouched_by_target (col : string) :
  In col lag_cols -> untouched written_by_target (col ++ "_lag_6") = true.
Proof. intros Hin. simpl in Hin. destruct Hin as [<-|[<-|[<-|[]]]]; reflexivity. Qed.


(* ================================================================== *)
(** ** Further properties of the pipeline *)
(* ================================================================== *)

(* ------------------------------------------------------------------ *)
(** *** The shape of the engineered frame *)

Lemma as_floats_length (s : series) (xs : list float) :
  as_floats s = Ok xs -> List.length xs = List.length s.
Proof.
  revert xs. induction s as [|c rest IH]; intros xs H; simpl in H.
  - now injection H as <-.
  - destruct c; try discriminate.
    destruct (as_floats rest) as [ys|]; cbn [bind] in H; [|discriminate].
    injection H as <-. simpl. now rewrite (IH ys).
Qed.

Lemma to_datetime_length (s : series) (dt : list (option Z)) :
  to_datetime s = Ok dt -> List.length dt = List.length s.
Proof.
  revert dt. induction s as [|c rest IH]; intros dt H; simpl in H.
  - now injection H as <-.
  - match type of H with
    | match ?x with Ok _ => _ | Raise _ => _ end = _ => destruct x; [|discriminate]
    end.
    destruct (to_datetime rest) as [ts|]; cbn [bind] in H; [|discriminate].
    injection H as <-. simpl. now rewrite (IH ts).
Qed.

Lemma shift_by_length {A : Type} (d : A) (k : Z) (l : list A) :
  List.length (shift_by d k l) = List.length l.
Proof. unfold shift_by. now rewrite length_map, length_seq. Qed.

Lemma map2_length {A B C : Type} (f : A -> B -> C) (l : list A) (m : list B) :
  List.length l = List.length m -> List.length (map2 f l m) = List.length l.
Proof.
  revert m. induction l as [|a l IH]; intros [|b m] H; simpl in *; try discriminate; auto.
Qed.

Lemma rolling_length (W : nat) (agg : list Q -> float) (xs : list float) :
  List.length (rolling W agg xs) = List.length xs.
Proof. unfold rolling. now rewrite length_map, length_seq. Qed.

Lemma ffill_from_length (last : float) (xs : list float) :
  List.length (ffill_from last xs) = List.length xs.
Proof.
  revert last. induction xs as [|x rest IH]; intros last; simpl; auto.
  destruct x; simpl; now rewrite IH.
Qed.

Lemma diff_length (xs : list float) : List.length (diff xs) = List.length xs.
Proof. unfold diff, fshift. apply map2_length. now rewrite shift_by_length. Qed.

Lemma pct_change_length (xs : list float) : List.length (pct_change xs) = List.length xs.
Proof.
  unfold pct_change, ffill, fshift. cbv zeta.
  rewrite map2_length; [apply ffill_from_length|]. now rewrite shift_by_length.
Qed.

Lemma across_length (df : DataFrame) (cols : list (list float)) (agg : list float -> float) :
  List.length (across df cols agg) = index_len df.
Proof. unfold across, of_floats. now rewrite !length_map, length_seq. Qed.

Lemma insert_by_length (key : nat -> cell) (i : nat) (sorted : list nat) :
  List.length (insert_by key i sorted) = S (List.length sorted).
Proof.
  induction sorted as [|j rest IH]; simpl; auto.
  destruct (cell_leb (key j) (key i)); simpl; auto.
Qed.

Lemma argsort_length (s : series) : List.length (argsort s) = List.length s.
Proof.
  unfold argsort.
  assert (H : forall l acc,
             List.length (fold_left (fun acc i => insert_by (cell_at s) i acc) l acc)
             = List.length l + List.length acc).
  { induction l as [|i l IH]; intros acc; simpl; auto.
    rewrite IH, insert_by_length. lia. }
  rewrite H, length_seq. simpl. lia.
Qed.

Lemma well_formed_setitem (df : DataFrame) (n : string) (s : series) :
  well_formed df = true -> List.length s = index_len df ->
  well_formed (setitem df n s) = true.
Proof.
  unfold well_formed, setitem. simpl. intros Hwf Hlen.
  induction (columns df) as [|[m old] rest IH]; simpl in *.
  - now rewrite Hlen, Nat.eqb_refl.
  - apply andb_prop in Hwf as [H1 H2].
    destruct (String.eqb m n); simpl.
    + now rewrite Hlen, Nat.eqb_refl, H2.
    + now rewrite H1, IH.
Qed.

Lemma shape_setitem (df0 df : DataFrame) (n : string) (s : series) :
  same_shape df0 df -> List.length s = index_len df0 ->
  same_shape df0 (setitem df n s).
Proof.
  intros [Hwf Hlen] Hs. split; [|exact Hlen].
  apply well_formed_setitem; congruence.
Qed.

Lemma getitem_length (df : DataFrame) (n : string) (s : series) :
  well_formed df = true -> getitem df n = Ok s -> List.length s = index_len df.
Proof.
  unfold getitem. intros Hwf H.
  destruct (get_column df n) as [t|] eqn:E; [|discriminate].
  injection H as <-. eapply well_formed_column; eauto.
Qed.

Lemma same_shape_refl (df : DataFrame) : well_formed df = true -> same_shape df df.
Proof. now split. Qed.

Lemma same_shape_trans (a b c : DataFrame) :
  same_shape a b -> same_shape b c -> same_shape a c.
Proof. intros [_ H1] [H2 H3]. split; congruence. Qed.

Lemma label_pair_length {C : Type} (f : float -> float -> C) (a b : Z) (xs : list float) :
  List.length (map2 f (fshift a xs) (fshift b xs)) = List.length xs.
Proof. unfold fshift. rewrite map2_length; now rewrite !shift_by_length. Qed.

Create Rewrite HintDb lens.

#[local] Hint Rewrite @length_map @shift_by_length rolling_length diff_length pct_change_length
  across_length @label_pair_length : lens.

Ltac len_goal :=
  unfold of_floats, shift, fshift in *; cbn [index_len setitem] in *;
  autorewrite with lens in *; cbn [index_len setitem] in *;
  solve [ congruence | lia ].

Ltac shape_chain Hwf :=
  lazymatch goal with
  | |- same_shape ?d ?d => split; [exact Hwf | reflexivity]
  | |- same_shape ?d0 (setitem ?d ?n ?s) =>
      apply shape_setitem; [shape_chain Hwf | len_goal]
  end.

(** Collects, for every column read and every conversion made on the way,
    the fact that its length is the row count of the starting frame. *)
Ltac len_facts df Hwf :=
  repeat match goal with
         | H : getitem ?d ?n = Ok ?s |- _ =>
             lazymatch goal with
             | _ : List.length s = index_len df |- _ => fail
             | _ => idtac
             end;
             let S := fresh "S" in
             assert (S : same_shape df d) by shape_chain Hwf;
             let L := fresh "L" in
             pose proof (eq_trans (getitem_length d n s (proj1 S) H) (proj2 S)) as L;
             clear S
         | H : as_floats ?s = Ok ?xs |- _ =>
             lazymatch goal with
             | _ : List.length xs = List.length s |- _ => fail
             | _ => idtac
             end;
             pose proof (as_floats_length s xs H)
         | H : to_datetime ?s = Ok ?dt |- _ =>
             lazymatch goal with
             | _ : List.length dt = List.length s |- _ => fail
             | _ => idtac
             end;
             pose proof (to_datetime_length s dt H)
         end.

Ltac step_shape Hwf :=
  ok_steps;
  match type of Hwf with
  | well_formed ?d = true => len_facts d Hwf
  end;
  shape_chain Hwf.

Lemma for_each_shape {A : Type} (body : DataFrame -> A -> result DataFrame) (l : list A) :
  (forall d a d', well_formed d = true -> body d a = Ok d' -> same_shape d d') ->
  forall df df', well_formed df = true -> for_each body l df = Ok df' -> same_shape df df'.
Proof.
  intros Hbody. induction l as [|a rest IH]; intros df df' Hwf H; simpl in H.
  - injection H as <-. now apply same_shape_refl.
  - destruct (body df a) as [d|e] eqn:E; simpl in H; [|discriminate].
    pose proof (Hbody _ _ _ Hwf E) as S.
    eapply same_shape_trans; [exact S|]. apply IH; [apply S|exact H].
Qed.

Lemma sort_values_shape (df df' : DataFrame) (by_ : string) :
  well_formed df = true -> sort_values df by_ = Ok df' -> same_shape df df'.
Proof.
  unfold sort_values. intros Hwf H.
  destruct (get_column df by_) as [s|] eqn:E; [|discriminate].
  destruct (comparable s); [|discriminate]. injection H as <-.
  split; [apply take_well_formed|]. simpl.
  rewrite argsort_length. eapply well_formed_column; eauto.
Qed.

Lemma basic_features_shape (df df' : DataFrame) :
  well_formed df = true -> _add_basic_features df = Ok df' -> same_shape df df'.
Proof. unfold _add_basic_features. intros Hwf H. step_shape Hwf. Qed.

Lemma temporal_features_shape (df df' : DataFrame) :
  well_formed df = true -> _add_temporal_features df = Ok df' -> same_shape df df'.
Proof. unfold _add_temporal_features. intros Hwf H. step_shape Hwf. Qed.

Lemma rolling_features_shape (W : nat) (df df' : DataFrame) :
  well_formed df = true -> _add_rolling_features W df = Ok df' -> same_shape df df'.
Proof.
  intros Hwf. revert df df' Hwf. apply for_each_shape.
  intros d col d' Hwf H. unfold add_rolling_for in H. step_shape Hwf.
Qed.

Lemma light_features_shape (df df' : DataFrame) :
  well_formed df = true -> _add_light_features df = Ok df' -> same_shape df df'.
Proof. unfold _add_light_features. intros Hwf H. step_shape Hwf. Qed.

Lemma lag_features_shape (lags : list Z) (df df' : DataFrame) :
  well_formed df = true -> _add_lag_features lags df = Ok df' -> same_shape df df'.
Proof.
  intros Hwf. revert df df' Hwf. apply for_each_shape.
  intros d col d' Hwf H. unfold add_lags_for in H.
  destruct (has_column d col); [|injection H as <-; now apply same_shape_refl].
  revert d d' Hwf H. apply for_each_shape.
  intros d1 lag d1' Hwf H1. step_shape Hwf.
Qed.

Lemma create_target_shape (df df' : DataFrame) (target_type : string) :
  well_formed df = true -> _create_target df target_type = Ok df' -> same_shape df df'.
Proof. unfold _create_target. intros Hwf H. step_shape Hwf. Qed.

(** The engineered frame has the rows of the input, one cell per row in
    every column, and every column of the input. *)
Lemma engineered_shape (W : nat) (lags : list Z) (df e : DataFrame) (target : option string) :
  well_formed df = true ->
  engineered W lags df target = Ok e ->
  same_shape df e.
Proof.
  intros Hwf He.
  destruct (engineered_steps _ _ _ _ _ He) as (d0 & d1 & d2 & d3 & d4 & d5 &
                                               H0 & H1 & H2 & H3 & H4 & H5 & H6).
  pose proof (sort_values_shape _ _ _ Hwf H0) as S0.
  pose proof (basic_features_shape _ _ (proj1 S0) H1) as S1.
  pose proof (temporal_features_shape _ _ (proj1 S1) H2) as S2.
  pose proof (rolling_features_shape _ _ _ (proj1 S2) H3) as S3.
  pose proof (light_features_shape _ _ (proj1 S3) H4) as S4.
  pose proof (lag_features_shape _ _ _ (proj1 S4) H5) as S5.
  assert (S6 : same_shape d5 e).
  { destruct target as [t|].
    - destruct (truthy (Some t)).
      + eapply create_target_shape; [apply S5|exact H6].
      + injection H6 as <-. apply same_shape_refl, S5.
    - injection H6 as <-. apply same_shape_refl, S5. }
  eauto 10 using same_shape_trans.
Qed.

Lemma target_step_grows (d e : DataFrame) (target : option string) :
  (match target with
   | Some t => if truthy target then _create_target d t else Ok d
   | None => Ok d
   end) = Ok e ->
  grows d e.
Proof.
  intros H. destruct target as [t|].
  - destruct (truthy (Some t)).
    + eapply create_target_grows; eauto.
    + injection H as <-. apply grows_refl.
  - injection H as <-. apply grows_refl.
Qed.

Lemma engineered_grows (W : nat) (lags : list Z) (df e : DataFrame) (target : option string) :
  engineered W lags df target = Ok e -> grows df e.
Proof.
  intros He.
  destruct (engineered_steps _ _ _ _ _ He) as (d0 & d1 & d2 & d3 & d4 & d5 &
                                               H0 & H1 & H2 & H3 & H4 & H5 & H6).
  destruct (engineered_grows_to_lags _ _ _ _ _ _ _ _ _ H0 H1 H2 H3 H4 H5) as [_ Hg].
  eapply grows_trans; [exact Hg|]. eapply target_step_grows; eauto.
Qed.

Lemma filter_length_le {A : Type} (f : A -> bool) (l : list A) :
  List.length (filter f l) <= List.length l.
Proof. induction l as [|a l IH]; simpl; [lia|]. destruct (f a); simpl; lia. Qed.

(** X1.  On a frame with one cell per row in every column,
    [create_features] returns a frame that is again rectangular, has every
    column of the input, and has at most as many rows as the input. *)
Theorem create_features_shape (self : FeatureEngineer) (df out : DataFrame)
        (target : option string) (w : World) :
  well_formed df = true ->
  fst (create_features self df target w) = Ok out ->
  well_formed out = true
  /\ index_len out <= index_len df
  /\ forall n, has_column df n = true -> has_column out n = true.
Proof.
  intros Hwf. rewrite create_features_result.
  destruct (empty df).
  - intros [= <-]. repeat split; auto.
  - destruct (engineered _ _ _ _) as [e|] eqn:He; simpl; [|discriminate].
    intros [= <-]. destruct (engineered_shape _ _ _ _ _ Hwf He) as [_ Hlen].
    split; [apply take_well_formed|]. split.
    + unfold dropna. simpl. rewrite <- Hlen.
      etransitivity; [apply filter_length_le|]. now rewrite length_seq.
    + intros n Hn. unfold dropna. rewrite has_take.
      now apply (engineered_grows _ _ _ _ _ He).
Qed.

(* ------------------------------------------------------------------ *)
(** *** What [dropna] leaves *)

Lemma kept_row_cell (e : DataFrame) (i : nat) (c : string * series) :
  In i (kept_rows e) -> In c (columns e) -> isnull (cell_at (snd c) i) = false.
Proof.
  unfold kept_rows. rewrite filter_In. intros [_ Hrow] Hc.
  unfold row_complete in Hrow. rewrite forallb_forall in Hrow.
  apply negb_true_iff. auto.
Qed.

Lemma dropna_cells (e : DataFrame) (c : string * series) (x : cell) :
  In c (columns (dropna e)) -> In x (snd c) -> isnull x = false.
Proof.
  unfold dropna, take. simpl. intros Hc Hx.
  apply in_map_iff in Hc as (c0 & <- & Hc0). simpl in Hx.
  apply in_map_iff in Hx as (i & <- & Hi).
  exact (kept_row_cell e i c0 Hi Hc0).
Qed.

Lemma fill0_notnull (l : series) :
  (forall x, In x l -> isnull x = false) -> map fill0 l = l.
Proof.
  induction l as [|x l IH]; intros H; simpl; [reflexivity|].
  unfold fill0 at 1. rewrite (H x (or_introl eq_refl)).
  f_equal. apply IH. intros y Hy. apply H. now right.
Qed.

Lemma fillna0_notnull (d : DataFrame) :
  (forall c x, In c (columns d) -> In x (snd c) -> isnull x = false) ->
  fillna0 d = d.
Proof.
  unfold fillna0. destruct d as [n cols]. simpl. intros Hcells. f_equal.
  induction cols as [|[m s] rest IH]; simpl; [reflexivity|].
  rewrite (fill0_notnull s) by (intros x Hx; apply (Hcells (m, s)); simpl; auto).
  f_equal. apply IH. intros c x Hc Hx. apply (Hcells c x); simpl; auto.
Qed.

(** X2.  The frame [create_features] returns for a non-empty input holds
    no null cell at all, so the [fillna(0)] that the trainers and the
    predictors apply to it changes nothing. *)
Theorem create_features_output_has_no_null (self : FeatureEngineer) (df out : DataFrame)
        (target : option string) (w : World) :
  empty df = false ->
  fst (create_features self df target w) = Ok out ->
  (forall c x, In c (columns out) -> In x (snd c) -> isnull x = false)
  /\ fillna0 out = out.
Proof.
  intros Hne Hcf.
  destruct (create_features_output _ _ _ _ _ Hne Hcf) as (e & _ & ->).
  split; [apply dropna_cells|].
  apply fillna0_notnull, dropna_cells.
Qed.

(* ------------------------------------------------------------------ *)
(** *** Frames shorter than the longest lag *)

(** With the default lags, the first six rows of the engineered frame
    have a null in a lag column. *)
Lemma first_six_rows_pruned (W : nat) (df e : DataFrame) (target : option string)
      (col : string) :
  engineered W [1; 3; 6]%Z df target = Ok e ->
  In col lag_cols -> has_column df col = true ->
  forall i, In i (kept_rows e) -> 6 <= i.
Proof.
  intros He Hcol Hhas i Hi.
  destruct (engineered_steps _ _ _ _ _ He) as (d0 & d1 & d2 & d3 & d4 & d5 &
                                               H0 & H1 & H2 & H3 & H4 & H5 & H6).
  destruct (engineered_grows_to_lags _ _ _ _ _ _ _ _ _ H0 H1 H2 H3 H4 H5) as [Hg4 _].
  destruct (lag_features_sets d4 d5 col Hcol (Hg4 _ Hhas) H5) as [s Hs].
  pose proof (target_step_keeps _ _ _ _ (lag_six_untouched_by_target col Hcol) H6) as K.
  unfold keeps in K. rewrite <- K in Hs.
  destruct (lookup_In _ _ _ Hs) as [m Hm].
  pose proof (kept_row_cell e i _ Hi Hm) as Hcell. simpl in Hcell.
  destruct (Nat.lt_ge_cases i 6) as [Hlt|Hge]; [|exact Hge].
  rewrite (shift_six_null s i Hlt) in Hcell. discriminate.
Qed.

Lemma kept_rows_in_range (e : DataFrame) (i : nat) : In i (kept_rows e) -> i < index_len e.
Proof. unfold kept_rows. rewrite filter_In, in_seq. lia. Qed.

Lemma short_frame_keeps_nothing (W : nat) (df e : DataFrame) (target : option string)
      (col : string) :
  well_formed df = true ->
  index_len df <= 6 ->
  engineered W [1; 3; 6]%Z df target = Ok e ->
  In col lag_cols -> has_column df col = true ->
  kept_rows e = [].
Proof.
  intros Hwf Hlen He Hcol Hhas.
  destruct (engineered_shape _ _ _ _ _ Hwf He) as [_ Hrows].
  destruct (kept_rows e) as [|i rest] eqn:E; [reflexivity|].
  assert (Hi : In i (kept_rows e)) by (rewrite E; now left).
  pose proof (first_six_rows_pruned _ _ _ _ _ He Hcol Hhas i Hi).
  pose proof (kept_rows_in_range e i Hi). lia.
Qed.

(** X3.  With the default lag list, a frame of at most six rows that has
    one of the three lag source columns comes back from [create_features]
    with no row at all (and all its columns). *)
Theorem short_frame_is_pruned_entirely (self : FeatureEngineer) (df out : DataFrame)
        (target : option string) (w : World) (col : string) :
  well_formed df = true ->
  empty df = false ->
  index_len df <= 6 ->
  default_lags w = [1; 3; 6]%Z ->
  In col lag_cols -> has_column df col = true ->
  fst (create_features self df target w) = Ok out ->
  index_len out = 0 /\ values out = [].
Proof.
  intros Hwf Hne Hlen Hlags Hcol Hhas Hcf.
  destruct (create_features_output _ _ _ _ _ Hne Hcf) as (e & He & ->).
  rewrite Hlags in He.
  pose proof (short_frame_keeps_nothing _ _ _ _ _ Hwf Hlen He Hcol Hhas) as Hk.
  unfold dropna, values. fold (kept_rows e). rewrite Hk. split; reflexivity.
Qed.

(* ------------------------------------------------------------------ *)
(** *** Sorting *)

Lemma In_insert_by (key : nat -> cell) (i k : nat) (l : list nat) :
  In k (insert_by key i l) <-> k = i \/ In k l.
Proof.
  induction l as [|j rest IH]; simpl.
  - intuition.
  - destruct (cell_leb (key j) (key i)); simpl; rewrite ?IH; intuition.
Qed.

Lemma In_argsort (s : series) (k : nat) : In k (argsort s) <-> k < List.length s.
Proof.
  unfold argsort.
  assert (G : forall l acc, In k (fold_left (fun acc i => insert_by (cell_at s) i acc) l acc)
                            <-> In k l \/ In k acc).
  { induction l as [|i l IH]; intros acc; simpl.
    - intuition.
    - rewrite IH, In_insert_by. intuition. }
  rewrite G, in_seq. simpl. intuition lia.
Qed.

Lemma insert_by_last (key : nat -> cell) (k : nat) :
  (forall j, j < k -> cell_leb (key j) (key k) = true) ->
  forall a n, a + n = k -> insert_by key k (seq a n) = (seq a n ++ [k])%list.
Proof.
  intros Hle a n. revert a. induction n as [|n IH]; intros a Hk; simpl.
  - reflexivity.
  - rewrite Hle by lia. f_equal. apply IH. lia.
Qed.

Lemma argsort_ascending (s : series) : ascending s -> argsort s = seq 0 (List.length s).
Proof.
  intros Hs. unfold argsort.
  assert (G : forall n k, k + n = List.length s ->
              fold_left (fun acc i => insert_by (cell_at s) i acc) (seq k n) (seq 0 k)
              = seq 0 (k + n)).
  { induction n as [|n IH]; intros k Hk; simpl.
    - now rewrite Nat.add_0_r.
    - rewrite insert_by_last by (try reflexivity; intros j Hj; apply Hs; lia).
      rewrite <- seq_S, IH by lia. f_equal. lia. }
  exact (G (List.length s) 0 eq_refl).
Qed.

Lemma map_cell_at_seq (s : series) : map (cell_at s) (seq 0 (List.length s)) = s.
Proof.
  unfold cell_at. apply nth_ext with (d := null) (d' := null).
  - now rewrite length_map, length_seq.
  - intros i Hi. rewrite length_map, length_seq in Hi.
    rewrite (nth_indep _ null (nth 0 s null)) by now rewrite length_map, length_seq.
    rewrite (map_nth (fun i => nth i s null)), seq_nth by exact Hi. reflexivity.
Qed.

Lemma take_all (df : DataFrame) :
  well_formed df = true -> take (seq 0 (index_len df)) df = df.
Proof.
  destruct df as [n cols]. unfold well_formed, take. simpl. intros Hwf.
  rewrite length_seq. f_equal.
  induction cols as [|[m s] rest IH]; simpl in *; [reflexivity|].
  apply andb_true_iff in Hwf as [Hs Hrest]. apply Nat.eqb_eq in Hs.
  rewrite <- Hs at 1. rewrite map_cell_at_seq, IH by exact Hrest. reflexivity.
Qed.

(** Cells in ascending order are of one kind. *)
Lemma ascending_tail (c : cell) (s : series) : ascending (c :: s) -> ascending s.
Proof.
  intros H i j Hij Hj. apply (H (S i) (S j)); simpl; lia.
Qed.

Lemma ascending_head (c x : cell) (s : series) :
  ascending (c :: s) -> In x s -> cell_leb c x = true.
Proof.
  intros H Hx. destruct (In_nth _ _ null Hx) as (j & Hj & <-).
  apply (H 0 (S j)); simpl; lia.
Qed.

Lemma cell_leb_kind (a b : cell) (k : kind) :
  cell_leb a b = true -> cell_kind a = Some k ->
  cell_kind b = None \/ cell_kind b = Some k.
Proof.
  destruct a as [[| |]| |], b as [[| |]| |]; simpl; intros H Hk;
    try discriminate; auto.
Qed.

Lemma cell_leb_null (a b : cell) :
  cell_leb a b = true -> cell_kind a = None -> cell_kind b = None.
Proof.
  destruct a as [[| |]| |], b as [[| |]| |]; simpl; intros H Hk;
    try discriminate; auto.
Qed.

Lemma kind_eqb_refl (k : kind) : kind_eqb k k = true.
Proof. now destruct k. Qed.

Lemma comparable_all_null (k : option kind) (s : series) :
  (forall x, In x s -> cell_kind x = None) -> comparable_with k s = true.
Proof.
  induction s as [|c s IH]; intros H; simpl; [reflexivity|].
  rewrite (H c (or_introl eq_refl)). apply IH. intros x Hx. apply H. now right.
Qed.

Lemma comparable_one_kind (k : kind) (s : series) :
  (forall x, In x s -> cell_kind x = None \/ cell_kind x = Some k) ->
  comparable_with (Some k) s = true.
Proof.
  induction s as [|c s IH]; intros H; simpl; [reflexivity|].
  destruct (H c (or_introl eq_refl)) as [-> | ->].
  - apply IH. intros x Hx. apply H. now right.
  - rewrite kind_eqb_refl. apply IH. intros x Hx. apply H. now right.
Qed.

Lemma ascending_comparable (s : series) : ascending s -> comparable s = true.
Proof.
  unfold comparable. induction s as [|c s IH]; intros H; simpl; [reflexivity|].
  destruct (cell_kind c) as [k|] eqn:Ek.
  - apply comparable_one_kind. intros x Hx.
    eapply cell_leb_kind; [eapply ascending_head; eauto|exact Ek].
  - apply IH. eapply ascending_tail; eauto.
Qed.

Lemma strictly_ascending_ascending (s : series) : strictly_ascending s -> ascending s.
Proof. intros H i j Hij Hj. apply (H i j Hij Hj). Qed.

(** X4.  Sorting a rectangular frame whose sort column is already in
    strictly ascending order (nulls last) returns the frame unchanged. *)
Theorem sort_values_of_sorted_frame (df : DataFrame) (by_ : string) (s : series) :
  well_formed df = true ->
  get_column df by_ = Some s ->
  strictly_ascending s ->
  sort_values df by_ = Ok df.
Proof.
  intros Hwf Hs Hstrict. pose proof (strictly_ascending_ascending s Hstrict) as Hasc.
  unfold sort_values. rewrite Hs, (ascending_comparable s Hasc).
  rewrite (argsort_ascending s Hasc), (well_formed_column _ _ _ Hwf Hs).
  now rewrite take_all.
Qed.

(** X5.  [sort_values] only reorders: on a rectangular frame the result
    has the same number of rows, every row of the result is a row of the
    input, and every row of the input occurs in the result. *)
Theorem sort_values_reorders (df d : DataFrame) (by_ : string) :
  well_formed df = true ->
  sort_values df by_ = Ok d ->
  index_len d = index_len df
  /\ (forall i, i < index_len d -> exists j, j < index_len df /\ row d i = row df j)
  /\ (forall j, j < index_len df -> exists i, i < index_len d /\ row d i = row df j).
Proof.
  intros Hwf. unfold sort_values.
  destruct (get_column df by_) as [s|] eqn:Hs; [|discriminate].
  destruct (comparable s); [|discriminate]. intros [= <-].
  pose proof (well_formed_column _ _ _ Hwf Hs) as Hlen.
  assert (Hrow : forall i, i < List.length (argsort s) ->
                 row (take (argsort s) df) i = row df (nth i (argsort s) 0)).
  { intros i Hi. unfold row, take. simpl. rewrite map_map. apply map_ext.
    intros c. simpl. f_equal. unfold cell_at at 1.
    rewrite (nth_indep _ null (cell_at (snd c) 0)) by now rewrite length_map.
    now rewrite (map_nth (cell_at (snd c))). }
  simpl. rewrite argsort_length, Hlen. split; [reflexivity|]. split.
  - intros i Hi. exists (nth i (argsort s) 0). split.
    + rewrite <- Hlen. apply In_argsort. apply nth_In. now rewrite argsort_length, Hlen.
    + apply Hrow. now rewrite argsort_length, Hlen.
  - intros j Hj. rewrite <- Hlen in Hj. apply In_argsort in Hj.
    destruct (In_nth _ _ 0 Hj) as (i & Hi & Hnth).
    exists i. split; [now rewrite argsort_length, Hlen in Hi|].
    now rewrite Hrow, Hnth.
Qed.

(* ------------------------------------------------------------------ *)
(** *** The time columns *)

Lemma time_names_no_lag_name (n : string) :
  In n ["timestamp"; "hour"; "time_since_start"] -> no_lag_name n.
Proof.
  intros Hn col sfx Hin. simpl in Hn, Hin.
  destruct Hn as [<-|[<-|[<-|[]]]]; destruct Hin as [<-|[<-|[<-|[]]]]; reflexivity.
Qed.

Lemma later_steps_keep (n : string) (W : nat) (lags : list Z) (d2 d3 d4 d5 e : DataFrame)
      (target : option string) :
  untouched written_by_rolling n = true ->
  untouched written_by_light n = true ->
  no_lag_name n ->
  untouched written_by_target n = true ->
  _add_rolling_features W d2 = Ok d3 ->
  _add_light_features d3 = Ok d4 ->
  _add_lag_features lags d4 = Ok d5 ->
  (match target with
   | Some t => if truthy target then _create_target d5 t else Ok d5
   | None => Ok d5
   end) = Ok e ->
  keeps n d2 e.
Proof.
  intros U3 U4 U5 U6 H3 H4 H5 H6.
  apply keeps_trans with d5; [|eapply target_step_keeps; eauto].
  apply keeps_trans with d4; [|eapply lag_features_keeps; eauto].
  apply keeps_trans with d3; [|eapply light_features_keeps; eauto].
  eapply rolling_features_keeps; eauto.
Qed.

Lemma basic_features_hour (d0 d1 : DataFrame) (ts : series) :
  get_column d0 "timestamp" = Some ts ->
  _add_basic_features d0 = Ok d1 ->
  exists dt, to_datetime ts = Ok dt
             /\ get_column d1 "hour" = Some (of_floats (map dt_hour dt)).
Proof.
  intros Hts H. unfold _add_basic_features in H.
  rewrite (get_has_column _ _ _ Hts) in H. unfold getitem at 1 in H. rewrite Hts in H.
  cbn [bind] in H. destruct (to_datetime ts) as [dt|] eqn:Edt; cbn [bind] in H; [|discriminate].
  exists dt. split; [reflexivity|]. cbv zeta in H.
  ok_steps; rewrite ?get_setitem_other by reflexivity; apply get_setitem_same.
Qed.

Lemma temporal_features_columns (d1 d2 : DataFrame) (ts : series) (dt : list (option Z)) :
  get_column d1 "timestamp" = Some ts ->
  to_datetime ts = Ok dt ->
  _add_temporal_features d1 = Ok d2 ->
  get_column d2 "timestamp" = Some (map stamp_cell dt)
  /\ get_column d2 "time_since_start"
     = Some (of_floats (map (hours_since (Zmin_list None dt)) dt)).
Proof.
  intros Hts Hdt H. unfold _add_temporal_features in H.
  rewrite (get_has_column _ _ _ Hts) in H. cbn [negb] in H.
  unfold getitem in H. rewrite Hts in H. cbn [bind] in H. rewrite Hdt in H.
  cbn [bind] in H. injection H as <-. split.
  - rewrite get_setitem_other by reflexivity. apply get_setitem_same.
  - apply get_setitem_same.
Qed.

(** The three time columns of the engineered frame, in terms of the
    timestamp column of the input. *)
Lemma engineered_time_columns (W : nat) (lags : list Z) (df e : DataFrame)
      (target : option string) :
  engineered W lags df target = Ok e ->
  exists ts dt,
    get_column df "timestamp" = Some ts
    /\ to_datetime (map (cell_at ts) (argsort ts)) = Ok dt
    /\ get_column e "timestamp" = Some (map stamp_cell dt)
    /\ get_column e "hour" = Some (of_floats (map dt_hour dt))
    /\ get_column e "time_since_start"
       = Some (of_floats (map (hours_since (Zmin_list None dt)) dt)).
Proof.
  intros He.
  destruct (engineered_steps _ _ _ _ _ He) as (d0 & d1 & d2 & d3 & d4 & d5 &
                                               H0 & H1 & H2 & H3 & H4 & H5 & H6).
  destruct (sorted_frame _ _ H0) as (ts & Hts & ->).
  assert (Hts0 : get_column (take (argsort ts) df) "timestamp"
                 = Some (map (cell_at ts) (argsort ts))) by now rewrite get_take, Hts.
  destruct (basic_features_hour _ _ _ Hts0 H1) as (dt & Hdt & Hhour).
  pose proof (basic_features_keeps "timestamp" _ _ eq_refl H1) as K1. unfold keeps in K1.
  rewrite Hts0 in K1.
  destruct (temporal_features_columns _ _ _ _ K1 Hdt H2) as [Hstamp Hsince].
  pose proof (temporal_features_keeps "hour" _ _ eq_refl H2) as K2. unfold keeps in K2.
  exists ts, dt. repeat split; auto.
  - rewrite <- Hstamp.
    apply (later_steps_keep "timestamp" W lags d2 d3 d4 d5 e target); auto.
    apply time_names_no_lag_name; simpl; auto.
  - rewrite <- Hhour, <- K2.
    apply (later_steps_keep "hour" W lags d2 d3 d4 d5 e target); auto.
    apply time_names_no_lag_name; simpl; auto.
  - rewrite <- Hsince.
    apply (later_steps_keep "time_since_start" W lags d2 d3 d4 d5 e target); auto.
    apply time_names_no_lag_name; simpl; auto.
Qed.

Lemma Zmin_list_le (l : list (option Z)) :
  forall acc m, Zmin_list acc l = Some m ->
                (forall t, In (Some t) l -> (m <= t)%Z)
                /\ (forall a, acc = Some a -> (m <= a)%Z).
Proof.
  induction l as [|[t|] rest IH]; intros acc m H; simpl in H.
  - split; [intros t []|]. intros a ->. injection H as ->. lia.
  - destruct (IH _ _ H) as [Hin Hacc]. split.
    + intros u [[= ->]|Hu]; [|now apply Hin].
      specialize (Hacc _ eq_refl). destruct acc; lia.
    + intros a ->. specialize (Hacc _ eq_refl). lia.
  - destruct (IH _ _ H) as [Hin Hacc]. split; [|exact Hacc].
    intros u [Hu|Hu]; [discriminate|now apply Hin].
Qed.

Lemma Zmin_list_started (l : list (option Z)) :
  forall a, exists m, Zmin_list (Some a) l = Some m.
Proof.
  induction l as [|[v|] rest IH]; intros a; simpl; eauto.
Qed.

Lemma Zmin_list_some (l : list (option Z)) (t : Z) :
  In (Some t) l -> forall acc, exists m, Zmin_list acc l = Some m.
Proof.
  induction l as [|[u|] rest IH]; intros Hin acc; simpl.
  - destruct Hin.
  - destruct Hin as [_|Hin]; [|now apply IH].
    apply Zmin_list_started.
  - destruct Hin as [Hin|Hin]; [discriminate|now apply IH].
Qed.

Lemma hours_since_min (dt : list (option Z)) (t : option Z) :
  In t dt ->
  hours_since (Zmin_list None dt) t = NaN
  \/ exists q, hours_since (Zmin_list None dt) t = Num q /\ (0 <= q)%Q.
Proof.
  intros Hin. destruct t as [t|]; [|now left]. right.
  destruct (Zmin_list_some dt t Hin None) as [m Hm].
  destruct (Zmin_list_le dt None m Hm) as [Hle _]. specialize (Hle t Hin).
  unfold hours_since. rewrite Hm. eexists. split; [reflexivity|].
  rewrite Qred_correct. apply Qle_shift_div_l; [reflexivity|].
  rewrite Qmult_0_l. unfold Qle. simpl. lia.
Qed.

(** X6.  In the frame [create_features] returns for a non-empty input,
    every cell of [time_since_start] is a number of hours that is not
    negative: the offsets are measured from the earliest timestamp. *)
Theorem time_since_start_is_not_negative (self : FeatureEngineer) (df out : DataFrame)
        (target : option string) (w : World) :
  empty df = false ->
  fst (create_features self df target w) = Ok out ->
  exists s, get_column out "time_since_start" = Some s
            /\ forall x, In x s -> exists q, x = Fl (Num q) /\ (0 <= q)%Q.
Proof.
  intros Hne Hcf.
  destruct (create_features_output _ _ _ _ _ Hne Hcf) as (e & He & ->).
  destruct (engineered_time_columns _ _ _ _ _ He) as (ts & dt & _ & _ & _ & _ & Hsince).
  unfold dropna. rewrite get_take, Hsince. simpl. eexists. split; [reflexivity|].
  intros x Hx. apply in_map_iff in Hx as (i & <- & Hi).
  destruct (lookup_In _ _ _ Hsince) as [m Hm].
  pose proof (kept_row_cell e i _ Hi Hm) as Hnull. simpl in Hnull.
  unfold cell_at, of_floats in *.
  destruct (Nat.lt_ge_cases i (List.length dt)) as [Hlt|Hge].
  - rewrite (nth_indep _ null (Fl (hours_since (Zmin_list None dt) None))) in *
      by now rewrite !length_map.
    rewrite (map_nth Fl), (map_nth (hours_since (Zmin_list None dt))) in *.
    destruct (hours_since_min dt (nth i dt None) (nth_In _ _ Hlt)) as [E|(q & E & Hq)];
      rewrite E in *; [discriminate|eauto].
  - rewrite nth_overflow in Hnull by now rewrite !length_map. discriminate.
Qed.

(* ------------------------------------------------------------------ *)
(** *** The order of the rows *)







Lemma kind_eqb_eq (a b : kind) : kind_eqb a b = true -> a = b.
Proof. destruct a, b; simpl; congruence. Qed.









Lemma seq_increasing (n : nat) : forall a, StronglySorted lt (seq a n).
Proof.
  induction n as [|n IH]; intros a; simpl; constructor; [apply IH|].
  apply Forall_forall. intros x Hx. apply in_seq in Hx. lia.
Qed.

Lemma filter_increasing (f : nat -> bool) (l : list nat) :
  StronglySorted lt l -> StronglySorted lt (filter f l).
Proof.
  induction 1 as [|a l Hl IH Ha]; simpl; [constructor|].
  destruct (f a); [|exact IH]. constructor; [exact IH|].
  rewrite Forall_forall in *. intros x Hx. apply filter_In in Hx as [Hx _]. auto.
Qed.


(* ------------------------------------------------------------------ *)
(** *** The lag columns *)

Lemma cell_at_shift (k : Z) (s : series) (i : nat) :
  (0 <= k)%Z -> i < List.length s ->
  cell_at (shift k s) i = if i <? Z.to_nat k then null else cell_at s (i - Z.to_nat k).
Proof.
  intros Hk Hi. unfold cell_at, shift, shift_by.
  set (f := fun i : nat =>
              let j := (Z.of_nat i - k)%Z in
              if ((0 <=? j)%Z && (j <? Z.of_nat (List.length s))%Z)%bool
              then nth (Z.to_nat j) s null else null).
  rewrite (nth_indep _ null (f 0)) by now rewrite length_map, length_seq.
  rewrite (map_nth f), seq_nth by exact Hi.
  unfold f. cbv zeta. simpl Nat.add.
  destruct (i <? Z.to_nat k) eqn:E.
  - apply Nat.ltb_lt in E.
    destruct (0 <=? Z.of_nat i - k)%Z eqn:E1; [apply Z.leb_le in E1; lia|reflexivity].
  - apply Nat.ltb_ge in E.
    destruct (0 <=? Z.of_nat i - k)%Z eqn:E1; [|apply Z.leb_gt in E1; lia].
    destruct (Z.of_nat i - k <? Z.of_nat (List.length s))%Z eqn:E2;
      [|apply Z.ltb_ge in E2; lia].
    simpl. f_equal. lia.
Qed.

Lemma add_lags_for_sets_each (d d' : DataFrame) (col : string) (s : series) (k : Z) :
  In col lag_cols ->
  get_column d col = Some s ->
  add_lags_for [1; 3; 6]%Z d col = Ok d' ->
  In k [1; 3; 6]%Z ->
  get_column d' (lag_name col k) = Some (shift k s).
Proof.
  intros Hin Hs. unfold add_lags_for. rewrite (get_has_column _ _ _ Hs).
  cbn [for_each]. unfold getitem at 1. rewrite Hs. cbn [bind].
  intros H Hk. simpl in Hin, Hk.
  destruct Hin as [<-|[<-|[<-|[]]]];
    unfold getitem in H; rewrite ?get_setitem_other in H by reflexivity; rewrite Hs in H;
    cbn [bind] in H;
    rewrite ?get_setitem_other in H by reflexivity; rewrite Hs in H; cbn [bind] in H;
    injection H as <-;
    destruct Hk as [<-|[<-|[<-|[]]]];
    rewrite ?get_setitem_other by reflexivity; apply get_setitem_same.
Qed.

Lemma lag_name_not_another (col col' : string) (k : Z) :
  In col lag_cols -> In col' lag_cols -> col <> col' -> In k [1; 3; 6]%Z ->
  forall sfx, String.eqb (col' ++ "_lag_" ++ sfx) (lag_name col k) = false.
Proof.
  intros Hc Hc' Hne Hk sfx. simpl in Hc, Hc', Hk.
  destruct Hc as [<-|[<-|[<-|[]]]]; destruct Hc' as [<-|[<-|[<-|[]]]];
    try (now elim Hne); destruct Hk as [<-|[<-|[<-|[]]]]; reflexivity.
Qed.

Lemma lag_features_sets_each (df df' : DataFrame) (col : string) (s : series) (k : Z) :
  In col lag_cols ->
  get_column df col = Some s ->
  _add_lag_features [1; 3; 6]%Z df = Ok df' ->
  In k [1; 3; 6]%Z ->
  get_column df' (lag_name col k) = Some (shift k s).
Proof.
  intros Hin Hs H Hk.
  unfold _add_lag_features, lag_cols in H. cbn [for_each] in H.
  destruct (add_lags_for _ df "ambient_light") as [d1|] eqn:E1; cbn [bind] in H; [|discriminate].
  destruct (add_lags_for _ d1 "active_lights_count") as [d2|] eqn:E2;
    cbn [bind] in H; [|discriminate].
  destruct (add_lags_for _ d2 "faulty_lights_count") as [d3|] eqn:E3;
    cbn [bind] in H; [|discriminate].
  injection H as <-.
  pose proof (fun n Hn => add_lags_for_keeps n _ _ _ _ Hn E1) as K1.
  pose proof (fun n Hn => add_lags_for_keeps n _ _ _ _ Hn E2) as K2.
  pose proof (fun n Hn => add_lags_for_keeps n _ _ _ _ Hn E3) as K3.
  unfold keeps in K1, K2, K3.
  pose proof (fun col' Hc' Hne => lag_name_not_another col col' k Hin Hc' Hne Hk) as Hother.
  simpl in Hin. destruct Hin as [<-|[<-|[<-|[]]]].
  - rewrite K3, K2 by (apply Hother; [simpl; auto|discriminate]).
    apply (add_lags_for_sets_each df d1 "ambient_light" s); simpl; auto.
  - rewrite K3 by (apply Hother; [simpl; auto|discriminate]).
    apply (add_lags_for_sets_each d1 d2 "active_lights_count" s); simpl; auto.
    rewrite K1 by (intros sfx; reflexivity). exact Hs.
  - apply (add_lags_for_sets_each d2 d3 "faulty_lights_count" s); simpl; auto.
    rewrite K2, K1 by (intros sfx; reflexivity). exact Hs.
Qed.

Lemma lag_source_untouched (col : string) :
  In col lag_cols ->
  untouched written_by_basic col = true /\ untouched written_by_temporal col = true
  /\ untouched written_by_rolling col = true /\ untouched written_by_light col = true.
Proof. intros Hin. simpl in Hin. destruct Hin as [<-|[<-|[<-|[]]]]; repeat split. Qed.

Lemma lag_name_untouched_by_target (col : string) (k : Z) :
  In col lag_cols -> In k [1; 3; 6]%Z -> untouched written_by_target (lag_name col k) = true.
Proof.
  intros Hin Hk. simpl in Hin, Hk.
  destruct Hin as [<-|[<-|[<-|[]]]]; destruct Hk as [<-|[<-|[<-|[]]]]; reflexivity.
Qed.

(** X7.  With the default lags, the column [<col>_lag_<k>] of the
    engineered frame holds at row [i] (rows in timestamp order) the value
    that [col] has [k] rows earlier, and null on the first [k] rows. *)
Theorem lag_columns_look_back (W : nat) (df e : DataFrame) (target : option string)
        (col : string) (s ts : series) (k : Z) :
  well_formed df = true ->
  engineered W [1; 3; 6]%Z df target = Ok e ->
  In col lag_cols -> In k [1; 3; 6]%Z ->
  get_column df col = Some s ->
  get_column df "timestamp" = Some ts ->
  exists c,
    get_column e (lag_name col k) = Some c
    /\ forall i, i < index_len df ->
                 cell_at c i
                 = if i <? Z.to_nat k then null
                   else cell_at s (nth (i - Z.to_nat k) (argsort ts) 0).
Proof.
  intros Hwf He Hcol Hk Hs Hts.
  destruct (engineered_steps _ _ _ _ _ He) as (d0 & d1 & d2 & d3 & d4 & d5 &
                                               H0 & H1 & H2 & H3 & H4 & H5 & H6).
  destruct (sorted_frame _ _ H0) as (ts' & Hts' & ->).
  rewrite Hts in Hts'. injection Hts' as <-.
  destruct (lag_source_untouched col Hcol) as (U1 & U2 & U3 & U4).
  assert (Hs4 : get_column d4 col = Some (map (cell_at s) (argsort ts))).
  { rewrite (light_features_keeps col _ _ U4 H4), (rolling_features_keeps col _ _ _ U3 H3),
      (temporal_features_keeps col _ _ U2 H2), (basic_features_keeps col _ _ U1 H1).
    now rewrite get_take, Hs. }
  pose proof (lag_features_sets_each _ _ _ _ k Hcol Hs4 H5 Hk) as Hlag.
  pose proof (target_step_keeps _ _ _ _ (lag_name_untouched_by_target col k Hcol Hk) H6) as K.
  unfold keeps in K. rewrite <- K in Hlag.
  eexists. split; [exact Hlag|]. intros i Hi.
  pose proof (well_formed_column _ _ _ Hwf Hts) as Hlen.
  assert (Hk0 : (0 <= k)%Z) by (simpl in Hk; destruct Hk as [<-|[<-|[<-|[]]]]; lia).
  rewrite cell_at_shift by (try exact Hk0; rewrite length_map, argsort_length; lia).
  destruct (i <? Z.to_nat k); [reflexivity|].
  unfold cell_at at 1.
  rewrite (nth_indep _ null (cell_at s 0)) by (rewrite length_map, argsort_length; lia).
  now rewrite (map_nth (cell_at s)).
Qed.

(* ------------------------------------------------------------------ *)
(** *** The frame a predictor engineers *)

Lemma lookup_tabulate (f : string -> series) (n : string) (names : list string) :
  lookup n (map (fun m => (m, f m)) names)
  = if existsb (fun m => String.eqb m n) names then Some (f n) else None.
Proof.
  induction names as [|m rest IH]; simpl; [reflexivity|].
  destruct (String.eqb m n) eqn:E; simpl; [|exact IH].
  apply String.eqb_eq in E. now subst.
Qed.

Lemma has_column_names (df : DataFrame) (n : string) :
  has_column df n = existsb (fun m => String.eqb m n) (column_names df).
Proof.
  unfold has_column, column_names.
  induction (columns df) as [|[m s] rest IH]; simpl; [reflexivity|].
  destruct (String.eqb m n); auto.
Qed.

Lemma existsb_filter_name (p : string -> bool) (n : string) (l : list string) :
  existsb (fun m => String.eqb m n) (filter p l)
  = p n && existsb (fun m => String.eqb m n) l.
Proof.
  induction l as [|a l IH]; simpl; [now rewrite andb_false_r|].
  destruct (String.eqb a n) eqn:E.
  - apply String.eqb_eq in E. subst a. destruct (p n) eqn:Ep; simpl.
    + now rewrite String.eqb_refl.
    + now rewrite IH.
  - destruct (p a); simpl; rewrite ?E; exact IH.
Qed.

Lemma get_concat (a b : DataFrame) (n : string) :
  get_column (concat a b) n
  = if has_column a n || has_column b n then Some (part a n ++ part b n)%list else None.
Proof.
  unfold get_column, concat. simpl.
  rewrite (lookup_tabulate (fun n => (part a n ++ part b n)%list)).
  rewrite existsb_app, existsb_filter_name, <- !has_column_names.
  destruct (has_column a n), (has_column b n); reflexivity.
Qed.

Lemma has_concat (a b : DataFrame) (n : string) :
  has_column (concat a b) n = has_column a n || has_column b n.
Proof.
  unfold has_column at 1. fold (get_column (concat a b) n). rewrite get_concat.
  now destruct (has_column a n || has_column b n).
Qed.

Lemma get_frame_of_dict (d : list (string * cell)) (n : string) :
  get_column (frame_of_dict d) n = option_map (fun c => [c]) (row_get n d).
Proof.
  unfold get_column, frame_of_dict. simpl.
  induction d as [|[m c] rest IH]; simpl; [reflexivity|].
  destruct (String.eqb m n); auto.
Qed.

Lemma has_frame_of_dict (d : list (string * cell)) (n : string) :
  has_column (frame_of_dict d) n = existsb (fun m => String.eqb m n) (map fst d).
Proof.
  rewrite has_column_names. unfold column_names, frame_of_dict. simpl.
  now rewrite map_map.
Qed.

Lemma map_cell_at_skipn (s : series) :
  forall k, map (cell_at s) (seq k (List.length s - k)) = skipn k s.
Proof.
  induction s as [|c s IH]; intros k; simpl.
  - now destruct k.
  - destruct k; simpl.
    + f_equal. rewrite <- seq_shift, map_map. apply map_cell_at_seq.
    + rewrite <- seq_shift, map_map. apply IH.
Qed.

Lemma get_tail (n : nat) (df : DataFrame) (name : string) (s : series) :
  well_formed df = true ->
  get_column df name = Some s ->
  get_column (tail n df) name = Some (skipn (index_len df - n) s).
Proof.
  intros Hwf Hs. unfold tail. rewrite get_take, Hs. simpl. f_equal.
  pose proof (well_formed_column _ _ _ Hwf Hs) as Hlen.
  replace (Nat.min n (index_len df)) with (List.length s - (index_len df - n)) by lia.
  apply map_cell_at_skipn.
Qed.

Lemma context_frame_rows (sensor_data : list (string * cell))
      (historical_data : option DataFrame) :
  index_len (context_frame sensor_data historical_data)
  <= Nat.min 10 (history_rows historical_data) + 1.
Proof.
  unfold context_frame, history_rows. destruct historical_data as [h|]; simpl; [|lia].
  destruct (negb (empty h)); simpl; [rewrite length_seq|]; lia.
Qed.

Lemma context_frame_has_reading_keys (sensor_data : list (string * cell))
      (historical_data : option DataFrame) (n : string) :
  In n (map fst sensor_data) ->
  has_column (context_frame sensor_data historical_data) n = true.
Proof.
  intros Hin.
  assert (Hb : has_column (frame_of_dict sensor_data) n = true).
  { rewrite has_frame_of_dict. apply existsb_exists. exists n. split; [exact Hin|].
    apply String.eqb_refl. }
  unfold context_frame. destruct historical_data as [h|]; [|exact Hb].
  destruct (negb (empty h)); [|exact Hb].
  rewrite has_concat, Hb. apply orb_true_r.
Qed.

Lemma context_frame_not_empty (sensor_data : list (string * cell))
      (historical_data : option DataFrame) :
  sensor_data <> [] -> empty (context_frame sensor_data historical_data) = false.
Proof.
  intros Hne. destruct sensor_data as [|[k c] rest]; [now elim Hne|].
  assert (Hb : empty (frame_of_dict ((k, c) :: rest)) = false) by reflexivity.
  unfold context_frame. destruct historical_data as [h|]; [|exact Hb].
  destruct (negb (empty h)) eqn:Eh; [|exact Hb].
  apply negb_true_iff in Eh. unfold empty in *. apply orb_false_iff in Eh as [_ Hcols].
  unfold concat, column_names. simpl. rewrite Nat.add_1_r. simpl.
  unfold tail, take. simpl. destruct (columns h); [discriminate|reflexivity].
Qed.

Lemma context_frame_column
        (sensor_data : list (string * cell)) (h : DataFrame) (n : string) (s : series) :
  well_formed h = true ->
  empty h = false ->
  get_column h n = Some s ->
  index_len (context_frame sensor_data (Some h)) = Nat.min 10 (index_len h) + 1
  /\ get_column (context_frame sensor_data (Some h)) n
     = Some (skipn (index_len h - 10) s
             ++ [match row_get n sensor_data with Some c => c | None => null end])%list.
Proof.
  intros Hwf Hne Hs. unfold context_frame. rewrite Hne. cbn [negb]. split.
  - unfold concat, tail, take. simpl. now rewrite length_seq.
  - rewrite get_concat.
    pose proof (get_tail 10 h n s Hwf Hs) as Ht.
    rewrite (get_has_column _ _ _ Ht). cbn [orb]. f_equal.
    unfold part. rewrite Ht, get_frame_of_dict. f_equal.
    now destruct (row_get n sensor_data).
Qed.

(** X8.  The frame a predictor engineers when it is given a non-empty,
    rectangular history has the last ten rows of the history (all of them
    when there are fewer) followed by one row for the reading: each history
    column holds its last ten cells and then the reading's value for that
    key, null when the reading has no such key. *)
Theorem context_frame_is_recent_history_then_reading
        (sensor_data : list (string * cell)) (h : DataFrame) (n : string) (s : series) :
  well_formed h = true ->
  empty h = false ->
  get_column h n = Some s ->
  index_len (context_frame sensor_data (Some h)) = Nat.min 10 (index_len h) + 1
  /\ get_column (context_frame sensor_data (Some h)) n
     = Some (skipn (index_len h - 10) s
             ++ [match row_get n sensor_data with Some c => c | None => null end])%list.
Proof. apply context_frame_column. Qed.

(** X9.  With the default lags and a reading that carries one of the lag
    source columns, a history of at most five rows leaves the feature frame
    without any row, so whatever the schema, the matrix handed to the model
    is empty. *)
Theorem short_history_gives_the_model_no_row
        (self : FeatureEngineer) (sensor_data : list (string * cell))
        (historical_data : option DataFrame) (col : string)
        (features : option (list string)) (out : DataFrame) (X : list (list cell))
        (w : World) :
  default_lags w = [1; 3; 6]%Z ->
  In col lag_cols -> In col (map fst sensor_data) ->
  history_rows historical_data <= 5 ->
  fst (create_features self (context_frame sensor_data historical_data) None w) = Ok out ->
  model_input out features = Ok X ->
  index_len out = 0 /\ X = [].
Proof.
  intros Hlags Hcol Hkey Hrows Hcf HX.
  assert (Hne : sensor_data <> []) by (intros ->; destruct Hkey).
  pose proof (context_frame_not_empty sensor_data historical_data Hne) as Hempty.
  destruct (create_features_output _ _ _ _ _ Hempty Hcf) as (e & He & ->).
  rewrite Hlags in He.
  pose proof (context_frame_rows sensor_data historical_data) as Hlen.
  assert (Hk : kept_rows e = []).
  { assert (Hsix : index_len (context_frame sensor_data historical_data) <= 6) by lia.
    apply (short_frame_keeps_nothing _ _ _ _ col (context_frame_well_formed _ _)
             Hsix He Hcol).
    now apply context_frame_has_reading_keys. }
  assert (H0 : index_len (dropna e) = 0) by (unfold dropna; fold (kept_rows e); now rewrite Hk).
  split; [exact H0|].
  unfold model_input in HX. destruct (getitem_list (dropna e) features) as [sel|] eqn:Es;
    cbn [bind] in HX; [|discriminate].
  injection HX as <-. apply values_no_row.
  destruct features as [names|]; [|discriminate]. simpl in Es. unfold select_columns in Es.
  destruct (filter _ names); [|discriminate]. injection Es as <-. exact H0.
Qed.

(* ------------------------------------------------------------------ *)
(** *** Loading the artifacts *)

Lemma new_inference_fields (dir : string) (w : World) :
  exists w1,
    new_inference dir w
    = (Ok (mk_inference dir new_engineer
             (load_classifier dir (files w))
             (load_detector dir (files w))
             (match load_classifier dir (files w) with
              | Some _ => load_features (path_join dir "failure_predictor_features.pkl") (files w)
              | None => None
              end)
             (match load_detector dir (files w) with
              | Some _ => load_features (path_join dir "anomaly_detector_features.pkl") (files w)
              | None => None
              end)), w1)
    /\ files w1 = files w /\ default_lags w1 = default_lags w.
Proof.
  unfold new_inference, mbind, logger, ret. cbv zeta. simpl. eexists. repeat split.
Qed.

(** X10.  An engine created over a model directory that holds neither
    model file answers every reading, with or without history, with the
    entry 'Model not loaded' for both models, and logs nothing while doing
    so. *)
Theorem engine_without_artifacts_predicts_nothing (dir : string) (w : World) :
  read_file (path_join dir "failure_predictor.pkl") (files w) = None ->
  read_file (path_join dir "anomaly_detector.pkl") (files w) = None ->
  exists self w1,
    new_inference dir w = (Ok self, w1)
    /\ forall sensor_data historical_data w2,
         predict self sensor_data historical_data w2
         = (Ok (mk_predictions (Error "Model not loaded") (Error "Model not loaded")), w2).
Proof.
  intros Hf Ha. destruct (new_inference_fields dir w) as (w1 & Hnew & _).
  unfold load_classifier, load_detector in Hnew. rewrite Hf, Ha in Hnew.
  eexists _, w1. split; [exact Hnew|]. intros sd hist w2. reflexivity.
Qed.

Lemma failure_entry_of_engineering_error (self : MLInference) (m : Classifier)
      (sensor_data : list (string * cell)) (historical_data : option DataFrame)
      (w : World) (e : exn) :
  failure_model self = Some m ->
  fst (create_features (feature_engineer self) (context_frame sensor_data historical_data)
         None w) = Raise e ->
  fst (predict_failure self sensor_data historical_data w) = Ok (Error (str e)).
Proof.
  intros Hm Hcf. unfold predict_failure. rewrite Hm.
  unfold try_except, failure_body, mbind.
  destruct (create_features _ _ _ w) as [[out|e'] w1]; simpl in Hcf; [discriminate|].
  injection Hcf as ->. reflexivity.
Qed.

Lemma anomaly_entry_of_engineering_error (self : MLInference) (m : Detector)
      (sensor_data : list (string * cell)) (historical_data : option DataFrame)
      (w : World) (e : exn) :
  anomaly_model self = Some m ->
  fst (create_features (feature_engineer self) (context_frame sensor_data historical_data)
         None w) = Raise e ->
  fst (detect_anomaly self sensor_data historical_data w) = Ok (Error (str e)).
Proof.
  intros Hm Hcf. unfold detect_anomaly. rewrite Hm.
  unfold try_except, anomaly_body, mbind.
  destruct (create_features _ _ _ w) as [[out|e'] w1]; simpl in Hcf; [discriminate|].
  injection Hcf as ->. reflexivity.
Qed.

(** X11.  When the schema file of a model is missing from the model
    directory, the engine created over it never returns a prediction of
    that model: whatever the reading and the history, the entry is an
    error entry. *)
Theorem model_without_schema_never_predicts (dir : string) (w w1 : World)
        (self : MLInference) :
  new_inference dir w = (Ok self, w1) ->
  (read_file (path_join dir "failure_predictor_features.pkl") (files w) = None ->
   forall sensor_data historical_data w2,
   exists msg, fst (predict_failure self sensor_data historical_data w2) = Ok (Error msg))
  /\ (read_file (path_join dir "anomaly_detector_features.pkl") (files w) = None ->
   forall sensor_data historical_data w2,
   exists msg, fst (detect_anomaly self sensor_data historical_data w2) = Ok (Error msg)).
Proof.
  intros Hnew.
  destruct (new_inference_fields dir w) as (w1' & Hnew' & _).
  rewrite Hnew in Hnew'. injection Hnew' as -> _.
  unfold load_features. split; intros Hschema sd hist w2; rewrite Hschema.
  - destruct (load_classifier dir (files w)) as [m|] eqn:Em; [|eexists; reflexivity].
    destruct (create_features new_engineer (context_frame sd hist) None w2) as [[out|e] w3]
      eqn:Er.
    + eexists.
      eapply (failure_entry_of_input_error _ m sd hist w2 w3 out); [reflexivity|exact Er|].
      reflexivity.
    + eexists. eapply (failure_entry_of_engineering_error _ m); [reflexivity|].
      simpl. now rewrite Er.
  - destruct (load_detector dir (files w)) as [m|] eqn:Em; [|eexists; reflexivity].
    destruct (create_features new_engineer (context_frame sd hist) None w2) as [[out|e] w3]
      eqn:Er.
    + eexists.
      eapply (anomaly_entry_of_input_error _ m sd hist w2 w3 out); [reflexivity|exact Er|].
      reflexivity.
    + eexists. eapply (anomaly_entry_of_engineering_error _ m); [reflexivity|].
      simpl. now rewrite Er.
Qed.

(* ------------------------------------------------------------------ *)
(** *** Training and the file system *)

Lemma keeps_files_lift {A : Type} (r : result A) : keeps_files (lift r).
Proof. now intros w. Qed.

Lemma keeps_files_read_csv (path : string) : keeps_files (read_csv path).
Proof. intros w. unfold read_csv. now destruct (read_file path (files w)) as [[]|]. Qed.

#[local] Hint Resolve keeps_files_lift keeps_files_read_csv create_features_keeps_files : world.

Lemma keeps_then_quiet {A : Type} (R : list (string * blob) -> exn -> list (string * blob) -> Prop)
      (c : M A) :
  keeps_files c -> quiet_unless R c.
Proof. intros H w e _. left. apply H. Qed.

Lemma quiet_mbind {A B : Type} (R : list (string * blob) -> exn -> list (string * blob) -> Prop)
      (c : M A) (k : A -> M B) :
  keeps_files c -> (forall a, quiet_unless R (k a)) -> quiet_unless R (mbind c k).
Proof.
  intros Hc Hk w e. unfold mbind. specialize (Hc w).
  destruct (c w) as [[a|e'] w1]; simpl in *.
  - intros H. rewrite <- Hc. exact (Hk a w1 e H).
  - intros _. now left.
Qed.

(** The two writes that end a training run, and the log line after them. *)
Lemma save_quiet {A : Type} (is_model : blob -> Prop) (mb : blob) (cols : list string)
      (mpath fpath msg : string) (a : A) :
  is_model mb ->
  quiet_unless (save_refused is_model mpath fpath)
    (dump mb mpath ;;; dump (FeaturesPickle cols) fpath ;;; logger INFO msg ;;; ret a)%M.
Proof.
  intros Hm w e. unfold mbind, dump, logger, ret. simpl.
  destruct (write_error (files w) mpath mb) as [[e1 fs1]|] eqn:E1; simpl.
  - intros [= <-]. right. exists mb, cols. split; [exact Hm|]. now left.
  - destruct (write_error (write_file mpath mb (files w)) fpath (FeaturesPickle cols))
      as [[e2 fs2]|] eqn:E2; simpl; [|discriminate].
    intros [= <-]. right. exists mb, cols. split; [exact Hm|]. right. now split.
Qed.

Ltac quiet_steps :=
  repeat first
    [ match goal with
      | |- quiet_unless _ (mbind (dump _ _) _) => fail 2
      end
    | apply quiet_mbind; [solve [auto with world] | intros ]
    | match goal with
      | |- quiet_unless _ (match ?s with _ => _ end) => destruct s
      end
    | solve [apply keeps_then_quiet; auto with world] ].

Lemma failure_trainer_quiet (self : ModelTrainer) (data_path model_name : string) :
  quiet_unless
    (save_refused (fun b => exists m, b = ClassifierPickle m)
       (path_join (trainer_model_dir self) (model_name ++ ".pkl"))
       (path_join (trainer_model_dir self) (model_name ++ "_features.pkl")))
    (train_failure_prediction_model self data_path model_name).
Proof.
  unfold train_failure_prediction_model. quiet_steps.
  apply quiet_mbind; [|intros; quiet_steps].
  - match goal with |- keeps_files (if ?c then _ else _) => destruct c end;
      auto 10 with world.
  - apply save_quiet. eauto.
Qed.

Lemma anomaly_trainer_quiet (self : ModelTrainer) (data_path model_name : string) :
  quiet_unless
    (save_refused (fun b => exists m, b = DetectorPickle m)
       (path_join (trainer_model_dir self) (model_name ++ ".pkl"))
       (path_join (trainer_model_dir self) (model_name ++ "_features.pkl")))
    (train_anomaly_detection_model self data_path model_name).
Proof.
  unfold train_anomaly_detection_model. quiet_steps.
  apply save_quiet. eauto.
Qed.

(** X12.  A training run that raises leaves the file system as it was,
    unless the exception is the refusal of one of the two writes that end
    the run.  There is no cleanup: if the model file cannot be written the
    file system is what that failed write left, and if the schema file
    cannot be written it is what that failed write left after the model
    file was written. *)
Theorem failed_training_writes_nothing_before_saving
        (self : ModelTrainer) (data_path model_name : string) (w : World) :
  (forall e, fst (train_failure_prediction_model self data_path model_name w) = Raise e ->
             files (snd (train_failure_prediction_model self data_path model_name w))
             = files w
             \/ save_refused (fun b => exists m, b = ClassifierPickle m)
                  (path_join (trainer_model_dir self) (model_name ++ ".pkl"))
                  (path_join (trainer_model_dir self) (model_name ++ "_features.pkl"))
                  (files w) e
                  (files (snd (train_failure_prediction_model self data_path model_name w))))
  /\ (forall e, fst (train_anomaly_detection_model self data_path model_name w) = Raise e ->
                files (snd (train_anomaly_detection_model self data_path model_name w))
                = files w
                \/ save_refused (fun b => exists m, b = DetectorPickle m)
                     (path_join (trainer_model_dir self) (model_name ++ ".pkl"))
                     (path_join (trainer_model_dir self) (model_name ++ "_features.pkl"))
                     (files w) e
                     (files (snd (train_anomaly_detection_model self data_path model_name w)))).
Proof.
  split; intros e He.
  - now apply failure_trainer_quiet.
  - now apply anomaly_trainer_quiet.
Qed.

(* ------------------------------------------------------------------ *)
(** *** From training to loading *)

Lemma mbind_ok {A B : Type} (c : M A) (k : A -> M B) (w w1 : World) (a : A) :
  c w = (Ok a, w1) -> mbind c k w = k a w1.
Proof. intros H. unfold mbind. now rewrite H. Qed.

Lemma mbind_raise {A B : Type} (c : M A) (k : A -> M B) (w w1 : World) (e : exn) :
  c w = (Raise e, w1) -> mbind c k w = (Raise e, w1).
Proof. intros H. unfold mbind. now rewrite H. Qed.

Lemma read_write_same (path : string) (b : blob) (fs : list (string * blob)) :
  read_file path (write_file path b fs) = Some b.
Proof.
  induction fs as [|[p old] rest IH]; simpl.
  - now rewrite String.eqb_refl.
  - destruct (String.eqb p path) eqn:E; simpl; now rewrite E.
Qed.

Lemma read_write_other (path other : string) (b : blob) (fs : list (string * blob)) :
  String.eqb path other = false ->
  read_file other (write_file path b fs) = read_file other fs.
Proof.
  intros Hne. induction fs as [|[p old] rest IH]; simpl.
  - now rewrite Hne.
  - destruct (String.eqb p path) eqn:E; simpl.
    + apply String.eqb_eq in E. subst p. now rewrite Hne.
    + destruct (String.eqb p other); auto.
Qed.

Lemma eqb_append_l (d a b : string) : String.eqb (d ++ a) (d ++ b) = String.eqb a b.
Proof. induction d as [|c d IH]; simpl; [reflexivity|]. now rewrite Ascii.eqb_refl. Qed.

Lemma model_and_schema_paths_differ (dir name : string) :
  String.eqb (path_join dir (name ++ ".pkl")) (path_join dir (name ++ "_features.pkl")) = false.
Proof.
  unfold path_join. rewrite eqb_append_l. simpl. rewrite ?Ascii.eqb_refl.
  rewrite eqb_append_l. reflexivity.
Qed.

Lemma get_feature_columns_names (df : DataFrame) :
  feature_names_only (get_feature_columns df true).
Proof.
  intros n Hn. unfold get_feature_columns in Hn.
  apply filter_In in Hn as [Hn Hp]. apply filter_In in Hn as [_ Hm].
  split; now apply negb_true_iff.
Qed.

Lemma get_feature_columns_present (df : DataFrame) (n : string) :
  In n (get_feature_columns df true) -> has_column df n = true.
Proof.
  intros Hn. unfold get_feature_columns in Hn.
  apply filter_In in Hn as [Hn _]. apply filter_In in Hn as [Hn _].
  rewrite has_column_names. apply existsb_exists. exists n. split; [exact Hn|].
  apply String.eqb_refl.
Qed.

Lemma stored_pair (dir name : string) (m s : blob) (fs : list (string * blob)) :
  let fs' := write_file (path_join dir (name ++ "_features.pkl")) s
               (write_file (path_join dir (name ++ ".pkl")) m fs) in
  read_file (path_join dir (name ++ ".pkl")) fs' = Some m
  /\ read_file (path_join dir (name ++ "_features.pkl")) fs' = Some s.
Proof.
  cbv zeta. split.
  - rewrite read_write_other, read_write_same; [reflexivity|].
    rewrite String.eqb_sym. apply model_and_schema_paths_differ.
  - apply read_write_same.
Qed.

Lemma mbind_inv_ok {A B : Type} (c : M A) (k : A -> M B) (w w' : World) (b : B) :
  mbind c k w = (Ok b, w') -> exists a w1, c w = (Ok a, w1) /\ k a w1 = (Ok b, w').
Proof.
  unfold mbind. destruct (c w) as [[a|e] w1]; [|discriminate]. intros H. now exists a, w1.
Qed.

Lemma read_csv_world (path : string) (w : World) : snd (read_csv path w) = w.
Proof. unfold read_csv. now destruct (read_file path (files w)) as [[]|]. Qed.

Lemma dump_ok (b : blob) (path : string) (w w' : World) (u : unit) :
  dump b path w = (Ok u, w') ->
  files w' = write_file path b (files w) /\ default_lags w' = default_lags w.
Proof.
  unfold dump. destruct (write_error (files w) path b) as [[e fs]|]; [discriminate|].
  intros [= _ <-]. now split.
Qed.

(** One step of a completed run: the first computation completed, and the
    rest ran from the world it left. *)
Ltac run_log H :=
  let a := fresh "u" in
  let w1 := fresh "w" in
  let Hc := fresh "Hc" in
  apply mbind_inv_ok in H as (a & w1 & Hc & H);
  unfold logger in Hc; injection Hc as <- <-.

Ltac run_lift H a Hc :=
  let w1 := fresh "w" in
  apply mbind_inv_ok in H as (a & w1 & Hc & H);
  unfold lift in Hc; injection Hc as Hc <-.

Ltac run_step H a w1 Hc :=
  apply mbind_inv_ok in H as (a & w1 & Hc & H).

Ltac run_dump H F :=
  let a := fresh "u" in
  let w1 := fresh "w" in
  let Hc := fresh "Hc" in
  let L := fresh "L" in
  apply mbind_inv_ok in H as (a & w1 & Hc & H);
  apply dump_ok in Hc as [F L].

Ltac run_read_csv H df Hcsv :=
  let w1 := fresh "w" in
  let Hw := fresh "Hw" in
  apply mbind_inv_ok in H as (df & w1 & Hcsv & H);
  match type of Hcsv with
  | read_csv ?p ?w0 = _ => pose proof (read_csv_world p w0) as Hw
  end;
  rewrite Hcsv in Hw; simpl in Hw; subst w1;
  apply (f_equal fst) in Hcsv; simpl in Hcsv.

(** [create_features] inside a run started in [w]: its result is the one it
    has in [w], and it leaves the files alone. *)
Ltac run_features H w out w1 Hcf Hf :=
  apply mbind_inv_ok in H as (out & w1 & Hcf & H);
  match type of Hcf with
  | create_features ?fe ?d ?t ?w0 = _ =>
      pose proof (create_features_keeps_files fe d t w0) as Hf;
      rewrite Hcf in Hf; simpl in Hf;
      apply (f_equal fst) in Hcf; simpl in Hcf;
      rewrite (create_features_same_lags fe d t w0 w eq_refl) in Hcf
  end.

Lemma read_csv_files (path : string) (w w0 : World) :
  files w0 = files w -> fst (read_csv path w0) = fst (read_csv path w).
Proof. intros H. unfold read_csv. rewrite H. now destruct (read_file path (files w)) as [[]|]. Qed.

Lemma anomaly_run_inv (self : ModelTrainer) (data_path model_name : string)
      (w w' : World) (rep : AnomalyReport) :
  train_anomaly_detection_model self data_path model_name w = (Ok rep, w') ->
  exists cols m,
    fitted_by_anomaly_trainer self data_path w cols m
    /\ files w'
       = write_file (path_join (trainer_model_dir self) (model_name ++ "_features.pkl"))
           (FeaturesPickle cols)
           (write_file (path_join (trainer_model_dir self) (model_name ++ ".pkl"))
              (DetectorPickle m) (files w))
    /\ ar_model_path rep = path_join (trainer_model_dir self) (model_name ++ ".pkl")
    /\ ar_feature_path rep
       = path_join (trainer_model_dir self) (model_name ++ "_features.pkl")
    /\ ar_feature_count rep = List.length cols.
Proof.
  unfold train_anomaly_detection_model. intros H.
  run_log H. run_read_csv H df Hcsv.
  rewrite (read_csv_files data_path w) in Hcsv by reflexivity.
  destruct (empty df) eqn:Ee; [discriminate|].
  run_log H. run_features H w out w1 Hcf Hf. cbv zeta in H.
  run_lift H sel Hsel. run_log H. run_lift H m Hfit.
  run_dump H F1. run_dump H F2. run_log H. injection H as <- <-.
  exists (get_feature_columns out true), m. split; [|split; [|repeat split]].
  - exists df, out, sel. repeat split; assumption.
  - simpl. rewrite F2, F1. simpl. now rewrite Hf.
Qed.

Lemma failure_run_inv (self : ModelTrainer) (data_path model_name : string)
      (w w' : World) (rep : FailureReport) :
  train_failure_prediction_model self data_path model_name w = (Ok rep, w') ->
  exists cols m,
    fitted_by_failure_trainer self data_path w cols m
    /\ files w'
       = write_file (path_join (trainer_model_dir self) (model_name ++ "_features.pkl"))
           (FeaturesPickle cols)
           (write_file (path_join (trainer_model_dir self) (model_name ++ ".pkl"))
              (ClassifierPickle m) (files w))
    /\ fr_model_path rep = path_join (trainer_model_dir self) (model_name ++ ".pkl")
    /\ fr_feature_path rep
       = path_join (trainer_model_dir self) (model_name ++ "_features.pkl")
    /\ fr_feature_count rep = List.length cols.
Proof.
  unfold train_failure_prediction_model. intros H.
  run_log H. run_read_csv H df Hcsv.
  rewrite (read_csv_files data_path w) in Hcsv by reflexivity.
  destruct (empty df) eqn:Ee; [discriminate|].
  run_log H. run_features H w out w1 Hcf Hf. cbv zeta in H.
  run_step H labelled w2 Hlab.
  destruct (negb (has_column out "target_failure")) eqn:Et.
  { (* the fallback cannot complete *)
    apply negb_true_iff in Et.
    pose proof (no_label_no_count _ _ _ _ Ee Hcf Et) as Hcount.
    run_log Hlab. run_lift Hlab t Ht.
    unfold synthetic_target, getitem in Ht.
    rewrite (has_column_false_get _ _ Hcount) in Ht. discriminate Ht. }
  unfold ret in Hlab. injection Hlab as <- <-.
  run_lift H sel Hsel. run_lift H y Hy. run_lift H parts Hsplit.
  destruct parts as [[[X_train X_test] y_train] y_test].
  run_log H. run_lift H m Hfit. run_lift H y_pred Hpred. run_lift H accuracy Hacc.
  run_log H. run_log H. run_lift H report Hrep. run_log H.
  run_dump H F1. run_dump H F2. run_log H. injection H as <- <-.
  exists (get_feature_columns out true), m. split; [|split; [|repeat split]].
  - exists df, out, sel, y, X_train, X_test, y_train, y_test. repeat split; assumption.
  - simpl. rewrite F2, F1. simpl. now rewrite Hf.
Qed.

Lemma loads_what_is_stored (dir name : string) (mb : blob) (cols : list string)
      (fs : list (string * blob)) :
  let fs' := write_file (path_join dir (name ++ "_features.pkl")) (FeaturesPickle cols)
               (write_file (path_join dir (name ++ ".pkl")) mb fs) in
  read_file (path_join dir (name ++ ".pkl")) fs' = Some mb
  /\ load_features (path_join dir (name ++ "_features.pkl")) fs' = Some cols.
Proof.
  cbv zeta. destruct (stored_pair dir name mb (FeaturesPickle cols) fs) as [Hm Hs].
  cbv zeta in Hm, Hs. split; [exact Hm|]. unfold load_features. now rewrite Hs.
Qed.

(** X13.  Train, then load.  When the failure trainer completes, the model
    directory holds the classifier the learner fitted on the engineered
    dataset and, as schema, the feature list of that frame; an engine
    created over the directory afterwards loads exactly that classifier
    and that schema.  The schema has as many names as the report counts,
    none of them an identifier, raw-payload or label column. *)
Theorem trained_failure_model_is_loaded (dir data_path : string) (w : World)
        (rep : FailureReport) :
  fst (train_failure_prediction_model (new_trainer dir) data_path "failure_predictor" w)
  = Ok rep ->
  exists self w2 m cols,
    fitted_by_failure_trainer (new_trainer dir) data_path w cols m
    /\ read_file (fr_model_path rep)
         (files (snd (train_failure_prediction_model (new_trainer dir) data_path
                         "failure_predictor" w)))
       = Some (ClassifierPickle m)
    /\ read_file (fr_feature_path rep)
         (files (snd (train_failure_prediction_model (new_trainer dir) data_path
                         "failure_predictor" w)))
       = Some (FeaturesPickle cols)
    /\ new_inference dir
         (snd (train_failure_prediction_model (new_trainer dir) data_path
                 "failure_predictor" w))
       = (Ok self, w2)
    /\ failure_model self = Some m
    /\ failure_features self = Some cols
    /\ List.length cols = fr_feature_count rep
    /\ feature_names_only cols.
Proof.
  intros Hrun.
  destruct (train_failure_prediction_model (new_trainer dir) data_path "failure_predictor" w)
    as [r w1] eqn:E.
  simpl in Hrun. subst r. simpl.
  destruct (failure_run_inv _ _ _ _ _ _ E) as (cols & m & Hfit & Hfiles & Pm & Ps & Hcount).
  destruct (stored_pair (trainer_model_dir (new_trainer dir)) "failure_predictor" (ClassifierPickle m)
              (FeaturesPickle cols) (files w)) as [Hm0 Hs0].
  cbv zeta in Hm0, Hs0. rewrite <- Hfiles in Hm0, Hs0.
  assert (Hm : read_file (path_join dir "failure_predictor.pkl") (files w1) = Some (ClassifierPickle m))
    by exact Hm0.
  assert (Hs : read_file (path_join dir "failure_predictor_features.pkl") (files w1)
               = Some (FeaturesPickle cols)) by exact Hs0.
  destruct (new_inference_fields dir w1) as (w2 & Hnew & _).
  unfold load_classifier, load_features in Hnew. rewrite Hm, Hs in Hnew.
  eexists _, w2, m, cols. split; [exact Hfit|].
  split; [now rewrite Pm|]. split; [now rewrite Ps|]. split; [exact Hnew|]. simpl.
  split; [reflexivity|]. split; [reflexivity|]. split; [now symmetry|].
  destruct Hfit as (df & out & sel & y & X1 & X2 & y1 & y2 & _ & _ & -> & _).
  apply get_feature_columns_names.
Qed.

(** X14.  The same for the anomaly trainer: the detector fitted on the
    engineered dataset and the feature list of that frame are what the run
    stores, and what an engine created over the model directory afterwards
    loads. *)
Theorem trained_anomaly_model_is_loaded (dir data_path : string) (w : World)
        (rep : AnomalyReport) :
  fst (train_anomaly_detection_model (new_trainer dir) data_path "anomaly_detector" w)
  = Ok rep ->
  exists self w2 m cols,
    fitted_by_anomaly_trainer (new_trainer dir) data_path w cols m
    /\ read_file (ar_model_path rep)
         (files (snd (train_anomaly_detection_model (new_trainer dir) data_path
                         "anomaly_detector" w)))
       = Some (DetectorPickle m)
    /\ read_file (ar_feature_path rep)
         (files (snd (train_anomaly_detection_model (new_trainer dir) data_path
                         "anomaly_detector" w)))
       = Some (FeaturesPickle cols)
    /\ new_inference dir
         (snd (train_anomaly_detection_model (new_trainer dir) data_path
                 "anomaly_detector" w))
       = (Ok self, w2)
    /\ anomaly_model self = Some m
    /\ anomaly_features self = Some cols
    /\ List.length cols = ar_feature_count rep
    /\ feature_names_only cols.
Proof.
  intros Hrun.
  destruct (train_anomaly_detection_model (new_trainer dir) data_path "anomaly_detector" w)
    as [r w1] eqn:E.
  simpl in Hrun. subst r. simpl.
  destruct (anomaly_run_inv _ _ _ _ _ _ E) as (cols & m & Hfit & Hfiles & Pm & Ps & Hcount).
  destruct (stored_pair (trainer_model_dir (new_trainer dir)) "anomaly_detector" (DetectorPickle m)
              (FeaturesPickle cols) (files w)) as [Hm0 Hs0].
  cbv zeta in Hm0, Hs0. rewrite <- Hfiles in Hm0, Hs0.
  assert (Hm : read_file (path_join dir "anomaly_detector.pkl") (files w1) = Some (DetectorPickle m))
    by exact Hm0.
  assert (Hs : read_file (path_join dir "anomaly_detector_features.pkl") (files w1)
               = Some (FeaturesPickle cols)) by exact Hs0.
  destruct (new_inference_fields dir w1) as (w2 & Hnew & _).
  unfold load_detector, load_features in Hnew. rewrite Hm, Hs in Hnew.
  eexists _, w2, m, cols. split; [exact Hfit|].
  split; [now rewrite Pm|]. split; [now rewrite Ps|]. split; [exact Hnew|]. simpl.
  split; [reflexivity|]. split; [reflexivity|]. split; [now symmetry|].
  destruct Hfit as (df & out & sel & _ & _ & -> & _).
  apply get_feature_columns_names.
Qed.

(* ------------------------------------------------------------------ *)
(** *** [main] *)

Lemma has_of_keeps (n : string) (d d' : DataFrame) :
  keeps n d d' -> has_column d' n = has_column d n.
Proof. unfold keeps, get_column, has_column. now intros ->. Qed.

Lemma has_to_lags (n : string) (W : nat) (lags : list Z) (df d0 d1 d2 d3 d4 d5 : DataFrame) :
  untouched written_by_basic n = true ->
  untouched written_by_temporal n = true ->
  untouched written_by_rolling n = true ->
  untouched written_by_light n = true ->
  no_lag_name n ->
  sort_values df "timestamp" = Ok d0 ->
  _add_basic_features d0 = Ok d1 ->
  _add_temporal_features d1 = Ok d2 ->
  _add_rolling_features W d2 = Ok d3 ->
  _add_light_features d3 = Ok d4 ->
  _add_lag_features lags d4 = Ok d5 ->
  has_column d5 n = has_column df n.
Proof.
  intros U1 U2 U3 U4 U5 H0 H1 H2 H3 H4 H5.
  rewrite (has_of_keeps n d4 d5) by (eapply lag_features_keeps; eauto).
  rewrite (has_of_keeps n d3 d4) by (eapply light_features_keeps; eauto).
  rewrite (has_of_keeps n d2 d3) by (eapply rolling_features_keeps; eauto).
  rewrite (has_of_keeps n d1 d2) by (eapply temporal_features_keeps; eauto).
  rewrite (has_of_keeps n d0 d1) by (eapply basic_features_keeps; eauto).
  destruct (sorted_frame _ _ H0) as (ts & _ & ->). apply has_take.
Qed.

Lemma label_no_lag_name : no_lag_name "target_failure".
Proof.
  intros col sfx Hin. simpl in Hin. destruct Hin as [<-|[<-|[<-|[]]]]; reflexivity.
Qed.

(** Without the fault count there is no label: the label step of the
    failure kind writes nothing. *)
Lemma no_count_no_label (self : FeatureEngineer) (df out : DataFrame) (w : World) :
  empty df = false ->
  has_column df "faulty_lights_count" = false ->
  has_column df "target_failure" = false ->
  fst (create_features self df (Some "failure") w) = Ok out ->
  has_column out "target_failure" = false.
Proof.
  intros Hne Hcount Hlabel Hcf.
  destruct (create_features_output _ _ _ _ _ Hne Hcf) as (e & He & ->).
  destruct (engineered_steps _ _ _ _ _ He) as (d0 & d1 & d2 & d3 & d4 & d5 &
                                               H0 & H1 & H2 & H3 & H4 & H5 & H6).
  pose proof (has_to_lags "faulty_lights_count" _ _ _ _ _ _ _ _ _ eq_refl eq_refl eq_refl
                eq_refl (source_column_no_lag_name _ ltac:(simpl; auto))
                H0 H1 H2 H3 H4 H5) as Hc5.
  pose proof (has_to_lags "target_failure" _ _ _ _ _ _ _ _ _ eq_refl eq_refl eq_refl
                eq_refl label_no_lag_name H0 H1 H2 H3 H4 H5) as Hl5.
  rewrite Hcount in Hc5. rewrite Hlabel in Hl5.
  cbn [truthy String.eqb negb] in H6. unfold _create_target in H6.
  cbn [String.eqb Ascii.eqb Bool.eqb] in H6. rewrite Hc5 in H6. injection H6 as <-.
  unfold dropna. now rewrite has_take.
Qed.

Lemma failure_trainer_fallback (self : ModelTrainer) (data_path model_name : string)
      (w : World) (content : string) (df out : DataFrame) :
  read_file data_path (files w) = Some (TextFile content) ->
  parse_csv content = Ok df ->
  empty df = false ->
  fst (create_features (trainer_feature_engineer self) df (Some "failure") w) = Ok out ->
  has_column out "target_failure" = false ->
  exists w2,
    train_failure_prediction_model self data_path model_name w
    = (Raise (KeyError "faulty_lights_count"), w2)
    /\ files w2 = files w.
Proof.
  intros Hfile Hcsv Hne Hcf Hno.
  pose proof (no_label_no_count _ _ _ _ Hne Hcf Hno) as Hcount.
  unfold train_failure_prediction_model.
  unfold mbind at 1. unfold logger at 1. cbv iota beta.
  unfold mbind at 1. unfold read_csv. cbn [files]. rewrite Hfile, Hcsv. cbv iota beta.
  rewrite Hne.
  unfold mbind at 1. unfold logger at 1. cbv iota beta.
  match goal with
  | |- context [mbind (create_features ?fe ?d ?t) ?k ?w'] =>
      destruct (run_create_features fe d out t w w' Hcf eq_refl) as (w1 & Hrun & Hfiles);
      unfold mbind at 1; rewrite Hrun; cbv iota beta
  end.
  rewrite Hno. cbn [negb].
  unfold mbind at 1. unfold mbind at 1. unfold logger at 1. cbv iota beta.
  unfold mbind at 1. unfold lift, synthetic_target, getitem.
  rewrite (has_column_false_get _ _ Hcount). cbn [bind]. cbv iota beta.
  eexists. split; [reflexivity|]. simpl. exact Hfiles.
Qed.

Lemma makedirs_ok (path : string) (w w1 : World) :
  makedirs path w = (Ok tt, w1) ->
  default_lags w1 = default_lags w
  /\ (files w1 = files w \/ files w1 = write_file path Directory (files w)).
Proof.
  unfold makedirs. destruct (String.eqb path ""); [discriminate|].
  destruct (read_file path (files w)) as [[]|]; try discriminate.
  - intros [= <-]. split; auto.
  - destruct (write_error (files w) path Directory) as [[e fs']|]; [discriminate|].
    intros [= <-]. split; auto.
Qed.

(** X15.  [main] with model type 'both' on a dataset that feature
    engineering accepts and that has neither a fault count nor a label
    column.  Once the constructor has made sure the model directory exists,
    the failure trainer raises [KeyError] for 'faulty_lights_count', so
    [main] stops there: the anomaly model, which does not need that
    column, is never trained, and the file system is left as the
    constructor left it, that is, as it was or with the model directory
    added. *)
Theorem main_aborts_on_dataset_without_fault_counts
        (data dir content : string) (df out : DataFrame) (w w1 : World) :
  makedirs dir w = (Ok tt, w1) ->
  read_file data (files w1) = Some (TextFile content) ->
  parse_csv content = Ok df ->
  empty df = false ->
  has_column df "faulty_lights_count" = false ->
  has_column df "target_failure" = false ->
  fst (create_features new_engineer df (Some "failure") w1) = Ok out ->
  fst (train_main data "both" dir w) = Raise (KeyError "faulty_lights_count")
  /\ files (snd (train_main data "both" dir w)) = files w1
  /\ (files w1 = files w \/ files w1 = write_file dir Directory (files w)).
Proof.
  intros Hmk Hfile Hcsv Hne Hcount Hlabel Hcf.
  pose proof (no_count_no_label _ _ _ _ Hne Hcount Hlabel Hcf) as Hno.
  set (w2 := snd (logger INFO "Training failure prediction model..." w1)).
  assert (Hcf2 : fst (create_features (trainer_feature_engineer (new_trainer dir)) df
                        (Some "failure") w2) = Ok out).
  { rewrite <- Hcf. apply create_features_same_lags. reflexivity. }
  destruct (failure_trainer_fallback (new_trainer dir) data "failure_predictor" w2 content
              df out Hfile Hcsv Hne Hcf2 Hno) as (w3 & Hrun & Hfiles).
  assert (Hmain : train_main data "both" dir w = (Raise (KeyError "faulty_lights_count"), w3)).
  { unfold train_main, make_trainer.
    erewrite mbind_ok; [|erewrite mbind_ok; [reflexivity|exact Hmk]].
    replace (mem "both" ["failure"; "both"]) with true by reflexivity.
    apply mbind_raise. erewrite mbind_ok; [|reflexivity].
    apply mbind_raise. exact Hrun. }
  rewrite Hmain. split; [reflexivity|]. split; [exact Hfiles|].
  apply (makedirs_ok dir w w1 Hmk).
Qed.

(* ------------------------------------------------------------------ *)
(** *** Collecting readings *)

Lemma extends_refl (df : DataFrame) : extends df df.
Proof. split; [reflexivity|apply grows_refl]. Qed.

Lemma extends_trans (a b c : DataFrame) : extends a b -> extends b c -> extends a c.
Proof. intros [L1 G1] [L2 G2]. split; [congruence|eapply grows_trans; eauto]. Qed.

Lemma extends_setitem (df : DataFrame) (n : string) (s : series) : extends df (setitem df n s).
Proof. split; [reflexivity|apply grows_setitem]. Qed.

Lemma extends_set_at (df : DataFrame) (idx : nat) (n : string) (c : cell) :
  extends df (set_at df idx n c).
Proof.
  unfold set_at. destruct (get_column df n); [apply extends_setitem|apply extends_refl].
Qed.

Lemma fold_extends {A : Type} (F : DataFrame -> A -> DataFrame) (l : list A) :
  (forall d a, extends d (F d a)) -> forall df, extends df (fold_left F l df).
Proof.
  intros HF. induction l as [|a rest IH]; intros df; simpl; [apply extends_refl|].
  eapply extends_trans; [apply HF|apply IH].
Qed.

Lemma for_each_extends {A : Type} (body : DataFrame -> A -> result DataFrame) (l : list A) :
  (forall d a d', body d a = Ok d' -> extends d d') ->
  forall df df', for_each body l df = Ok df' -> extends df df'.
Proof.
  intros Hbody. induction l as [|a rest IH]; intros df df' H; simpl in H.
  - injection H as <-. apply extends_refl.
  - destruct (body df a) as [d|e] eqn:E; simpl in H; [|discriminate].
    eapply extends_trans; eauto.
Qed.

Lemma store_light_extends (idx : nat) (df df' : DataFrame) (light : json) :
  store_light idx df light = Ok df' -> extends df df'.
Proof.
  unfold store_light. intros H.
  destruct light; cbn [bind] in H; try discriminate.
  destruct (match field "id" fields with Some v => v | None => JInt 0 end);
    try discriminate.
  destruct ((1 <=? z)%Z && (z <=? 4)%Z); [|injection H as <-; apply extends_refl].
  cbv zeta in H. unfold get in H. cbn [bind] in H.
  ok_steps.
  repeat (eapply extends_trans; [|apply extends_set_at]). apply extends_refl.
Qed.

Lemma parse_row_extends (df : DataFrame) (idx : nat) :
  ensures (parse_row df idx) (fun df' _ => extends df df').
Proof.
  intros w df' w' H. unfold parse_row in H.
  destruct (cell_at (part df "lights_data") idx) as [[| |]| |]; try discriminate.
  - injection H as <- _. apply extends_refl.
  - destruct (json_loads _) as [lights|e].
    + unfold lift in H. injection H as H _.
      destruct (iterate lights) as [items|]; cbn [bind] in H; [|discriminate].
      revert H. apply for_each_extends. intros d a d'. apply store_light_extends.
    + injection H as <- _. apply extends_refl.
Qed.

Lemma mfor_each_extends {A : Type} (body : DataFrame -> A -> M DataFrame) (l : list A) :
  (forall d a, ensures (body d a) (fun d' _ => extends d d')) ->
  forall df, ensures (mfor_each body l df) (fun df' _ => extends df df').
Proof.
  intros Hbody. induction l as [|a rest IH]; intros df w df' w' H; simpl in H.
  - injection H as <- _. apply extends_refl.
  - unfold mbind in H. destruct (body df a w) as [[d|e] w1] eqn:E; [|discriminate].
    eapply extends_trans; [exact (Hbody _ _ _ _ _ E)|exact (IH _ _ _ _ H)].
Qed.

Lemma parse_lights_data_extends (df : DataFrame) :
  ensures (_parse_lights_data df) (fun df' _ => extends df df').
Proof.
  intros w df' w' H. unfold _parse_lights_data in H. cbv zeta in H.
  eapply extends_trans; [|exact (mfor_each_extends _ _ parse_row_extends _ _ _ _ H)].
  apply fold_extends. intros d i. apply fold_extends. intros d' f. apply extends_setitem.
Qed.

Lemma collect_device_data_outcome
        (device_id : string) (start_date end_date : option Z) (min_readings : Z)
        (w : World) (out : DataFrame) :
  fst (collect_device_data device_id start_date end_date min_readings w) = Ok out ->
  out = empty_frame
  \/ exists range df,
       read_sql device_id (fst range) (snd range) = Ok df
       /\ (min_readings <= Z.of_nat (len out))%Z
       /\ len out = len df
       /\ grows df out.
Proof.
  unfold collect_device_data, mbind at 1.
  destruct (date_range start_date end_date w) as [[range|e] w1]; [|discriminate].
  unfold mbind at 1, lift.
  destruct (read_sql device_id (fst range) (snd range)) as [df|e] eqn:Esql; [|discriminate].
  destruct (Z.of_nat (len df) <? min_readings)%Z eqn:Emin.
  - intros H. left. simpl in H. now injection H as <-.
  - apply Z.ltb_ge in Emin. intros H. right. exists range, df.
    unfold mbind at 1 in H.
    assert (Hext : forall d w2,
               (if has_column df "lights_data" && negb (all_null (part df "lights_data"))
                then _parse_lights_data df else ret df) w1 = (Ok d, w2) -> extends df d).
    { intros d w2. destruct (has_column df "lights_data" && negb _).
      - apply parse_lights_data_extends.
      - intros [= <- _]. apply extends_refl. }
    destruct ((if has_column df "lights_data" && negb (all_null (part df "lights_data"))
               then _parse_lights_data df else ret df) w1) as [[d|e] w2]; [|discriminate].
    simpl in H. injection H as <-. destruct (Hext d w2 eq_refl) as [Hlen Hg].
    unfold len in *. rewrite Hlen. auto.
Qed.

(** X16.  [collect_device_data] never hands back a short history: when it
    completes, its result is the empty frame or a frame with as many rows
    as the query returned, at least [min_readings] of them, and with every
    column of the query result. *)
Theorem collected_frame_is_empty_or_sufficient
        (device_id : string) (start_date end_date : option Z) (min_readings : Z)
        (w : World) (out : DataFrame) :
  fst (collect_device_data device_id start_date end_date min_readings w) = Ok out ->
  out = empty_frame
  \/ exists range df,
       read_sql device_id (fst range) (snd range) = Ok df
       /\ (min_readings <= Z.of_nat (len out))%Z
       /\ len out = len df
       /\ grows df out.
Proof. apply collect_device_data_outcome. Qed.

(* ------------------------------------------------------------------ *)
(** *** Building the training dataset *)

Lemma keeps_files_utcnow : keeps_files utcnow.
Proof. now intros w. Qed.

Lemma keeps_files_mfor_each {A S : Type} (body : S -> A -> M S) (l : list A) :
  (forall s a, keeps_files (body s a)) -> forall s, keeps_files (mfor_each body l s).
Proof.
  intros Hbody. induction l as [|a rest IH]; intros s; simpl.
  - apply keeps_files_ret.
  - apply keeps_files_mbind; auto.
Qed.

Lemma keeps_files_parse_row (df : DataFrame) (idx : nat) : keeps_files (parse_row df idx).
Proof.
  unfold parse_row.
  destruct (cell_at (part df "lights_data") idx) as [[| |]| |]; auto with world.
  destruct (json_loads _); auto with world.
Qed.

Lemma keeps_files_parse_lights_data (df : DataFrame) : keeps_files (_parse_lights_data df).
Proof.
  unfold _parse_lights_data. cbv zeta. apply keeps_files_mfor_each.
  intros s a. apply keeps_files_parse_row.
Qed.

Lemma keeps_files_collect_device_data (device_id : string) (start_date end_date : option Z)
      (min_readings : Z) :
  keeps_files (collect_device_data device_id start_date end_date min_readings).
Proof.
  unfold collect_device_data, date_range.
  pose proof keeps_files_utcnow. pose proof keeps_files_parse_lights_data.
  repeat first
    [ apply keeps_files_mbind; [|intros]
    | match goal with
      | |- keeps_files (match ?x with _ => _ end) => destruct x
      end
    | solve [auto with world] ].
Qed.

Lemma sufficient_or_empty (device_id : string) (start_date end_date : option Z)
      (w : World) (df : DataFrame) :
  fst (collect_device_data device_id start_date end_date 100 w) = Ok df ->
  empty df = false -> 100 <= len df.
Proof.
  intros H Hne. destruct (collect_device_data_outcome _ _ _ _ _ _ H) as [->|(r & d & _ & Hmin & _)].
  - discriminate.
  - lia.
Qed.

Lemma mfor_each_invariant {A S : Type} (body : S -> A -> M S) (I : S -> Prop) (l : list A) :
  (forall s a, In a l -> I s -> ensures (body s a) (fun s' _ => I s')) ->
  forall s, I s -> ensures (mfor_each body l s) (fun s' _ => I s').
Proof.
  induction l as [|a rest IH]; intros Hbody s Hs w s' w' H; simpl in H.
  - now injection H as <- _.
  - unfold mbind in H. destruct (body s a w) as [[s1|e] w1] eqn:E; [|discriminate].
    refine (IH _ s1 _ w1 s' w' H).
    + intros s2 b Hb. apply Hbody. now right.
    + exact (Hbody s a (or_introl eq_refl) Hs w s1 w1 E).
Qed.

Lemma In_dict_set (key k : string) (df d : DataFrame) (all : list (string * DataFrame)) :
  In (k, d) (dict_set key df all) -> (k = key /\ d = df) \/ In (k, d) all.
Proof.
  induction all as [|[k0 d0] rest IH]; simpl.
  - intros [[= <- <-]|[]]. now left.
  - destruct (String.eqb k0 key) eqn:E; simpl.
    + apply String.eqb_eq in E. subst k0. intros [[= <- <-]|H]; auto.
    + intros [H|H]; auto. destruct (IH H); auto.
Qed.

Lemma keys_dict_set (key : string) (df : DataFrame) (all : list (string * DataFrame)) :
  map fst (dict_set key df all)
  = if mem key (map fst all) then map fst all else (map fst all ++ [key])%list.
Proof.
  unfold mem. induction all as [|[k0 d0] rest IH]; simpl; [reflexivity|].
  rewrite (String.eqb_sym key k0). destruct (String.eqb k0 key) eqn:E; simpl; [reflexivity|].
  rewrite IH. now destruct (existsb (String.eqb key) (map fst rest)).
Qed.

Lemma NoDup_dict_set (key : string) (df : DataFrame) (all : list (string * DataFrame)) :
  NoDup (map fst all) -> NoDup (map fst (dict_set key df all)).
Proof.
  intros H. rewrite keys_dict_set. destruct (mem key (map fst all)) eqn:E; [exact H|].
  apply NoDup_app; [exact H|repeat constructor; intros []|].
  intros k Hk [Hkey|[]]. subst k. unfold mem in E.
  assert (existsb (String.eqb key) (map fst all) = true); [|congruence].
  apply existsb_exists. exists key. split; [exact Hk|apply String.eqb_refl].
Qed.

(** X17.  The dict [collect_all_devices_data] returns has one entry per
    key, every key is one of the device ids the database listed, and every
    frame in it is non-empty and has at least one hundred rows: devices
    with too little data are left out. *)
Theorem all_devices_frames_are_sufficient (start_date end_date : option Z) (w : World)
        (all_data : list (string * DataFrame)) :
  fst (collect_all_devices_data start_date end_date w) = Ok all_data ->
  exists device_ids,
    read_device_ids = Ok device_ids
    /\ NoDup (map fst all_data)
    /\ forall k df, In (k, df) all_data ->
                    In k device_ids /\ empty df = false /\ 100 <= len df.
Proof.
  unfold collect_all_devices_data, mbind at 1, lift.
  destruct read_device_ids as [ids|e]; [|discriminate]. intros H. exists ids.
  split; [reflexivity|]. unfold mbind at 1 in H.
  set (I := fun all : list (string * DataFrame) =>
              NoDup (map fst all)
              /\ forall k df, In (k, df) all ->
                              In k ids /\ empty df = false /\ 100 <= len df).
  match type of H with
  | context [mfor_each ?body ids []] =>
      assert (Hloop : ensures (mfor_each body ids []) (fun s' _ => I s'))
  end.
  { apply mfor_each_invariant.
    - intros s a Ha [Hnd Hs] w0 s' w0' Hbody. unfold mbind in Hbody.
      destruct (collect_device_data a start_date end_date 100 w0) as [[d|e] w1] eqn:E;
        [|discriminate].
      destruct (negb (empty d)) eqn:Ed; injection Hbody as <- _; [|now split].
      apply negb_true_iff in Ed. split; [now apply NoDup_dict_set|].
      intros k df Hin. apply In_dict_set in Hin as [[-> ->]|Hin]; [|now apply Hs].
      repeat split; auto.
      apply (sufficient_or_empty a start_date end_date w0); [now rewrite E|exact Ed].
    - split; [constructor|intros k df []]. }
  match type of H with
  | context [mfor_each ?body ids [] ?w0] =>
      destruct (mfor_each body ids [] w0) as [[all|e] w1] eqn:E; [|discriminate]
  end.
  simpl in H. injection H as <-. exact (Hloop _ _ _ E).
Qed.

Lemma no_slash_drop (l : list ascii) :
  forallb (fun c => negb (Ascii.eqb c "/")) l = true -> drop_until_slash l = [].
Proof.
  induction l as [|c l IH]; simpl; [reflexivity|]. intros H.
  apply andb_prop in H as [Hc Hl]. apply negb_true_iff in Hc. rewrite Hc. auto.
Qed.

Lemma dirname_without_slash (path : string) :
  forallb (fun c => negb (Ascii.eqb c "/")) (list_ascii_of_string path) = true ->
  dirname path = "".
Proof.
  intros H. unfold dirname. rewrite no_slash_drop; [reflexivity|].
  rewrite forallb_forall in *. intros c Hc. apply H. now apply in_rev.
Qed.

(** X18.  [create_training_dataset] for one device, called with an output
    path that has no directory part (no slash): once data have been
    collected, the [os.makedirs] of the empty directory name raises
    [FileNotFoundError], and no file is written. *)
Theorem dataset_path_needs_a_directory
        (device_id output_path : string) (start_date end_date : option Z)
        (w : World) (df : DataFrame) :
  truthy (Some device_id) = true ->
  forallb (fun c => negb (Ascii.eqb c "/")) (list_ascii_of_string output_path) = true ->
  fst (collect_device_data device_id start_date end_date 100 w) = Ok df ->
  empty df = false ->
  fst (create_training_dataset (Some device_id) output_path start_date end_date w)
  = Raise (mk_exn "FileNotFoundError" "[Errno 2] No such file or directory: ''")
  /\ files (snd (create_training_dataset (Some device_id) output_path start_date end_date w))
     = files w.
Proof.
  intros Hid Hpath Hcollect Hne. unfold create_training_dataset. rewrite Hid.
  pose proof (keeps_files_collect_device_data device_id start_date end_date 100 w) as Hfiles.
  unfold mbind.
  destruct (collect_device_data device_id start_date end_date 100 w) as [[d|e] w1];
    simpl in Hcollect; [|discriminate].
  injection Hcollect as ->. simpl in Hfiles.
  unfold save_dataset. rewrite Hne, (dirname_without_slash _ Hpath).
  unfold mbind, makedirs. simpl. auto.
Qed.

(** X19.  [create_training_dataset] for one device, when it completes:
    either it returns the empty frame and leaves the file system alone, or
    it returns a non-empty frame of at least one hundred rows whose CSV
    text is then the content of the output file. *)
Theorem dataset_is_written_when_collected
        (device_id output_path : string) (start_date end_date : option Z)
        (w w' : World) (out : DataFrame) :
  truthy (Some device_id) = true ->
  create_training_dataset (Some device_id) output_path start_date end_date w = (Ok out, w') ->
  (out = empty_frame /\ files w' = files w)
  \/ (empty out = false /\ 100 <= len out
      /\ read_file output_path (files w') = Some (TextFile (to_csv out))).
Proof.
  intros Hid. unfold create_training_dataset. rewrite Hid.
  pose proof (keeps_files_collect_device_data device_id start_date end_date 100 w) as Hfiles.
  pose proof (sufficient_or_empty device_id start_date end_date w) as Hmin.
  unfold mbind at 1.
  destruct (collect_device_data device_id start_date end_date 100 w) as [[d|e] w1];
    [|discriminate].
  simpl in Hfiles. specialize (Hmin d eq_refl).
  unfold save_dataset. destruct (empty d) eqn:Ed.
  - simpl. intros [= <- <-]. left. auto.
  - intros H. run_step H u w2 Hmk. run_dump H F. run_log H. run_log H.
    injection H as <- <-. right. repeat split; auto.
    simpl. rewrite F. apply read_write_same.
Qed.

(* ------------------------------------------------------------------ *)
(** *** Decoding the per-light payload *)

Lemma keeps_refl (n : string) (df : DataFrame) : keeps n df df.
Proof. reflexivity. Qed.

Lemma set_at_keeps (n name : string) (df : DataFrame) (idx : nat) (c : cell) :
  String.eqb name n = false -> keeps n df (set_at df idx name c).
Proof.
  intros Hne. unfold set_at. destruct (get_column df name); [|reflexivity].
  unfold keeps. now apply get_setitem_other.
Qed.

Lemma fold_keeps {A : Type} (n : string) (F : DataFrame -> A -> DataFrame) (l : list A) :
  (forall d a, keeps n d (F d a)) -> forall df, keeps n df (fold_left F l df).
Proof.
  intros HF. induction l as [|a rest IH]; intros df; simpl; [reflexivity|].
  eapply keeps_trans; [apply HF|apply IH].
Qed.

Lemma store_light_keeps_payload (idx : nat) (df df' : DataFrame) (light : json) :
  store_light idx df light = Ok df' -> keeps "lights_data" df df'.
Proof.
  unfold store_light. intros H.
  destruct light; cbn [bind] in H; try discriminate.
  destruct (match field "id" fields with Some v => v | None => JInt 0 end);
    try discriminate.
  destruct ((1 <=? z)%Z && (z <=? 4)%Z); [|injection H as <-; reflexivity].
  cbv zeta in H. unfold get in H. cbn [bind] in H.
  ok_steps.
  repeat (eapply keeps_trans; [|apply set_at_keeps; reflexivity]). reflexivity.
Qed.

Lemma parse_row_keeps_payload (df : DataFrame) (idx : nat) :
  ensures (parse_row df idx) (fun df' _ => keeps "lights_data" df df').
Proof.
  intros w df' w' H. unfold parse_row in H.
  destruct (cell_at (part df "lights_data") idx) as [[| |]| |]; try discriminate.
  - injection H as <- _. reflexivity.
  - destruct (json_loads _) as [lights|e].
    + unfold lift in H. injection H as H _.
      destruct (iterate lights) as [items|]; cbn [bind] in H; [|discriminate].
      revert H. apply for_each_keeps. intros d a d'. apply store_light_keeps_payload.
    + injection H as <- _. reflexivity.
Qed.

Lemma same_payload (df d : DataFrame) :
  keeps "lights_data" df d -> index_len d = index_len df ->
  part d "lights_data" = part df "lights_data".
Proof. unfold keeps, part. now intros -> ->. Qed.

Lemma blank_columns_flat (blank : series) (df : DataFrame) :
  fold_left (fun df i =>
               fold_left (fun df f => setitem df (light_col i f) blank) light_fields df)
            (seq 0 4) df
  = fold_left (fun d m => setitem d m blank) light_columns df.
Proof. reflexivity. Qed.

Lemma light_column_is_not_payload (n : string) :
  In n light_columns -> String.eqb n "lights_data" = false.
Proof.
  intros H. unfold light_columns in H. apply in_flat_map in H as (i & _ & H).
  apply in_map_iff in H as (f & <- & _). reflexivity.
Qed.

Lemma blank_frame_payload (blank : series) (df : DataFrame) :
  let d := fold_left (fun d m => setitem d m blank) light_columns df in
  keeps "lights_data" df d /\ index_len d = index_len df.
Proof.
  cbv zeta. generalize light_column_is_not_payload.
  generalize light_columns as names. intros names Hnames. revert df.
  induction names as [|m rest IH]; intros df; simpl; [now split|].
  destruct (IH (fun n Hn => Hnames n (or_intror Hn)) (setitem df m blank)) as [K L].
  split; [|exact L]. unfold keeps in *. rewrite K.
  apply get_setitem_other. apply Hnames. now left.
Qed.

Lemma loop_aborts (df0 : DataFrame) (idx : nat) (text : string) (v : json) (e : exn) :
  cell_at (part df0 "lights_data") idx = Str text ->
  json_loads text = Ok v ->
  iterate v = Raise e ->
  forall l, In idx l ->
  forall d w, keeps "lights_data" df0 d -> index_len d = index_len df0 ->
  exists e' w', mfor_each parse_row l d w = (Raise e', w').
Proof.
  intros Hcell Hloads Hiter. induction l as [|a rest IH]; intros Hin d w K L; [destruct Hin|].
  simpl. unfold mbind. destruct (Nat.eq_dec a idx) as [->|Hne].
  - unfold parse_row. rewrite (same_payload _ _ K L), Hcell, Hloads.
    unfold lift. rewrite Hiter. cbn [bind]. eauto.
  - destruct Hin as [Ha|Hin]; [now elim Hne|].
    destruct (parse_row d a w) as [[d1|e1] w1] eqn:E; [|eauto].
    apply IH; [exact Hin| |].
    + eapply keeps_trans; [exact K|exact (parse_row_keeps_payload _ _ _ _ _ E)].
    + destruct (parse_row_extends _ _ _ _ _ E) as [L1 _]. congruence.
Qed.

(** X20.  Only text that fails to decode is tolerated.  When one row's
    [lights_data] decodes to JSON that cannot be iterated (a number, a
    boolean, null), [_parse_lights_data] raises: the [TypeError] is not
    among the caught exceptions, so the whole frame is lost. *)
Theorem payload_that_is_no_list_aborts_parsing
        (df : DataFrame) (idx : nat) (text : string) (v : json) (e : exn) (w : World) :
  idx < index_len df ->
  cell_at (part df "lights_data") idx = Str text ->
  json_loads text = Ok v ->
  iterate v = Raise e ->
  exists e' w', _parse_lights_data df w = (Raise e', w').
Proof.
  intros Hidx Hcell Hloads Hiter. unfold _parse_lights_data. cbv zeta.
  rewrite blank_columns_flat.
  destruct (blank_frame_payload (repeat null (index_len df)) df) as [K L].
  cbv zeta in K, L. rewrite L.
  apply (loop_aborts df idx text v e Hcell Hloads Hiter); auto.
  apply in_seq. lia.
Qed.

Lemma loop_skips (body : DataFrame -> nat -> M DataFrame) (d : DataFrame) (l : list nat) :
  (forall idx w, In idx l -> exists w', body d idx w = (Ok d, w') /\ files w' = files w) ->
  forall w, exists w', mfor_each body l d w = (Ok d, w') /\ files w' = files w.
Proof.
  induction l as [|a rest IH]; intros Hbody w; simpl.
  - exists w. now split.
  - unfold mbind. destruct (Hbody a w (or_introl eq_refl)) as (w1 & -> & F1).
    destruct (IH (fun idx w0 H => Hbody idx w0 (or_intror H)) w1) as (w2 & -> & F2).
    exists w2. split; [reflexivity|congruence].
Qed.

Lemma fold_blank_other (blank : series) (n : string) (names : list string) :
  ~ In n names ->
  forall df, get_column (fold_left (fun d m => setitem d m blank) names df) n
             = get_column df n.
Proof.
  induction names as [|m rest IH]; intros Hn df; simpl; [reflexivity|].
  rewrite IH by (intros H; apply Hn; now right).
  apply get_setitem_other. apply String.eqb_neq. intros ->. apply Hn. now left.
Qed.

Lemma fold_blank_get (blank : series) (n : string) (names : list string) :
  In n names ->
  forall df, get_column (fold_left (fun d m => setitem d m blank) names df) n = Some blank.
Proof.
  induction names as [|m rest IH]; intros Hn df; simpl; [destruct Hn|].
  destruct (in_dec string_dec n rest) as [Hin|Hout]; [now apply IH|].
  destruct Hn as [->|Hn]; [|now elim Hout].
  rewrite fold_blank_other by exact Hout. apply get_setitem_same.
Qed.

(** X21.  When every [lights_data] cell is null or text that the JSON
    decoder rejects, [_parse_lights_data] completes: it returns the frame
    with its rows and columns as they were, plus the twenty light columns,
    each entirely null, and it writes no file. *)
Theorem undecodable_payloads_are_skipped (df : DataFrame) (w : World) :
  (forall idx, idx < index_len df ->
               cell_at (part df "lights_data") idx = null
               \/ exists text e, cell_at (part df "lights_data") idx = Str text
                                 /\ json_loads text = Raise e) ->
  exists out w',
    _parse_lights_data df w = (Ok out, w')
    /\ files w' = files w
    /\ index_len out = index_len df
    /\ (forall n, In n light_columns ->
                  get_column out n = Some (repeat null (index_len df)))
    /\ (forall n, ~ In n light_columns -> get_column out n = get_column df n).
Proof.
  intros Hrows. unfold _parse_lights_data. cbv zeta. rewrite blank_columns_flat.
  set (blank := repeat null (index_len df)).
  destruct (blank_frame_payload blank df) as [K L]. cbv zeta in K, L.
  set (d := fold_left (fun d m => setitem d m blank) light_columns df) in *.
  destruct (loop_skips parse_row d (seq 0 (index_len d))) with (w := w) as (w' & Hrun & Hfiles).
  { intros idx w0 Hin. apply in_seq in Hin. rewrite L in Hin.
    unfold parse_row. rewrite (same_payload _ _ K L).
    destruct (Hrows idx ltac:(lia)) as [->|(text & e & -> & ->)].
    - exists w0. now split.
    - eexists. split; reflexivity. }
  exists d, w'. split; [exact Hrun|]. split; [exact Hfiles|]. split; [exact L|].
  split; intros n Hn.
  - now apply fold_blank_get.
  - now apply fold_blank_other.
Qed.

(* ------------------------------------------------------------------ *)
(** *** The history the service reads *)






Lemma history_frame_well_formed (rows : list SensorData) :
  well_formed (history_frame rows) = true.
Proof. unfold well_formed, history_frame. simpl. now rewrite !length_map, Nat.eqb_refl. Qed.

Lemma get_historical_data_run (db : Session) (device_id : string) (hours : Z) (w : World) :
  exists r w',
    _get_historical_data db device_id hours w = (Ok r, w')
    /\ files w' = files w /\ default_lags w' = default_lags w
    /\ r = match query_recent db device_id (clock w (ticks w) - hours * ns_per_hour)%Z with
           | Ok (x :: rest) => Some (history_frame (x :: rest))
           | _ => None
           end.
Proof.
  unfold _get_historical_data, try_except, mbind, utcnow, lift. cbv zeta.
  destruct (query_recent db device_id _) as [[|x rest]|e]; eexists _, _; repeat split.
Qed.


(* ------------------------------------------------------------------ *)
(** *** Storing the predictions *)

Lemma store_predictions_run (db : Session) (device_id : string) (p : Predictions)
      (w : World) :
  exists db' w' t1 t2,
    _store_predictions db device_id p w = (Ok db', w')
    /\ sensor_table db' = sensor_table db
    /\ pending db' = []
    /\ prediction_table db'
       = match commit_error
                 (mk_session (sensor_table db) (prediction_table db)
                    (pending db ++ stored_records device_id p t1 t2)) with
         | None => (prediction_table db ++ pending db
                    ++ stored_records device_id p t1 t2)%list
         | Some _ => prediction_table db
         end.
Proof.
  destruct db as [st pt pe]. destruct p as [[f|mf] [a|ma]];
    unfold _store_predictions, stored_records, try_except, mbind, utcnow, ret, lift, commit, add;
    simpl; rewrite <- ?app_assoc, ?app_nil_r; simpl;
    match goal with
    | |- context [commit_error ?X] => destruct (commit_error X) eqn:E
    end;
    simpl.
  1, 2: eexists _, _, (clock w (ticks w)), (clock w (S (ticks w))).
  3, 4: eexists _, _, (clock w (ticks w)), 0%Z.
  5, 6: eexists _, _, 0%Z, (clock w (ticks w)).
  7, 8: eexists _, _, 0%Z, 0%Z.
  all: (split; [reflexivity|]); (split; [reflexivity|]); (split; [reflexivity|]);
    simpl; rewrite ?app_nil_r, ?E; reflexivity.
Qed.

(** X23.  [_store_predictions] never raises and leaves nothing pending in
    the session.  The stored readings are untouched.  If the commit
    succeeds the prediction table gains the rows that were pending and
    one row per entry that is not an error entry, in the order failure,
    anomaly; if the commit is refused the table is as before. *)
Theorem store_predictions_is_all_or_nothing (db : Session) (device_id : string)
        (p : Predictions) (w : World) :
  exists db' w' t1 t2,
    _store_predictions db device_id p w = (Ok db', w')
    /\ sensor_table db' = sensor_table db
    /\ pending db' = []
    /\ prediction_table db'
       = match commit_error
                 (mk_session (sensor_table db) (prediction_table db)
                    (pending db ++ stored_records device_id p t1 t2)) with
         | None => (prediction_table db ++ pending db
                    ++ stored_records device_id p t1 t2)%list
         | Some _ => prediction_table db
         end.
Proof. apply store_predictions_run. Qed.

(* ------------------------------------------------------------------ *)
(** *** One reading through the service *)

Lemma generate_predictions_run (inference : MLInference) (db : Session)
      (device_id : string) (sensor_data : list (string * cell)) (w : World) :
  exists h w1 p w2 db' w3 t1 t2,
    _get_historical_data db device_id 1 w = (Ok h, w1)
    /\ default_lags w1 = default_lags w
    /\ predict inference sensor_data h w1 = (Ok p, w2)
    /\ fst (predict_failure inference sensor_data h w1) = Ok (failure p)
    /\ fst (detect_anomaly inference sensor_data h
              (snd (predict_failure inference sensor_data h w1))) = Ok (anomaly p)
    /\ generate_predictions inference db device_id sensor_data w
       = (Ok (Result p, db'), w3)
    /\ sensor_table db' = sensor_table db
    /\ pending db' = []
    /\ prediction_table db'
       = match commit_error
                 (mk_session (sensor_table db) (prediction_table db)
                    (pending db ++ stored_records device_id p t1 t2)) with
         | None => (prediction_table db ++ pending db
                    ++ stored_records device_id p t1 t2)%list
         | Some _ => prediction_table db
         end.
Proof.
  destruct (get_historical_data_run db device_id 1 w) as (h & w1 & Hh & _ & Hl & _).
  destruct (predict_run inference sensor_data h w1) as (f & a & Hf & Ha & Hp).
  cbv zeta in Ha, Hp.
  set (w2 := snd (detect_anomaly inference sensor_data h
                    (snd (predict_failure inference sensor_data h w1)))) in *.
  destruct (store_predictions_run db device_id (mk_predictions f a) w2)
    as (db' & w3 & t1 & t2 & Hs & Hst & Hpe & Hpt).
  exists h, w1, (mk_predictions f a), w2, db', w3, t1, t2.
  repeat (split; [assumption|]).
  split; [|auto].
  unfold generate_predictions, try_except.
  rewrite (mbind_ok _ _ _ _ _ Hh), (mbind_ok _ _ _ _ _ Hp), (mbind_ok _ _ _ _ _ Hs).
  reflexivity.
Qed.

Lemma sensor_dict_has_no_timestamp (self : FeatureEngineer) (data : Reading) (w : World) :
  fst (create_features self (context_frame (sensor_dict data) None) None w)
  = Raise (KeyError "timestamp").
Proof. rewrite create_features_result. reflexivity. Qed.

Lemma failure_entry_message (self : MLInference) (sensor_data : list (string * cell))
      (historical_data : option DataFrame) (w : World) (e : exn) :
  fst (create_features (feature_engineer self) (context_frame sensor_data historical_data)
         None w) = Raise e ->
  fst (predict_failure self sensor_data historical_data w)
  = Ok (Error (error_entry_message (failure_model self) e)).
Proof.
  intros H. destruct (failure_model self) as [m|] eqn:Em.
  - now apply (failure_entry_of_engineering_error self m).
  - unfold predict_failure. now rewrite Em.
Qed.

Lemma anomaly_entry_message (self : MLInference) (sensor_data : list (string * cell))
      (historical_data : option DataFrame) (w : World) (e : exn) :
  fst (create_features (feature_engineer self) (context_frame sensor_data historical_data)
         None w) = Raise e ->
  fst (detect_anomaly self sensor_data historical_data w)
  = Ok (Error (error_entry_message (anomaly_model self) e)).
Proof.
  intros H. destruct (anomaly_model self) as [m|] eqn:Em.
  - now apply (anomaly_entry_of_engineering_error self m).
  - unfold detect_anomaly. now rewrite Em.
Qed.

(** X24.  A reading as [create_sensor_data] passes it (no 'timestamp' key)
    for a device without recent history is never scored: sorting on the
    missing column raises [KeyError], so both entries of the record are
    error entries (''timestamp'' for a loaded model, 'Model not loaded'
    otherwise), and with nothing pending in the session the prediction
    table stays as it was. *)
Theorem reading_without_history_is_never_scored
        (inference : MLInference) (db : Session) (device_id : string) (data : Reading)
        (w : World) :
  fst (_get_historical_data db device_id 1 w) = Ok None ->
  pending db = [] ->
  exists p db' w',
    generate_predictions inference db device_id (sensor_dict data) w
    = (Ok (Result p, db'), w')
    /\ failure p
       = Error (error_entry_message (failure_model inference) (KeyError "timestamp"))
    /\ anomaly p
       = Error (error_entry_message (anomaly_model inference) (KeyError "timestamp"))
    /\ prediction_table db' = prediction_table db.
Proof.
  intros Hnone Hpending.
  destruct (generate_predictions_run inference db device_id (sensor_dict data) w)
    as (h & w1 & p & w2 & db' & w3 & t1 & t2 & Hh & _ & _ & Hf & Ha & Hrun & _ & _ & Hpt).
  rewrite Hh in Hnone. simpl in Hnone. injection Hnone as ->.
  rewrite (failure_entry_message inference _ None w1 _
             (sensor_dict_has_no_timestamp _ data w1)) in Hf.
  rewrite (anomaly_entry_message inference _ None _ _
             (sensor_dict_has_no_timestamp _ data _)) in Ha.
  injection Hf as Hf. injection Ha as Ha.
  exists p, db', w3. split; [exact Hrun|]. split; [now symmetry|]. split; [now symmetry|].
  unfold stored_records in Hpt. rewrite <- Hf, <- Ha, Hpending in Hpt. simpl in Hpt.
  rewrite Hpt. destruct (commit_error _); [reflexivity|apply app_nil_r].
Qed.

(* ------------------------------------------------------------------ *)
(** *** The reading's own row *)

Lemma to_datetime_nth (s : series) :
  forall dt i, to_datetime s = Ok dt ->
  (nth i s null = null -> nth i dt None = None)
  /\ (forall t, nth i s null = Stamp t -> nth i dt None = Some t).
Proof.
  induction s as [|c rest IH]; intros dt i H; simpl in H.
  - injection H as <-. split; [now destruct i|]. intros t Ht. now destruct i.
  - match type of H with
    | match ?x with Ok _ => _ | Raise _ => _ end = _ => destruct x as [t0|] eqn:Ec; [|discriminate]
    end.
    destruct (to_datetime rest) as [ts|] eqn:Er; cbn [bind] in H; [|discriminate].
    injection H as <-. destruct i as [|i]; simpl.
    + split.
      * intros ->. now injection Ec as <-.
      * intros t ->. now injection Ec as <-.
    + apply (IH ts i eq_refl).
Qed.

Lemma null_cell_drops_row (e : DataFrame) (n : string) (s : series) (j : nat) :
  get_column e n = Some s -> cell_at s j = null -> row_complete e j = false.
Proof.
  intros Hs Hj. destruct (lookup_In _ _ _ Hs) as [m Hm].
  unfold row_complete. apply not_true_is_false. intros H.
  rewrite forallb_forall in H. specialize (H _ Hm). simpl in H. now rewrite Hj in H.
Qed.

Lemma In_fold_insert (key : nat -> cell) (k : nat) :
  forall l acc, In k (fold_left (fun acc i => insert_by key i acc) l acc)
                <-> In k l \/ In k acc.
Proof.
  induction l as [|i l IH]; intros acc; simpl.
  - intuition.
  - rewrite IH, In_insert_by. intuition.
Qed.

Lemma insert_by_greatest (key : nat -> cell) (k : nat) (l : list nat) :
  (forall j, In j l -> cell_leb (key j) (key k) = true) ->
  insert_by key k l = (l ++ [k])%list.
Proof.
  induction l as [|j l IH]; simpl; intros H; [reflexivity|].
  rewrite H by auto. f_equal. apply IH. auto.
Qed.

Lemma cell_leb_to_null (c : cell) : cell_leb c null = true.
Proof. destruct c as [[]| |]; reflexivity. Qed.

(** A null in the last position stays last when the series is sorted. *)
Lemma argsort_null_last (s : series) :
  exists p, argsort (s ++ [null])%list = (p ++ [List.length s])%list
            /\ List.length p = List.length s
            /\ forall i, i < List.length s -> nth i p 0 < List.length s.
Proof.
  pose proof (argsort_length (s ++ [null])%list) as Hlen.
  unfold argsort in *. rewrite length_app in *. simpl in *.
  rewrite Nat.add_1_r in *. rewrite seq_S, fold_left_app in *. simpl in *.
  set (p := fold_left (fun acc i => insert_by (cell_at (s ++ [null])%list) i acc)
                      (seq 0 (List.length s)) []) in *.
  assert (Hin : forall k, In k p -> k < List.length s).
  { intros k Hk. apply In_fold_insert in Hk as [Hk|[]]. apply in_seq in Hk. lia. }
  assert (Hlast : insert_by (cell_at (s ++ [null])%list) (List.length s) p
                  = (p ++ [List.length s])%list).
  { apply insert_by_greatest. intros j _. unfold cell_at at 2.
    rewrite app_nth2, Nat.sub_diag by lia. apply cell_leb_to_null. }
  rewrite Hlast in Hlen. rewrite length_app in Hlen. simpl in Hlen.
  exists p. split; [exact Hlast|]. split; [lia|].
  intros i Hi. apply Hin, nth_In. lia.
Qed.

(** A column that no engineering step writes holds, in the engineered
    frame, its input cells in the order of the sort. *)
Lemma engineered_raw_column (W : nat) (lags : list Z) (df e : DataFrame)
      (target : option string) (ts : series) (n : string) :
  engineered W lags df target = Ok e ->
  get_column df "timestamp" = Some ts ->
  untouched written_by_basic n = true ->
  untouched written_by_temporal n = true ->
  untouched written_by_rolling n = true ->
  untouched written_by_light n = true ->
  no_lag_name n ->
  untouched written_by_target n = true ->
  get_column e n = option_map (fun s => map (cell_at s) (argsort ts)) (get_column df n).
Proof.
  intros He Hts U1 U2 U3 U4 U5 U6.
  destruct (engineered_steps _ _ _ _ _ He) as (d0 & d1 & d2 & d3 & d4 & d5 &
                                               H0 & H1 & H2 & H3 & H4 & H5 & H6).
  destruct (sorted_frame _ _ H0) as (ts' & Hts' & ->).
  rewrite Hts in Hts'. injection Hts' as <-.
  rewrite <- get_take.
  pose proof (basic_features_keeps n _ _ U1 H1) as K1.
  pose proof (temporal_features_keeps n _ _ U2 H2) as K2.
  pose proof (later_steps_keep n W lags d2 d3 d4 d5 e target U3 U4 U5 U6 H3 H4 H5 H6) as K3.
  unfold keeps in *. congruence.
Qed.

Lemma sensor_column_untouched (n : string) :
  In n ["ambient_light"; "ambient_light_raw"; "active_lights_count";
        "faulty_lights_count"; "is_dark"] ->
  untouched written_by_basic n = true /\
  untouched written_by_temporal n = true /\
  untouched written_by_rolling n = true /\
  untouched written_by_light n = true /\
  no_lag_name n /\
  untouched written_by_target n = true.
Proof.
  intros Hn. simpl in Hn.
  destruct Hn as [<-|[<-|[<-|[<-|[<-|[]]]]]];
    (repeat (split; [reflexivity|])); (split; [|reflexivity]);
    intros col sfx Hin; simpl in Hin; destruct Hin as [<-|[<-|[<-|[]]]]; reflexivity.
Qed.

Lemma cell_at_map_nth (s : series) (idx : list nat) (i : nat) :
  i < List.length idx -> cell_at (map (cell_at s) idx) i = cell_at s (nth i idx 0).
Proof.
  intros Hi. unfold cell_at at 1.
  rewrite (nth_indep _ null (cell_at s 0)) by now rewrite length_map.
  apply (map_nth (cell_at s)).
Qed.

(** The rows of the engineered context frame: the reading's row is the
    last one and has no timestamp; the rows before it are the last rows of
    the history in some order, each with its own timestamp and, in every
    column [n] that no step writes, its own cell. *)
Lemma engineered_context_rows
      (W : nat) (lags : list Z) (sensor_data : list (string * cell)) (h e : DataFrame)
      (ts : series) :
  well_formed h = true ->
  empty h = false ->
  row_get "timestamp" sensor_data = None ->
  get_column h "timestamp" = Some ts ->
  (forall c, In c ts -> exists t, c = Stamp t) ->
  engineered W lags (context_frame sensor_data (Some h)) None = Ok e ->
  index_len e = Nat.min 10 (index_len h) + 1
  /\ exists p,
       (forall i, i < Nat.min 10 (index_len h) -> p i < Nat.min 10 (index_len h))
       /\ (exists s, get_column e "timestamp" = Some s
                     /\ cell_at s (Nat.min 10 (index_len h)) = null
                     /\ forall i, i < Nat.min 10 (index_len h) ->
                                  cell_at s i = cell_at ts (index_len h - 10 + p i))
       /\ forall n s,
            In n ["ambient_light"; "ambient_light_raw"; "active_lights_count";
                  "faulty_lights_count"; "is_dark"] ->
            get_column h n = Some s ->
            exists s', get_column e n = Some s'
                       /\ cell_at s' (Nat.min 10 (index_len h))
                          = match row_get n sensor_data with Some c => c | None => null end
                       /\ forall i, i < Nat.min 10 (index_len h) ->
                                    cell_at s' i = cell_at s (index_len h - 10 + p i).
Proof.
  intros Hwf Hne Hkey Hts Hstamps He.
  destruct (context_frame_column sensor_data h "timestamp" ts Hwf Hne Hts) as [Hrows Hcol].
  rewrite Hkey in Hcol.
  set (ctx := context_frame sensor_data (Some h)) in *.
  set (m := Nat.min 10 (index_len h)) in *.
  assert (Hwfc : well_formed ctx = true) by apply context_frame_well_formed.
  destruct (engineered_shape _ _ _ _ _ Hwfc He) as [_ Hlen].
  pose proof (well_formed_column _ _ _ Hwf Hts) as Htlen.
  assert (Hrecent : forall s : series, List.length s = index_len h ->
                              List.length (skipn (index_len h - 10) s) = m).
  { intros s Hs. rewrite length_skipn, Hs. unfold m. lia. }
  destruct (argsort_null_last (skipn (index_len h - 10) ts)) as (p & Hp & Hplen & Hpin).
  rewrite (Hrecent ts Htlen) in Hp, Hplen, Hpin.
  set (cts := (skipn (index_len h - 10) ts ++ [null])%list) in *.
  assert (Hidx : forall i, i < m -> nth i (argsort cts) 0 = nth i p 0).
  { intros i Hi. rewrite Hp. apply app_nth1. lia. }
  assert (Hidm : nth m (argsort cts) 0 = m).
  { rewrite Hp, app_nth2 by lia. now rewrite Hplen, Nat.sub_diag. }
  assert (Halen : List.length (argsort cts) = m + 1).
  { rewrite Hp, length_app. simpl. lia. }
  assert (Hcell : forall (s : series) x i, List.length s = index_len h -> i < m ->
            cell_at (skipn (index_len h - 10) s ++ [x])%list (nth i p 0)
            = cell_at s (index_len h - 10 + nth i p 0)).
  { intros s x i Hs Hi. unfold cell_at.
    rewrite app_nth1 by (rewrite (Hrecent s Hs); now apply Hpin).
    apply nth_skipn. }
  assert (Hcellm : forall (s : series) x, List.length s = index_len h ->
            cell_at (skipn (index_len h - 10) s ++ [x])%list m = x).
  { intros s x Hs. unfold cell_at.
    rewrite app_nth2 by (rewrite (Hrecent s Hs); lia).
    now rewrite (Hrecent s Hs), Nat.sub_diag. }
  split; [lia|]. exists (fun i => nth i p 0). split; [exact Hpin|]. split.
  - destruct (engineered_time_columns _ _ _ _ _ He) as (cts' & dt & Hcts & Hdt & Hstamp & _).
    rewrite Hcol in Hcts. injection Hcts as <-.
    pose proof (to_datetime_length _ _ Hdt) as Hdlen.
    rewrite length_map, Halen in Hdlen.
    assert (Hstampcell : forall i, i < m + 1 ->
              cell_at (map stamp_cell dt) i = stamp_cell (nth i dt None)).
    { intros i Hi. unfold cell_at.
      rewrite (nth_indep _ null (stamp_cell None)) by (rewrite length_map; lia).
      apply (map_nth stamp_cell). }
    exists (map stamp_cell dt). split; [exact Hstamp|]. split.
    + rewrite Hstampcell by lia.
      destruct (to_datetime_nth _ dt m Hdt) as [Hn _]. rewrite Hn; [reflexivity|].
      fold (cell_at (map (cell_at cts) (argsort cts)) m).
      rewrite cell_at_map_nth, Hidm by lia. now apply Hcellm.
    + intros i Hi. rewrite Hstampcell by lia.
      destruct (to_datetime_nth _ dt i Hdt) as [_ Hs].
      fold (cell_at (map (cell_at cts) (argsort cts)) i) in Hs.
      rewrite cell_at_map_nth, Hidx in Hs by lia.
      unfold cts in Hs. rewrite (Hcell ts null i Htlen Hi) in Hs.
      destruct (Hstamps (cell_at ts (index_len h - 10 + nth i p 0))) as [t Ht].
      { apply nth_In. specialize (Hpin i Hi). unfold m in Hpin. lia. }
      rewrite (Hs t Ht). simpl. now rewrite Ht.
  - intros n s Hn Hs.
    destruct (sensor_column_untouched n Hn) as (U1 & U2 & U3 & U4 & U5 & U6).
    destruct (context_frame_column sensor_data h n s Hwf Hne Hs) as [_ Hcoln].
    pose proof (engineered_raw_column _ _ _ _ _ _ n He Hcol U1 U2 U3 U4 U5 U6) as Hraw.
    fold ctx in Hcoln. rewrite Hcoln in Hraw. simpl in Hraw.
    pose proof (well_formed_column _ _ _ Hwf Hs) as Hslen.
    eexists. split; [exact Hraw|]. split.
    + rewrite cell_at_map_nth, Hidm by lia. now apply Hcellm.
    + intros i Hi. rewrite cell_at_map_nth, Hidx by lia. now apply Hcell.
Qed.

Lemma history_frame_columns (rows : list SensorData) (n : string) (s : series) :
  get_column (history_frame rows) n = Some s ->
  n = "timestamp"
  \/ In n ["ambient_light"; "ambient_light_raw"; "active_lights_count";
           "faulty_lights_count"; "is_dark"].
Proof.
  intros H. apply get_has_column in H. rewrite has_column_names in H.
  unfold column_names, history_frame in H. cbn [columns map fst existsb] in H.
  repeat (apply orb_prop in H as [H|H]; [apply String.eqb_eq in H; subst; simpl; auto 7|]).
  discriminate.
Qed.

(** X25.  What the predictors engineer at ingestion.  The reading as
    [create_sensor_data] passes it has no 'timestamp' key, so the row built
    from it sorts last in the engineered frame, there holds the reading's
    values under a null timestamp, and is dropped by the pruning.  Every row
    of the feature frame is the engineered row of one of the (at most ten)
    last stored readings handed over as history: it agrees with that
    reading on the timestamp and on the five sensor columns.  The "last
    row" the models score is therefore a stored reading's row, never the
    row built from the dict; which stored reading that is depends on the
    table, and it may well be the stored copy of the reading being
    ingested. *)
Theorem scored_rows_are_rows_of_stored_readings
        (self : FeatureEngineer) (rows : list SensorData) (data : Reading)
        (out : DataFrame) (w : World) :
  rows <> [] ->
  fst (create_features self (context_frame (sensor_dict data) (Some (history_frame rows)))
         None w) = Ok out ->
  exists e kept,
    engineered (window_size self) (default_lags w)
               (context_frame (sensor_dict data) (Some (history_frame rows))) None = Ok e
    /\ index_len e = Nat.min 10 (List.length rows) + 1
    /\ (exists s, get_column e "timestamp" = Some s
                  /\ cell_at s (Nat.min 10 (List.length rows)) = null)
    /\ (forall n c, In (n, c) (sensor_dict data) ->
                    exists s, get_column e n = Some s
                              /\ cell_at s (Nat.min 10 (List.length rows)) = c)
    /\ out = take kept e
    /\ StronglySorted lt kept
    /\ forall i, In i kept ->
         i < Nat.min 10 (List.length rows)
         /\ exists j, List.length rows - 10 <= j < List.length rows
              /\ forall n s, get_column (history_frame rows) n = Some s ->
                   exists s', get_column e n = Some s' /\ cell_at s' i = cell_at s j.
Proof.
  intros Hrows Hcf.
  set (h := history_frame rows) in *.
  assert (Hwf : well_formed h = true) by apply history_frame_well_formed.
  assert (Hne : empty h = false) by (destruct rows; [now elim Hrows|reflexivity]).
  assert (Hempty : empty (context_frame (sensor_dict data) (Some h)) = false)
    by (apply context_frame_not_empty; discriminate).
  destruct (create_features_output _ _ _ _ _ Hempty Hcf) as (e & He & ->).
  assert (Hst : forall c, In c (map (fun r => Stamp (sd_timestamp r)) rows) ->
                          exists t, c = Stamp t).
  { intros c Hc. apply in_map_iff in Hc as (r & <- & _). eauto. }
  destruct (engineered_context_rows (window_size self) (default_lags w) (sensor_dict data) h e
              (map (fun r => Stamp (sd_timestamp r)) rows) Hwf Hne eq_refl eq_refl Hst He)
    as (Hlen & p & Hp & (s & Hs & Hsm & Hsi) & Hraw).
  change (index_len h) with (List.length rows) in *.
  exists e, (kept_rows e). split; [exact He|]. split; [exact Hlen|].
  split; [now exists s|]. split; [|split; [reflexivity|split]].
  - intros n c Hin.
    assert (Hn : In n ["ambient_light"; "ambient_light_raw"; "active_lights_count";
                       "faulty_lights_count"; "is_dark"]).
    { simpl in Hin. simpl.
      repeat (destruct Hin as [Hin|Hin]; [injection Hin as <- _; auto 6|]). destruct Hin. }
    assert (Hcol : exists sn, get_column h n = Some sn).
    { simpl in Hn. destruct Hn as [<-|[<-|[<-|[<-|[<-|[]]]]]]; eexists; reflexivity. }
    destruct Hcol as [sn Hsn].
    destruct (Hraw n sn Hn Hsn) as (s' & Hs' & Hm & _).
    exists s'. split; [exact Hs'|]. rewrite Hm.
    simpl in Hin.
    repeat (destruct Hin as [Hin|Hin]; [injection Hin as <- <-; reflexivity|]). destruct Hin.
  - apply filter_increasing, seq_increasing.
  - intros i Hi.
    pose proof (kept_rows_in_range e i Hi) as Hrange.
    assert (Him : i < Nat.min 10 (List.length rows)).
    { destruct (Nat.eq_dec i (Nat.min 10 (List.length rows))) as [->|Hneq]; [|lia].
      pose proof (null_cell_drops_row e _ _ _ Hs Hsm) as Hdrop.
      unfold kept_rows in Hi. apply filter_In in Hi as [_ Hi]. congruence. }
    split; [exact Him|].
    exists (List.length rows - 10 + p i). specialize (Hp i Him). split; [lia|].
    intros n sn Hsn. destruct (history_frame_columns rows n sn Hsn) as [->|Hn].
    + exists s. split; [exact Hs|]. rewrite (Hsi i Him).
      unfold h in Hsn. injection Hsn as <-. reflexivity.
    + destruct (Hraw n sn Hn Hsn) as (s' & Hs' & _ & Hi').
      exists s'. split; [exact Hs'|]. now apply Hi'.
Qed.

Lemma new_inference_run (dir : string) (w : World) :
  exists self w1, new_inference dir w = (Ok self, w1).
Proof. destruct (new_inference_fields dir w) as (w1 & H & _). eauto. Qed.

(** X26.  The ML step of [create_sensor_data] never raises, never touches
    the stored readings and leaves nothing pending; the prediction table
    it leaves starts with the table it found. *)
Theorem ml_step_of_ingestion_is_harmless (db : Session) (device_id : string)
        (data : Reading) (w : World) :
  exists db' w' added,
    predict_on_ingest db device_id data w = (Ok db', w')
    /\ sensor_table db' = sensor_table db
    /\ pending db' = []
    /\ prediction_table db' = (prediction_table db ++ added)%list.
Proof.
  destruct (new_inference_run "models" w) as (self & w1 & Hnew).
  destruct (generate_predictions_run self db device_id (sensor_dict data) w1)
    as (h & w2 & p & w3 & db' & w4 & t1 & t2 & _ & _ & _ & _ & _ & Hrun & Hst & Hpe & Hpt).
  exists db', w4.
  exists (match commit_error
                  (mk_session (sensor_table db) (prediction_table db)
                     (pending db ++ stored_records device_id p t1 t2)) with
          | None => (pending db ++ stored_records device_id p t1 t2)%list
          | Some _ => []
          end).
  split; [|split; [exact Hst|split; [exact Hpe|]]].
  - unfold predict_on_ingest, try_except.
    rewrite (mbind_ok _ _ _ _ _ Hnew), (mbind_ok _ _ _ _ _ Hrun). reflexivity.
  - rewrite Hpt. destruct (commit_error _); [now rewrite app_nil_r|reflexivity].
Qed.

(* ------------------------------------------------------------------ *)
(** *** The failure-events query *)

(** X27.  For a non-empty device id, the text [get_failure_events] hands
    to the database is the SELECT list, then 'FROM alerts a WHERE
    a.device_id = ' with the id between single quotes, exactly as given,
    then 'AND' and, on the next line, the original 'WHERE a.alert_type =
    ...' clause: the text has a WHERE after an AND, and whatever the
    database makes of it is what the method returns. *)
Theorem failure_events_query_for_a_device (id : string) (w : World) :
  truthy (Some id) = true ->
  failure_events_query (Some id)
  = (failure_events_select ++ ("FROM alerts a WHERE a.device_id = '" ++ id ++ "' AND")
       ++ failure_events_conditions)%string
  /\ fst (get_failure_events (Some id) w)
     = read_sql_text (failure_events_select ++ ("FROM alerts a WHERE a.device_id = '"
                                                  ++ id ++ "' AND")
                        ++ failure_events_conditions)%string.
Proof.
  intros Hid.
  assert (Hq : failure_events_query (Some id)
               = (failure_events_select ++ ("FROM alerts a WHERE a.device_id = '" ++ id
                                              ++ "' AND")
                    ++ failure_events_conditions)%string).
  { unfold failure_events_query. rewrite Hid. vm_compute. reflexivity. }
  split; [exact Hq|].
  unfold get_failure_events, mbind, lift. rewrite Hq.
  now destruct (read_sql_text _).
Qed.

End Pipeline.

(* ================================================================== *)
(** ** The statements above on concrete inputs *)
(* ================================================================== *)

Lemma create_features_empty_input_witness :
  empty header_only = true /\
  create_features no_dates coarse_numpy new_engineer header_only (Some "failure") fresh_world
  = (Ok header_only, fresh_world).
Proof.
  split; [reflexivity|].
  apply create_features_empty_input. reflexivity.
Defined.

Lemma create_features_deterministic_witness :
  default_lags world_with_csv = default_lags fresh_world /\
  fst (create_features no_dates coarse_numpy new_engineer eight_rows None
         (after_calls no_dates coarse_numpy
            [(new_engineer, seven_counts, Some "failure"); (mk_engineer 3, four_rows, None)]
            world_with_csv))
  = fst (create_features no_dates coarse_numpy new_engineer eight_rows None fresh_world).
Proof.
  split; [reflexivity|].
  apply create_features_deterministic. reflexivity.
Defined.

Lemma collect_device_data_floor_witness :
  (Z.of_nat (len fifty_rows) < 100)%Z /\
  fst (collect_device_data no_json (fun _ _ _ => Ok fifty_rows) "SL-001" None None 100
         fresh_world)
  = Ok empty_frame.
Proof.
  split; [reflexivity|].
  apply (collect_device_data_floor no_json (fun _ _ _ => Ok fifty_rows) "SL-001" None None 100
           fresh_world (0 - days 30, 1)%Z fifty_rows);
    reflexivity.
Defined.

(** Counterexample to C7 as stated: on a CSV file with a header and no
    rows, the failure trainer does not fail with an [EmptyDatasetError];
    what it raises is a [ValueError]. *)
Lemma empty_dataset_error_is_a_ValueError :
  ~ (exists msg,
        fst (train_failure_prediction_model no_dates coarse_numpy no_write_error toy_sklearn
               (fun _ => Ok header_only) (new_trainer "models")
               "data/training_data.csv" "failure_predictor" world_with_csv)
        = Raise (mk_exn "EmptyDatasetError" msg)).
Proof. intros [msg H]. vm_compute in H. discriminate H. Qed.

Lemma training_rejects_empty_dataset_witness :
  (read_file "data/training_data.csv" (files world_with_csv)
   = Some (TextFile "timestamp,faulty_lights_count")
   /\ empty header_only = true)
  /\ fst (train_anomaly_detection_model no_dates coarse_numpy no_write_error toy_sklearn
            (fun _ => Ok header_only) (new_trainer "models")
            "data/training_data.csv" "anomaly_detector" world_with_csv)
     = Raise (ValueError "Empty dataset provided")
  /\ files (snd (train_failure_prediction_model no_dates coarse_numpy no_write_error toy_sklearn
                   (fun _ => Ok header_only) (new_trainer "models")
                   "data/training_data.csv" "failure_predictor" world_with_csv))
     = files world_with_csv.
Proof.
  split; [split; reflexivity|].
  destruct (training_rejects_empty_dataset no_dates coarse_numpy no_write_error toy_sklearn
              (fun _ => Ok header_only) (new_trainer "models")
              "data/training_data.csv" "anomaly_detector" world_with_csv
              "timestamp,faulty_lights_count" header_only
              eq_refl eq_refl eq_refl) as [_ [Ha _]].
  destruct (training_rejects_empty_dataset no_dates coarse_numpy no_write_error toy_sklearn
              (fun _ => Ok header_only) (new_trainer "models")
              "data/training_data.csv" "failure_predictor" world_with_csv
              "timestamp,faulty_lights_count" header_only
              eq_refl eq_refl eq_refl) as [[_ Hf] _].
  split; assumption.
Defined.

(** The specification's fail-soft scenario: with the failure artifact
    absent, the failure entry is an error object and the anomaly entry is a
    result. *)
Lemma predict_is_fail_soft_witness :
  exists p w',
    predict no_dates coarse_numpy engine_without_failure_model reading_acd None fresh_world
    = (Ok p, w')
    /\ failure p = Error "Model not loaded".
Proof.
  destruct (predict_is_fail_soft no_dates coarse_numpy engine_without_failure_model
              reading_acd None fresh_world) as (p & w' & Hp & Hf & _).
  exists p, w'. split; [exact Hp|]. apply Hf. reflexivity.
Defined.

(** Counterexample to C1 as stated: a model fit over columns a, b, c and a
    reading with columns a, c, d.  The specification's reindexing would
    give [a, 0, c]; the code raises [KeyError] for b and the failure entry
    is an error object. *)
Lemma schema_column_missing_from_reading_fails :
  let out := unwrap (fst (create_features no_dates coarse_numpy new_engineer
                            (context_frame reading_acd None) None fresh_world)) in
  reindex_to_schema (row out 0) schema_abc = [Fl (Num 1); Fl (Num 0); Fl (Num 3)]
  /\ model_input out (Some schema_abc) <> Ok [reindex_to_schema (row out 0) schema_abc]
  /\ fst (predict_failure no_dates coarse_numpy (engine_with schema_abc) reading_acd None
            fresh_world)
     = Ok (Error (dq ++ "['b'] not in index" ++ dq)).
Proof.
  cbv zeta. split; [reflexivity|]. split; [|reflexivity].
  intros H. vm_compute in H. discriminate H.
Qed.

Lemma model_input_selects_schema_witness :
  let run := create_features no_dates coarse_numpy new_engineer
               (context_frame reading_acd None) None fresh_world in
  forallb (has_column (unwrap (fst run))) schema_ac = true
  /\ model_input (unwrap (fst run)) (Some schema_ac) = Ok [[Fl (Num 1); Fl (Num 3)]].
Proof.
  cbv zeta. split; [reflexivity|].
  apply (proj1 (proj1 (model_input_selects_schema no_dates coarse_numpy (engine_with schema_ac)
                  reading_acd None fresh_world
                  (snd (create_features no_dates coarse_numpy new_engineer
                          (context_frame reading_acd None) None fresh_world))
                  (unwrap (fst (create_features no_dates coarse_numpy new_engineer
                                  (context_frame reading_acd None) None fresh_world)))
                  schema_ac eq_refl) eq_refl) 0 eq_refl).
Defined.

(** The specification's label example: counts [0, 0, 0, 1, 0, 0, 0]. *)
Lemma failure_label_rule_witness :
  (empty seven_counts = false /\ has_column seven_counts "faulty_lights_count" = true)
  /\ get_column
       (unwrap (engineered no_dates coarse_numpy 10 [1; 3; 6]%Z seven_counts (Some "failure")))
       "target_failure"
     = Some (numbers [1; 0; 0; 0; 0; 0; 0]%Z).
Proof.
  split; [split; reflexivity|].
  destruct (failure_label_rule no_dates coarse_numpy new_engineer seven_counts
              (unwrap (engineered no_dates coarse_numpy 10 [1; 3; 6]%Z seven_counts
                         (Some "failure")))
              fresh_world eq_refl eq_refl eq_refl)
    as (ts & s & xs & Hts & Hs & Hxs & _ & Hlabel & _).
  vm_compute in Hts. injection Hts as <-.
  vm_compute in Hs. injection Hs as <-.
  vm_compute in Hxs. injection Hxs as <-.
  exact Hlabel.
Defined.

(** Counterexample to C4 as stated: on the sequence [10, 20, 30, 40] with
    window 3 the rolling mean is [10, 15, 20, 30], and the rolling-std
    column is not non-null at every row: its first cell is null. *)
Lemma rolling_std_is_null_on_the_first_row :
  let e := unwrap (engineered no_dates coarse_numpy 3 [1; 3; 6]%Z four_rows None) in
  engineered no_dates coarse_numpy 3 [1; 3; 6]%Z four_rows None = Ok e
  /\ get_column e "ambient_light_rolling_mean" = Some (numbers [10; 15; 20; 30]%Z)
  /\ exists s, get_column e "ambient_light_rolling_std" = Some s
               /\ ~ (forall i, i < index_len e -> isnull (cell_at s i) = false).
Proof.
  cbv zeta. split; [reflexivity|]. split; [reflexivity|].
  eexists. split; [reflexivity|].
  intros H. specialize (H 0). vm_compute in H.
  assert (true = false) by (apply H; repeat constructor). discriminate.
Qed.

Lemma rolling_statistics_witness :
  (In "ambient_light" numeric_cols /\ has_column four_rows "ambient_light" = true)
  /\ exists xs,
       get_column (unwrap (engineered no_dates coarse_numpy 3 [1; 3; 6]%Z four_rows None))
                  "ambient_light_rolling_mean"
       = Some (of_floats (rolling 3 agg_mean xs))
       /\ is_nan (nth 0 (rolling 3 (agg_std coarse_numpy) xs) NaN) = true.
Proof.
  split; [split; [simpl; auto|reflexivity]|].
  destruct (rolling_statistics no_dates coarse_numpy 3 [1; 3; 6]%Z four_rows
              (unwrap (engineered no_dates coarse_numpy 3 [1; 3; 6]%Z four_rows None))
              None "ambient_light" eq_refl (or_introl eq_refl) eq_refl)
    as (ts & s & xs & _ & _ & _ & (Hmean & _) & _ & Hstd & _).
  exists xs. split; assumption.
Defined.



(** A dataset without the faulty-light count: the fallback is entered and
    raises. *)
Lemma synthetic_label_fallback_raises_witness :
  (empty eight_rows = false
   /\ has_column
        (unwrap (fst (create_features no_dates coarse_numpy new_engineer eight_rows
                        (Some "failure") world_with_light_csv)))
        "target_failure" = false)
  /\ fst (train_failure_prediction_model no_dates coarse_numpy no_write_error toy_sklearn
            (fun _ => Ok eight_rows) (new_trainer "models")
            "data/training_data.csv" "failure_predictor" world_with_light_csv)
     = Raise (KeyError "faulty_lights_count").
Proof.
  split; [split; reflexivity|].
  destruct (synthetic_label_fallback_raises no_dates coarse_numpy no_write_error toy_sklearn
              (fun _ => Ok eight_rows) (new_trainer "models")
              "data/training_data.csv" "failure_predictor" world_with_light_csv
              "timestamp,ambient_light" eight_rows
              (unwrap (fst (create_features no_dates coarse_numpy new_engineer eight_rows
                              (Some "failure") world_with_light_csv)))
              eq_refl eq_refl eq_refl eq_refl eq_refl) as (_ & Hraise & _).
  exact Hraise.
Defined.

(* ------------------------------------------------------------------ *)
(** *** Further examples from the specification *)

(** Lag 1 of [10, 20, 30, 40] is [null, 10, 20, 30]. *)
Example lag_one_example :
  shift 1 (numbers [10; 20; 30; 40]%Z) = (null :: numbers [10; 20; 30]%Z).
Proof. reflexivity. Qed.

(** A healthy one-row context (no history) is scored by both models. *)
Example predict_without_history :
  fst (predict no_dates coarse_numpy (engine_with schema_ac) reading_acd None fresh_world)
  = Ok (mk_predictions
          (Result (mk_failure_result 0 (3 # 4) (1 # 4) 0))
          (Result (mk_anomaly_result false (-1 # 2) 1))).
Proof. reflexivity. Qed.

(** With at least [min_readings] rows the collector returns them. *)
Example collect_enough_rows :
  fst (collect_device_data no_json (fun _ _ _ => Ok fifty_rows) "SL-001" None None 50
         fresh_world)
  = Ok fifty_rows.
Proof. reflexivity. Qed.

(** A null in an input column prunes the row as well: the last of these
    eight readings has no GPS latitude and is not returned. *)
Example null_input_cell_prunes_the_row :
  let e := unwrap (engineered no_dates coarse_numpy 10 [1; 3; 6]%Z late_gap None) in
  rows_without_null_lag_or_diff e = [6; 7] /\ kept_rows e = [6].
Proof. cbv zeta. split; reflexivity. Qed.

(* ------------------------------------------------------------------ *)
(** *** Feature engineering on concrete frames *)

Lemma create_features_shape_witness :
  let out := unwrap (fst (create_features no_dates coarse_numpy new_engineer eight_rows None
                            fresh_world)) in
  well_formed out = true
  /\ index_len out <= index_len eight_rows
  /\ forall n, has_column eight_rows n = true -> has_column out n = true.
Proof.
  cbv zeta.
  apply (create_features_shape no_dates coarse_numpy new_engineer eight_rows _ None
           fresh_world); reflexivity.
Defined.

Lemma create_features_output_has_no_null_witness :
  let out := unwrap (fst (create_features no_dates coarse_numpy new_engineer eight_rows None
                            fresh_world)) in
  empty eight_rows = false /\ fillna0 out = out.
Proof.
  cbv zeta. split; [reflexivity|].
  apply (create_features_output_has_no_null no_dates coarse_numpy new_engineer eight_rows _
           None fresh_world); reflexivity.
Defined.

Lemma short_frame_is_pruned_entirely_witness :
  let out := unwrap (fst (create_features no_dates coarse_numpy new_engineer four_rows None
                            fresh_world)) in
  index_len four_rows <= 6 /\ index_len out = 0 /\ values out = [].
Proof.
  cbv zeta. split; [simpl; lia|].
  apply (short_frame_is_pruned_entirely no_dates coarse_numpy new_engineer four_rows _ None
           fresh_world "ambient_light");
    first [reflexivity | simpl; lia | simpl; auto].
Defined.

Lemma sort_values_of_sorted_frame_witness :
  sort_values four_rows "timestamp" = Ok four_rows.
Proof.
  apply (sort_values_of_sorted_frame four_rows "timestamp" (map hourly [0; 1; 2; 3]%Z));
    [reflexivity|reflexivity|].
  intros i j Hij Hj. simpl in Hj.
  destruct j as [|[|[|[|j]]]]; try lia; destruct i as [|[|[|i]]]; try lia;
    (split; [reflexivity|intros _; reflexivity]).
Defined.

Lemma sort_values_reorders_witness :
  index_len (unwrap (sort_values late_gap "timestamp")) = index_len late_gap.
Proof.
  apply (sort_values_reorders late_gap (unwrap (sort_values late_gap "timestamp"))
           "timestamp"); reflexivity.
Defined.

Lemma time_since_start_is_not_negative_witness :
  exists s,
    get_column (unwrap (fst (create_features no_dates coarse_numpy new_engineer eight_rows
                               None fresh_world))) "time_since_start" = Some s
    /\ forall x, In x s -> exists q, x = Fl (Num q) /\ (0 <= q)%Q.
Proof.
  apply (time_since_start_is_not_negative no_dates coarse_numpy new_engineer eight_rows _
           None fresh_world); reflexivity.
Defined.

Lemma lag_columns_look_back_witness :
  exists c,
    get_column (unwrap (engineered no_dates coarse_numpy 10 [1; 3; 6]%Z eight_rows None))
      (lag_name "ambient_light" 3) = Some c
    /\ cell_at c 2 = null /\ cell_at c 5 = Fl (of_Z 13).
Proof.
  destruct (lag_columns_look_back no_dates coarse_numpy 10 eight_rows
              (unwrap (engineered no_dates coarse_numpy 10 [1; 3; 6]%Z eight_rows None))
              None "ambient_light"
              (numbers [11; 12; 13; 14; 15; 16; 17; 18]%Z)
              (map hourly [0; 1; 2; 3; 4; 5; 6; 7]%Z) 3
              eq_refl eq_refl (or_introl eq_refl) (or_intror (or_introl eq_refl))
              eq_refl eq_refl) as (c & Hc & Hcells).
  exists c. split; [exact Hc|]. split.
  - apply (Hcells 2). simpl. lia.
  - apply (Hcells 5). simpl. lia.
Defined.
(* ------------------------------------------------------------------ *)
(** *** Inference on concrete readings *)

Lemma context_frame_is_recent_history_then_reading_witness :
  index_len (context_frame reading_light (Some four_rows)) = 5
  /\ get_column (context_frame reading_light (Some four_rows)) "ambient_light"
     = Some (numbers [10; 20; 30; 40; 5]%Z).
Proof.
  apply (context_frame_is_recent_history_then_reading reading_light four_rows
           "ambient_light" (numbers [10; 20; 30; 40]%Z)); reflexivity.
Defined.

Lemma short_history_gives_the_model_no_row_witness :
  let out := unwrap (fst (create_features no_dates coarse_numpy new_engineer
                            (context_frame reading_light (Some four_rows)) None
                            fresh_world)) in
  history_rows (Some four_rows) <= 5
  /\ model_input out (Some ["ambient_light"]) = Ok []
  /\ index_len out = 0.
Proof.
  cbv zeta. split; [simpl; lia|]. split; [reflexivity|].
  apply (short_history_gives_the_model_no_row no_dates coarse_numpy new_engineer
           reading_light (Some four_rows) "ambient_light" (Some ["ambient_light"]) _ []
           fresh_world);
    first [reflexivity | simpl; lia | simpl; auto].
Defined.

Lemma engine_without_artifacts_predicts_nothing_witness :
  exists self w1,
    new_inference "models" fresh_world = (Ok self, w1)
    /\ predict no_dates coarse_numpy self reading_light (Some four_rows) w1
       = (Ok (mk_predictions (Error "Model not loaded") (Error "Model not loaded")), w1).
Proof.
  destruct (engine_without_artifacts_predicts_nothing no_dates coarse_numpy "models"
              fresh_world eq_refl eq_refl) as (self & w1 & Hnew & Hpredict).
  exists self, w1. split; [exact Hnew|apply Hpredict].
Defined.

Lemma model_without_schema_never_predicts_witness :
  exists msg,
    fst (predict_failure no_dates coarse_numpy
           (fst_engine (new_inference "models" world_with_model_only))
           reading_light None fresh_world)
    = Ok (Error msg).
Proof.
  apply (proj1 (model_without_schema_never_predicts no_dates coarse_numpy "models"
                  world_with_model_only
                  (snd (new_inference "models" world_with_model_only))
                  (fst_engine (new_inference "models" world_with_model_only))
                  eq_refl) eq_refl).
Defined.

(* ------------------------------------------------------------------ *)
(** *** Training runs *)

Lemma failed_training_writes_nothing_before_saving_witness :
  let run := train_anomaly_detection_model no_dates coarse_numpy disk_full_after_model
               toy_sklearn (fun _ => Ok eight_rows) (new_trainer "models")
               "data/training_data.csv" "anomaly_detector" world_with_light_csv in
  fst run = Raise (mk_exn "OSError" "[Errno 28] No space left on device")
  /\ (files (snd run) = files world_with_light_csv
      \/ save_refused disk_full_after_model (fun b => exists m, b = DetectorPickle m)
           "models/anomaly_detector.pkl" "models/anomaly_detector_features.pkl"
           (files world_with_light_csv)
           (mk_exn "OSError" "[Errno 28] No space left on device")
           (files (snd run))).
Proof.
  cbv zeta. split; [reflexivity|].
  apply (proj2 (failed_training_writes_nothing_before_saving no_dates coarse_numpy
                  disk_full_after_model toy_sklearn (fun _ => Ok eight_rows)
                  (new_trainer "models") "data/training_data.csv" "anomaly_detector"
                  world_with_light_csv)
           (mk_exn "OSError" "[Errno 28] No space left on device")).
  reflexivity.
Defined.

(** The same run: the model file is there, its schema file is not. *)
Example refused_schema_leaves_the_model_alone :
  let run := train_anomaly_detection_model no_dates coarse_numpy disk_full_after_model
               toy_sklearn (fun _ => Ok eight_rows) (new_trainer "models")
               "data/training_data.csv" "anomaly_detector" world_with_light_csv in
  read_file "models/anomaly_detector.pkl" (files (snd run))
  = Some (DetectorPickle constant_detector)
  /\ read_file "models/anomaly_detector_features.pkl" (files (snd run)) = None
  /\ files (snd run) <> files world_with_light_csv.
Proof.
  cbv zeta. split; [reflexivity|]. split; [reflexivity|].
  intros H. vm_compute in H. discriminate H.
Qed.

Lemma trained_failure_model_is_loaded_witness :
  let run := train_failure_prediction_model no_dates coarse_numpy no_write_error toy_sklearn
               (fun _ => Ok faulty_device) (new_trainer "models")
               "data/training_data.csv" "failure_predictor" world_with_csv in
  fr_training_samples (trained_report (fst run)) = 24
  /\ exists self w2 m cols,
       fitted_by_failure_trainer no_dates coarse_numpy toy_sklearn (fun _ => Ok faulty_device)
         (new_trainer "models") "data/training_data.csv" world_with_csv cols m
       /\ read_file "models/failure_predictor.pkl" (files (snd run))
          = Some (ClassifierPickle m)
       /\ read_file "models/failure_predictor_features.pkl" (files (snd run))
          = Some (FeaturesPickle cols)
       /\ new_inference "models" (snd run) = (Ok self, w2)
       /\ failure_model self = Some m
       /\ failure_features self = Some cols.
Proof.
  cbv zeta. split; [vm_compute; reflexivity|].
  destruct (trained_failure_model_is_loaded no_dates coarse_numpy no_write_error toy_sklearn
              (fun _ => Ok faulty_device) "models" "data/training_data.csv" world_with_csv
              (trained_report (fst (train_failure_prediction_model no_dates coarse_numpy
                                      no_write_error toy_sklearn (fun _ => Ok faulty_device)
                                      (new_trainer "models") "data/training_data.csv"
                                      "failure_predictor" world_with_csv)))
              eq_refl)
    as (self & w2 & m & cols & Hfit & Hmf & Hsf & Hnew & Hm & Hs & _).
  exists self, w2, m, cols. auto 10.
Defined.

Lemma trained_anomaly_model_is_loaded_witness :
  let run := train_anomaly_detection_model no_dates coarse_numpy no_write_error toy_sklearn
               (fun _ => Ok eight_rows) (new_trainer "models")
               "data/training_data.csv" "anomaly_detector" world_with_light_csv in
  ar_training_samples (anomaly_report (fst run)) = 2
  /\ exists self w2 m cols,
       fitted_by_anomaly_trainer no_dates coarse_numpy toy_sklearn (fun _ => Ok eight_rows)
         (new_trainer "models") "data/training_data.csv" world_with_light_csv cols m
       /\ read_file "models/anomaly_detector.pkl" (files (snd run))
          = Some (DetectorPickle m)
       /\ read_file "models/anomaly_detector_features.pkl" (files (snd run))
          = Some (FeaturesPickle cols)
       /\ new_inference "models" (snd run) = (Ok self, w2)
       /\ anomaly_model self = Some m
       /\ anomaly_features self = Some cols.
Proof.
  cbv zeta. split; [vm_compute; reflexivity|].
  destruct (trained_anomaly_model_is_loaded no_dates coarse_numpy no_write_error toy_sklearn
              (fun _ => Ok eight_rows) "models" "data/training_data.csv" world_with_light_csv
              (anomaly_report (fst (train_anomaly_detection_model no_dates coarse_numpy
                                      no_write_error toy_sklearn (fun _ => Ok eight_rows)
                                      (new_trainer "models") "data/training_data.csv"
                                      "anomaly_detector" world_with_light_csv)))
              eq_refl)
    as (self & w2 & m & cols & Hfit & Hmf & Hsf & Hnew & Hm & Hs & _).
  exists self, w2, m, cols. auto 10.
Defined.

Lemma main_aborts_on_dataset_without_fault_counts_witness :
  fst (train_main no_dates coarse_numpy no_write_error toy_sklearn (fun _ => Ok eight_rows)
         "data/training_data.csv" "both" "models" world_with_light_csv)
  = Raise (KeyError "faulty_lights_count")
  /\ files (snd (train_main no_dates coarse_numpy no_write_error toy_sklearn
                   (fun _ => Ok eight_rows) "data/training_data.csv" "both" "models"
                   world_with_light_csv))
     = (files world_with_light_csv ++ [("models", Directory)])%list.
Proof.
  destruct (main_aborts_on_dataset_without_fault_counts no_dates coarse_numpy no_write_error
              toy_sklearn (fun _ => Ok eight_rows) "data/training_data.csv" "models"
              "timestamp,ambient_light" eight_rows
              (unwrap (fst (create_features no_dates coarse_numpy new_engineer eight_rows
                              (Some "failure")
                              (snd (makedirs no_write_error "models" world_with_light_csv)))))
              world_with_light_csv (snd (makedirs no_write_error "models" world_with_light_csv))
              eq_refl eq_refl eq_refl eq_refl eq_refl eq_refl eq_refl) as (H1 & H2 & _).
  split; [exact H1|]. rewrite H2. reflexivity.
Defined.

(* ------------------------------------------------------------------ *)
(** *** Collecting and storing on concrete data *)

Lemma collected_frame_is_empty_or_sufficient_witness :
  fifty_rows = empty_frame
  \/ exists (range : Z * Z) df,
       Ok fifty_rows = Ok df
       /\ (10 <= Z.of_nat (len fifty_rows))%Z
       /\ len fifty_rows = len df
       /\ grows df fifty_rows.
Proof.
  apply (collected_frame_is_empty_or_sufficient no_json (fun _ _ _ => Ok fifty_rows)
           "SL-001" None None 10 fresh_world fifty_rows).
  reflexivity.
Defined.

Lemma all_devices_frames_are_sufficient_witness :
  exists device_ids,
    Ok ["SL-001"; "SL-002"] = Ok device_ids
    /\ NoDup (map fst [("SL-001", hundred_rows); ("SL-002", hundred_rows)])
    /\ forall k df, In (k, df) [("SL-001", hundred_rows); ("SL-002", hundred_rows)] ->
                    In k device_ids /\ empty df = false /\ 100 <= len df.
Proof.
  apply (all_devices_frames_are_sufficient no_json (fun _ _ _ => Ok hundred_rows)
           (Ok ["SL-001"; "SL-002"]) None None fresh_world
           [("SL-001", hundred_rows); ("SL-002", hundred_rows)]).
  vm_compute. reflexivity.
Defined.

Lemma dataset_path_needs_a_directory_witness :
  fst (create_training_dataset no_write_error no_json (fun _ _ _ => Ok hundred_rows) (Ok ["SL-001"])
         count_csv (Some "SL-001") "training_data.csv" None None fresh_world)
  = Raise (mk_exn "FileNotFoundError" "[Errno 2] No such file or directory: ''").
Proof.
  apply (dataset_path_needs_a_directory no_write_error no_json (fun _ _ _ => Ok hundred_rows)
           (Ok ["SL-001"]) count_csv "SL-001" "training_data.csv" None None fresh_world
           hundred_rows);
    vm_compute; reflexivity.
Defined.

Lemma dataset_is_written_when_collected_witness :
  read_file "data/training_data.csv"
    (files (snd (create_training_dataset no_write_error no_json (fun _ _ _ => Ok hundred_rows)
                   (Ok ["SL-001"]) count_csv (Some "SL-001") "data/training_data.csv"
                   None None fresh_world)))
  = Some (TextFile "100").
Proof.
  destruct (dataset_is_written_when_collected no_write_error no_json (fun _ _ _ => Ok hundred_rows)
              (Ok ["SL-001"]) count_csv "SL-001" "data/training_data.csv" None None
              fresh_world
              (snd (create_training_dataset no_write_error no_json (fun _ _ _ => Ok hundred_rows)
                      (Ok ["SL-001"]) count_csv (Some "SL-001") "data/training_data.csv"
                      None None fresh_world))
              hundred_rows eq_refl)
    as [[Hempty _]|(_ & _ & Hfile)].
  - vm_compute. reflexivity.
  - discriminate Hempty.
  - exact Hfile.
Defined.

Lemma payload_that_is_no_list_aborts_parsing_witness :
  exists e' w', _parse_lights_data json_five payload_frame fresh_world = (Raise e', w').
Proof.
  apply (payload_that_is_no_list_aborts_parsing json_five payload_frame 0 "5" (JInt 5)
           (TypeError "object is not iterable") fresh_world);
    first [reflexivity | simpl; lia].
Defined.

Lemma undecodable_payloads_are_skipped_witness :
  exists out w',
    _parse_lights_data no_json payload_frame fresh_world = (Ok out, w')
    /\ get_column out "light_3_fault" = Some [null]
    /\ get_column out "lights_data" = Some [Str "5"].
Proof.
  destruct (undecodable_payloads_are_skipped no_json payload_frame fresh_world)
    as (out & w' & Hrun & _ & _ & Hlight & Hother).
  - intros idx Hidx. simpl in Hidx. destruct idx as [|idx]; [|lia].
    right. exists "5", (JSONDecodeError "Expecting value"). split; reflexivity.
  - exists out, w'. split; [exact Hrun|]. split.
    + apply (Hlight "light_3_fault"). simpl. auto 20.
    + rewrite (Hother "lights_data"); [reflexivity|].
      intros Hin. simpl in Hin. repeat (destruct Hin as [Hin|Hin]; [discriminate|]).
      exact Hin.
Defined.


Lemma reading_without_history_is_never_scored_witness :
  exists p db' w',
    generate_predictions no_dates coarse_numpy no_db_error no_db_error
      (engine_with schema_ac) empty_session "SL-001" (sensor_dict dark_reading) fresh_world
    = (Ok (Result p, db'), w')
    /\ failure p = Error "'timestamp'"
    /\ anomaly p = Error "'timestamp'"
    /\ prediction_table db' = [].
Proof.
  apply (reading_without_history_is_never_scored no_dates coarse_numpy no_db_error
           no_db_error (engine_with schema_ac) empty_session "SL-001" dark_reading
           fresh_world);
    reflexivity.
Defined.

Lemma scored_rows_are_rows_of_stored_readings_witness :
  let ctx := context_frame (sensor_dict latest_reading)
               (Some (history_frame recent_readings)) in
  let out := unwrap (fst (create_features no_dates coarse_numpy new_engineer ctx None
                            fresh_world)) in
  index_len out = 2
  /\ exists e kept,
       engineered no_dates coarse_numpy 10 [1; 3; 6]%Z ctx None = Ok e
       /\ index_len e = 9
       /\ out = take kept e
       /\ forall i, In i kept -> i < 8.
Proof.
  cbv zeta. split; [vm_compute; reflexivity|].
  destruct (scored_rows_are_rows_of_stored_readings no_dates coarse_numpy new_engineer
              recent_readings latest_reading
              (unwrap (fst (create_features no_dates coarse_numpy new_engineer
                              (context_frame (sensor_dict latest_reading)
                                 (Some (history_frame recent_readings)))
                              None fresh_world)))
              fresh_world)
    as (e & kept & He & Hlen & _ & _ & Hout & _ & Hkept).
  - discriminate.
  - reflexivity.
  - exists e, kept. split; [exact He|]. split; [exact Hlen|]. split; [exact Hout|].
    intros i Hi. exact (proj1 (Hkept i Hi)).
Defined.

(** On that run the row handed to a model is the stored copy of the
    reading being ingested: its timestamp is that of the last stored
    reading, which no key of the dict carries. *)
Example stored_copy_of_the_reading_is_scored :
  let out := unwrap (fst (create_features no_dates coarse_numpy new_engineer
                            (context_frame (sensor_dict latest_reading)
                               (Some (history_frame recent_readings)))
                            None fresh_world)) in
  model_input out (Some ["timestamp"; "ambient_light"; "ambient_light_raw";
                         "active_lights_count"; "faulty_lights_count"; "is_dark"])
  = Ok [[Stamp (sd_timestamp (stored_at 7)); Fl (Num 17); Fl (Num 407); Fl (Num 4);
         Fl (Num 2); Fl (Num 1)]].
Proof. vm_compute. reflexivity. Qed.

Lemma failure_events_query_for_a_device_witness :
  fst (get_failure_events (fun _ => Ok empty_frame) (Some "SL-001") fresh_world)
  = Ok empty_frame.
Proof.
  rewrite (proj2 (failure_events_query_for_a_device (fun _ => Ok empty_frame) "SL-001"
                    fresh_world eq_refl)).
  reflexivity.
Defined.
